(** * In-memory cache and session stores of the FOODI application

    A shallow embedding of [app/utils/cache_manager.py] (classes
    [CacheManager] and [RestaurantCache]) and
    [app/utils/session_manager.py] (class [SessionManager]), with the
    properties their specification states and further properties of the
    code.

    Conventions of the embedding:
    - a Python [dict] is an insertion-ordered association list: iteration
      order is observable through [min], which returns the first minimal
      element, so order is part of the model;
    - [time.time()] is an integer number of clock ticks; every operation
      takes the reading [now] of the clock during the call, and TTLs and
      timeouts are counted in the same unit;
    - Python integers are [Z]; the one float that is computed, the hit
      rate, is an exact rational and [round] the exact rounding (what
      the code computes in floating point can differ from it by a
      hundredth when the exact rate lies on a tie);
    - a [str] is the string of the bytes of its UTF-8 encoding, which is
      what [encode('utf-8')] returns and what MD5 hashes; [len] counts
      code points, see [py_len];
    - [set] adds its TTL, an [int], to the float [time.time()] returns:
      the conversion of the TTL to a float raises [OverflowError] from
      [2^1024 - 2^970] on in absolute value, and the [except] clause of
      [set] then returns [False] with the value written and the metadata
      not; this one failure of the cache is modelled, see
      [float_of_int_fits]. The other [try] blocks of the cache have
      nothing in them that raises on the data of the model and are left
      out, except that [get_cache_info] formats two dates and
      [datetime.fromtimestamp] raises, uncaught, for a time outside the
      range of [datetime]: [get_cache_info] here is what the call
      reports when it returns. The session manager's [try] blocks are modelled,
      together with its locks, by calls that return, raise or block;
    - one client thread calls the stores; the timer thread that sweeps
      expired sessions in the background is not part of the model. *)

From Stdlib Require Import ZArith QArith Qround Qabs Ascii String Lia Lqa.
From stdpp Require Import base tactics option list strings pretty.

Local Open Scope string_scope.
Local Open Scope list_scope.
Local Open Scope Z_scope.

(** ** Insertion-ordered dictionaries *)

Section dict.
Context {K V : Type} `{EqDecision K}.
Implicit Types (k : K) (v : V) (d : list (K * V)).

(** [d.get(k)] *)
Fixpoint dict_get k d : option V :=
  match d with
  | [] => None
  | (k', v) :: d' => if decide (k = k') then Some v else dict_get k d'
  end.

(** [k in d] *)
Definition dict_mem k d : bool :=
  match dict_get k d with Some _ => true | None => false end.

(** [d[k] = v]: an existing key keeps its position, a new one goes last. *)
Fixpoint dict_set k v d : list (K * V) :=
  match d with
  | [] => [(k, v)]
  | (k', v') :: d' =>
      if decide (k = k') then (k, v) :: d' else (k', v') :: dict_set k v d'
  end.

(** [d.pop(k, None)], the popped value dropped. *)
Fixpoint dict_pop k d : list (K * V) :=
  match d with
  | [] => []
  | (k', v') :: d' =>
      if decide (k = k') then dict_pop k d' else (k', v') :: dict_pop k d'
  end.

Definition dict_keys d : list K := d.*1.

(** [d.update(other)] and the [{..., **other}] display. *)
Definition dict_update d (other : list (K * V)) : list (K * V) :=
  foldl (λ acc kv, dict_set kv.1 kv.2 acc) d other.
End dict.

(** [min(xs, key=f)]: the first element whose key is minimal. *)
Fixpoint py_min_from {A} (f : A → Z) (best : A) (xs : list A) : A :=
  match xs with
  | [] => best
  | x :: xs' => py_min_from f (if f x <? f best then x else best) xs'
  end.

Definition py_min {A} (f : A → Z) (xs : list A) : option A :=
  match xs with
  | [] => None
  | x :: xs' => Some (py_min_from f x xs')
  end.

(** [float(n)] for an [int] [n], as [x + n] does for a float [x]: the
    conversion raises [OverflowError] when [n] rounds beyond the largest
    double, that is from [2^1024 - 2^970] on in absolute value. *)
Definition float_overflow_bound : Z := 2 ^ 1024 - 2 ^ 970.

Definition float_of_int_fits (n : Z) : bool := Z.abs n <? float_overflow_bound.
Arguments float_of_int_fits : simpl never.

(** A byte [10xxxxxx], which continues a code point in UTF-8. *)
Definition is_continuation_byte (c : Ascii.ascii) : bool :=
  let n := Ascii.nat_of_ascii c in Nat.leb 128 n && Nat.ltb n 192.

(** [len(s)]: the number of code points, the bytes that start one. *)
Fixpoint py_len (s : string) : nat :=
  match s with
  | EmptyString => 0
  | String c s' => if is_continuation_byte c then py_len s' else S (py_len s')
  end.

(** [pattern in s] on strings. *)
Fixpoint str_contains (pattern s : string) : bool :=
  String.prefix pattern s ||
  match s with
  | EmptyString => false
  | String _ s' => str_contains pattern s'
  end.

(** ** The cache store: [cache_manager.py] *)

Module Cache.

Record Stats := mkStats {
  hits : Z; misses : Z; sets : Z; deletes : Z; evictions : Z; cleanups : Z
}.

Record Metadata := mkMetadata {
  created_at : Z; ttl : Z; expires_at : Z; access_count : Z
}.

Record CacheManager {V : Type} := mkCache {
  default_ttl : Z;
  max_size : Z;
  cache_data : list (string * V);
  cache_metadata : list (string * Metadata);
  access_times : list (string * Z);
  stats : Stats
}.
Arguments CacheManager : clear implicits.

(** The record returned by [get_stats]. *)
Record StatsReport := mkReport {
  cache_size : Z;
  report_max_size : Z;
  hit_rate : Q;
  total_requests : Z;
  counters : Stats
}.

Definition bump_hits (st : Stats) : Stats :=
  mkStats (hits st + 1) (misses st) (sets st) (deletes st) (evictions st) (cleanups st).
Definition bump_misses (st : Stats) : Stats :=
  mkStats (hits st) (misses st + 1) (sets st) (deletes st) (evictions st) (cleanups st).
Definition bump_sets (st : Stats) : Stats :=
  mkStats (hits st) (misses st) (sets st + 1) (deletes st) (evictions st) (cleanups st).
Definition bump_deletes (st : Stats) : Stats :=
  mkStats (hits st) (misses st) (sets st) (deletes st + 1) (evictions st) (cleanups st).
Definition bump_evictions (st : Stats) : Stats :=
  mkStats (hits st) (misses st) (sets st) (deletes st) (evictions st + 1) (cleanups st).
Definition bump_cleanups (st : Stats) : Stats :=
  mkStats (hits st) (misses st) (sets st) (deletes st) (evictions st) (cleanups st + 1).

(** [round(x, 2)] on exact rationals: nearest hundredth, ties to even.
    The code rounds the double nearest to the rate, which at a tie of the
    exact rate can fall on the other side of it. *)
Definition round_half_even (x : Q) : Z :=
  let f := Qfloor x in
  match Qcompare (x - inject_Z f) (1 # 2) with
  | Lt => f
  | Gt => f + 1
  | Eq => if Z.even f then f else f + 1
  end.

Definition py_round2 (x : Q) : Q := (round_half_even (x * 100) # 100)%Q.

Section ops.
Context {V : Type}.
(** [hashlib.md5(key.encode('utf-8')).hexdigest()], a library function. *)
Variable md5_hexdigest : string → string.
Local Abbreviation Cache := (CacheManager V).

Definition with_stats (f : Stats → Stats) (s : Cache) : Cache :=
  mkCache V (default_ttl s) (max_size s) (cache_data s) (cache_metadata s)
    (access_times s) (f (stats s)).
Definition with_access_times (f : list (string * Z) → list (string * Z))
    (s : Cache) : Cache :=
  mkCache V (default_ttl s) (max_size s) (cache_data s) (cache_metadata s)
    (f (access_times s)) (stats s).

(** [__init__] *)
Definition init (default_ttl max_size : Z) : Cache :=
  mkCache V default_ttl max_size [] [] [] (mkStats 0 0 0 0 0 0).

Definition _normalize_key (key : string) : string :=
  if Nat.ltb 250 (py_len key) then md5_hexdigest key else key.

Definition _is_expired (now : Z) (key : string) (s : Cache) : bool :=
  match dict_get key (cache_metadata s) with
  | None => true
  | Some m => expires_at m <? now
  end.

Definition _delete_key (key : string) (s : Cache) : Cache :=
  mkCache V (default_ttl s) (max_size s)
    (dict_pop key (cache_data s))
    (dict_pop key (cache_metadata s))
    (dict_pop key (access_times s))
    (stats s).

Definition _evict_lru (s : Cache) : Cache :=
  match py_min snd (access_times s) with
  | None => s
  | Some (lru_key, _) => with_stats bump_evictions (_delete_key lru_key s)
  end.

Definition get (now : Z) (key : string) (s : Cache) : option V * Cache :=
  let normalized_key := _normalize_key key in
  if negb (dict_mem normalized_key (cache_data s)) then
    (None, with_stats bump_misses s)
  else if _is_expired now normalized_key s then
    (None, with_stats bump_misses (_delete_key normalized_key s))
  else
    let s := with_access_times (dict_set normalized_key now) s in
    let s := with_stats bump_hits s in
    (dict_get normalized_key (cache_data s), s).

(** [set]. The value is written first; [current_time + ttl] then
    converts [ttl] to a float, and when that raises the [except] clause
    returns [False]: the eviction and the value stay, the metadata, the
    access time and the [sets] counter are as they were. *)
Definition set (now : Z) (key : string) (value : V) (ttl : option Z)
    (s : Cache) : bool * Cache :=
  let ttl := default (default_ttl s) ttl in
  let normalized_key := _normalize_key key in
  let s :=
    if max_size s <=? Z.of_nat (length (cache_data s)) then _evict_lru s
    else s in
  let s :=
    mkCache V (default_ttl s) (max_size s)
      (dict_set normalized_key value (cache_data s))
      (cache_metadata s) (access_times s) (stats s) in
  let current_time := now in
  if float_of_int_fits ttl then
    let s :=
      mkCache V (default_ttl s) (max_size s) (cache_data s)
        (dict_set normalized_key
           (mkMetadata current_time ttl (current_time + ttl) 1)
           (cache_metadata s))
        (dict_set normalized_key current_time (access_times s))
        (bump_sets (stats s)) in
    (true, s)
  else (false, s).

Definition delete (key : string) (s : Cache) : bool * Cache :=
  let normalized_key := _normalize_key key in
  if dict_mem normalized_key (cache_data s) then
    (true, with_stats bump_deletes (_delete_key normalized_key s))
  else (false, s).

Definition clear (s : Cache) : Cache :=
  mkCache V (default_ttl s) (max_size s) [] [] [] (stats s).

Definition cleanup_expired (now : Z) (s : Cache) : Z * Cache :=
  let expired_keys :=
    (filter (λ km : string * Metadata, expires_at km.2 < now)
       (cache_metadata s)).*1 in
  let s := foldl (λ acc key, _delete_key key acc) s expired_keys in
  (Z.of_nat (length expired_keys), with_stats bump_cleanups s).

Definition invalidate_pattern (pattern : string) (s : Cache) : Z * Cache :=
  let keys_to_delete :=
    filter (λ key, str_contains pattern key = true) (dict_keys (cache_data s)) in
  let s := foldl (λ acc key, _delete_key key acc) s keys_to_delete in
  (Z.of_nat (length keys_to_delete), s).

Definition get_stats (s : Cache) : StatsReport :=
  let total_requests := hits (stats s) + misses (stats s) in
  let hit_rate :=
    if 0 <? total_requests
    then (inject_Z (hits (stats s)) / inject_Z total_requests * 100)%Q
    else 0%Q in
  mkReport (Z.of_nat (length (cache_data s))) (max_size s)
    (py_round2 hit_rate) total_requests (stats s).

(** [get_cache_info], the fields that are not formatted dates, when the
    call returns ([datetime.fromtimestamp] raises for a creation or expiry
    time outside the range of [datetime], and nothing catches it). *)
Definition get_cache_info (now : Z) (key : string) (s : Cache)
    : option (Z * Z * Z * bool) :=
  let normalized_key := _normalize_key key in
  match dict_get normalized_key (cache_metadata s) with
  | None => None
  | Some m =>
      Some (ttl m, Z.max 0 (expires_at m - now), access_count m,
            expires_at m <? now)
  end.

(** The three dictionaries describe the same keys, each key once. *)
Definition wf (s : Cache) : Prop :=
  NoDup (dict_keys (cache_data s)) ∧
  dict_keys (cache_metadata s) = dict_keys (cache_data s) ∧
  dict_keys (access_times s) = dict_keys (cache_data s).

(** What is left of [wf] once a [set] has failed: a value can be without
    metadata and access time, but these two still go together, and only
    with a value. *)
Definition consistent (s : Cache) : Prop :=
  NoDup (dict_keys (cache_data s)) ∧
  NoDup (dict_keys (cache_metadata s)) ∧
  dict_keys (access_times s) = dict_keys (cache_metadata s) ∧
  ∀ k, k ∈ dict_keys (cache_metadata s) → k ∈ dict_keys (cache_data s).

(** The key [_evict_lru] removes, if any. *)
Definition lru_key (s : Cache) : option string :=
  fst <$> py_min snd (access_times s).

(** Calls on the public interface, and a client's run of them: each call
    comes with the reading of the clock during it. *)
Inductive call :=
| CallGet (key : string)
| CallSet (key : string) (value : V) (ttl : option Z)
| CallDelete (key : string)
| CallClear
| CallCleanupExpired
| CallInvalidatePattern (pattern : string).

Definition step (now : Z) (c : call) (s : Cache) : Cache :=
  match c with
  | CallGet key => (get now key s).2
  | CallSet key value ttl => (set now key value ttl s).2
  | CallDelete key => (delete key s).2
  | CallClear => clear s
  | CallCleanupExpired => (cleanup_expired now s).2
  | CallInvalidatePattern pattern => (invalidate_pattern pattern s).2
  end.

Definition run (trace : list (Z * call)) (s : Cache) : Cache :=
  foldl (λ acc tc, step tc.1 tc.2 acc) s trace.

Definition is_set (c : call) : bool :=
  match c with CallSet _ _ _ => true | _ => false end.

(** [c] is a [set] that returns [False], on a store with this default. *)
Definition set_fails (default_ttl : Z) (c : call) : bool :=
  match c with
  | CallSet _ _ ttl => negb (float_of_int_fits (default default_ttl ttl))
  | _ => false
  end.

(** [c] stores under the key that [key] normalizes to. *)
Definition stores (key : string) (c : call) : bool :=
  match c with
  | CallSet key' _ _ => bool_decide (_normalize_key key' = _normalize_key key)
  | _ => false
  end.
End ops.
End Cache.

(** ** The session store: [session_manager.py] *)

Module Session.

(** *** Python values and objects

    A session record is a [dict] whose values are scalars or references to
    lists and dictionaries; [get_session] hands out a copy of the record
    that shares those nested objects, so lists and dictionaries live on a
    heap and are named by their location. [VIso t] stands for the string
    [datetime.utcnow().isoformat()] produced at clock reading [t]. *)

Definition loc := nat.

Inductive pyval :=
| VNone
| VInt (n : Z)
| VStr (s : string)
| VIso (t : Z)
| VRef (l : loc).

Inductive pyobj :=
| OList (items : list pyval)
| ODict (fields : list (string * pyval)).

#[global] Instance pyval_eq_dec : EqDecision pyval.
Proof. solve_decision. Defined.

(** [bool(v)] *)
Definition truthy (h : list pyobj) (v : pyval) : bool :=
  match v with
  | VNone => false
  | VInt n => negb (n =? 0)
  | VStr s => negb (String.eqb s "")
  | VIso _ => true
  | VRef l =>
      match h !! l with
      | Some (OList []) | Some (ODict []) => false
      | _ => true
      end
  end.

(** Lists and dictionaries cannot be dictionary keys. *)
Definition hashable (v : pyval) : bool :=
  match v with VRef _ => false | _ => true end.

(** [xs.remove(x)]: the first occurrence goes; [None] is the [ValueError]
    raised when there is none. *)
Fixpoint list_remove (x : string) (xs : list string) : option (list string) :=
  match xs with
  | [] => None
  | y :: ys => if decide (x = y) then Some ys else (y ::.) <$> list_remove x ys
  end.

(** *** The manager and the process it runs in *)

Record Metadata := mkMetadata {
  created_timestamp : Z;
  last_access_timestamp : Z;
  access_count : Z
}.

(** [memory_usage_mb], a rounded float that only [get_session_stats]
    writes, is left out. *)
Record Stats := mkStats {
  total_sessions_created : Z;
  active_sessions : Z;
  expired_sessions_cleaned : Z
}.

Record SessionManager := mkManager {
  session_timeout : Z;
  max_sessions : Z;
  sessions : list (string * loc);
  user_sessions : list (pyval * list string);
  session_locks : list (string * nat);
  session_metadata : list (string * Metadata);
  stats : Stats
}.

(** The manager together with the heap it shares with its callers and the
    locks of the process: [held] lists the locks the running thread holds,
    [lock_count] numbers the [Lock] objects created so far. *)
Record World := mkWorld {
  manager : SessionManager;
  heap : list pyobj;
  held : list nat;
  lock_count : nat
}.

Definition with_sessions (f : list (string * loc) → list (string * loc))
    (m : SessionManager) : SessionManager :=
  mkManager (session_timeout m) (max_sessions m) (f (sessions m)) (user_sessions m)
    (session_locks m) (session_metadata m) (stats m).
Definition with_user_sessions
    (f : list (pyval * list string) → list (pyval * list string))
    (m : SessionManager) : SessionManager :=
  mkManager (session_timeout m) (max_sessions m) (sessions m) (f (user_sessions m))
    (session_locks m) (session_metadata m) (stats m).
Definition with_session_locks (f : list (string * nat) → list (string * nat))
    (m : SessionManager) : SessionManager :=
  mkManager (session_timeout m) (max_sessions m) (sessions m) (user_sessions m)
    (f (session_locks m)) (session_metadata m) (stats m).
Definition with_session_metadata
    (f : list (string * Metadata) → list (string * Metadata))
    (m : SessionManager) : SessionManager :=
  mkManager (session_timeout m) (max_sessions m) (sessions m) (user_sessions m)
    (session_locks m) (f (session_metadata m)) (stats m).
Definition with_stats (f : Stats → Stats) (m : SessionManager) : SessionManager :=
  mkManager (session_timeout m) (max_sessions m) (sessions m) (user_sessions m)
    (session_locks m) (session_metadata m) (f (stats m)).

(** *** Calls: they return, raise an exception, or wait forever

    [threading.Lock] is not reentrant: a thread that acquires a lock it
    holds never gets it. *)

Inductive outcome (A : Type) :=
| Returns (a : A) (w : World)
| Raises (w : World)
| Blocks.
Arguments Returns {A}.
Arguments Raises {A}.
Arguments Blocks {A}.

Definition M (A : Type) : Type := World → outcome A.

#[global] Instance M_ret : MRet M := λ A a w, Returns a w.
#[global] Instance M_bind : MBind M := λ A B f m w,
  match m w with
  | Returns a w' => f a w'
  | Raises w' => Raises w'
  | Blocks => Blocks
  end.

Definition raise {A} : M A := λ w, Raises w.

(** [try: body except Exception: handler] *)
Definition try_except {A} (body handler : M A) : M A := λ w,
  match body w with
  | Raises w' => handler w'
  | o => o
  end.

Definition gets {A} (f : SessionManager → A) : M A := λ w, Returns (f (manager w)) w.
Definition modify (f : SessionManager → SessionManager) : M unit := λ w,
  Returns tt (mkWorld (f (manager w)) (heap w) (held w) (lock_count w)).
Definition get_heap : M (list pyobj) := λ w, Returns (heap w) w.

(** A new object; its location is fresh. *)
Definition alloc (o : pyobj) : M loc := λ w,
  Returns (length (heap w))
    (mkWorld (manager w) (heap w ++ [o]) (held w) (lock_count w)).
Definition read (l : loc) : M pyobj := λ w,
  match heap w !! l with
  | Some o => Returns o w
  | None => Raises w
  end.
Definition write (l : loc) (o : pyobj) : M unit := λ w,
  Returns tt (mkWorld (manager w) (<[l := o]> (heap w)) (held w) (lock_count w)).

(** The fields of a dictionary object; any other object has no dictionary
    methods ([AttributeError]). *)
Definition read_dict (l : loc) : M (list (string * pyval)) :=
  o ← read l;
  match o with
  | ODict d => mret d
  | OList _ => raise
  end.

Definition global_lock : nat := 0%nat.

(** [self.session_locks[session_id]] on the [defaultdict(Lock)]. *)
Definition session_lock (session_id : string) : M nat := λ w,
  match dict_get session_id (session_locks (manager w)) with
  | Some l => Returns l w
  | None =>
      let l := lock_count w in
      Returns l
        (mkWorld (with_session_locks (dict_set session_id l) (manager w))
           (heap w) (held w) (S l))
  end.

Definition acquire (l : nat) : M unit := λ w,
  if decide (l ∈ held w) then Blocks
  else Returns tt (mkWorld (manager w) (heap w) (l :: held w) (lock_count w)).

Definition release (l : nat) (w : World) : World :=
  mkWorld (manager w) (heap w) (filter (λ l', l' ≠ l) (held w)) (lock_count w).

(** [with lock: body] *)
Definition with_lock {A} (l : nat) (body : M A) : M A := λ w,
  match acquire l w with
  | Returns _ w1 =>
      match body w1 with
      | Returns a w2 => Returns a (release l w2)
      | Raises w2 => Raises (release l w2)
      | Blocks => Blocks
      end
  | _ => Blocks
  end.

(** [__init__]; the cleanup timer it starts is a separate thread. *)
Definition init (session_timeout max_sessions : Z) : World :=
  mkWorld
    (mkManager session_timeout max_sessions [] [] [] [] (mkStats 0 0 0))
    [] [] 1.

(** *** The operations *)

Definition _is_session_expired (now : Z) (session_id : string) : M bool :=
  md ← gets session_metadata;
  timeout ← gets session_timeout;
  match dict_get session_id md with
  | None => mret true
  | Some m => mret (timeout <? now - last_access_timestamp m)
  end.

Definition _update_session_access (now : Z) (session_id : string) : M unit :=
  modify (λ m,
    match dict_get session_id (session_metadata m) with
    | Some md =>
        with_session_metadata
          (dict_set session_id
             (mkMetadata (created_timestamp md) now (access_count md + 1))) m
    | None => m
    end).

(** [self.user_sessions[user_id]] on the [defaultdict(list)]: a missing
    key is entered with an empty list, an unhashable one is a [TypeError]. *)
Definition user_sessions_item (user_id : pyval) : M (list string) :=
  if hashable user_id then
    us ← gets user_sessions;
    match dict_get user_id us with
    | Some ids => mret ids
    | None => modify (with_user_sessions (dict_set user_id []));; mret []
    end
  else raise.

(** [self.user_sessions[user_id].remove(session_id)] *)
Definition user_sessions_remove (user_id : pyval) (session_id : string) : M unit :=
  ids ← user_sessions_item user_id;
  match list_remove session_id ids with
  | Some ids' => modify (with_user_sessions (dict_set user_id ids'))
  | None => raise
  end.

Definition set_active_sessions : M unit :=
  modify (λ m,
    with_stats (λ st,
      mkStats (total_sessions_created st) (Z.of_nat (length (sessions m)))
        (expired_sessions_cleaned st)) m).

Definition _delete_session (session_id : string) : M bool :=
  try_except
    (ss ← gets sessions;
     user_id ←
       match dict_get session_id ss with
       | None => mret VNone
       | Some data =>
           o ← read data;
           match o with
           | ODict [] | OList [] => mret VNone
           | ODict d => mret (default VNone (dict_get "user_id" d))
           | OList _ => raise
           end
       end;
     modify (with_sessions (dict_pop session_id));;
     modify (with_session_metadata (dict_pop session_id));;
     h ← get_heap;
     (if truthy h user_id then
        ids ← user_sessions_item user_id;
        if bool_decide (session_id ∈ ids) then
          user_sessions_remove user_id session_id;;
          ids ← user_sessions_item user_id;
          match ids with
          | [] => modify (with_user_sessions (dict_pop user_id))
          | _ => mret tt
          end
        else mret tt
      else mret tt);;
     modify (with_session_locks (dict_pop session_id));;
     set_active_sessions;;
     mret true)
    (mret false).

(** [lambda x: x[1]['last_access_timestamp']] *)
Definition last_access_of (x : string * Metadata) : Z := last_access_timestamp x.2.

Definition _cleanup_oldest_session : M unit :=
  md ← gets session_metadata;
  match py_min last_access_of md with
  | None => mret tt
  | Some (oldest_session_id, _) => _delete_session oldest_session_id;; mret tt
  end.

Definition create_session (now : Z) (session_id : string)
    (initial_data : option (list (string * pyval))) : M bool :=
  with_lock global_lock
    (try_except
       (ss ← gets sessions;
        limit ← gets max_sessions;
        (if limit <=? Z.of_nat (length ss) then _cleanup_oldest_session
         else mret tt);;
        let initial_data := default [] initial_data in
        history ← alloc (OList []);
        context ← alloc (ODict []);
        preferences ← alloc (ODict []);
        let session_data :=
          dict_update
            [("session_id", VStr session_id);
             ("created_at", VIso now);
             ("last_activity", VIso now);
             ("user_id", default VNone (dict_get "user_id" initial_data));
             ("state", VStr "active");
             ("conversation_history", VRef history);
             ("context", VRef context);
             ("preferences", VRef preferences)]
            initial_data in
        data ← alloc (ODict session_data);
        modify (with_sessions (dict_set session_id data));;
        modify (with_session_metadata
                  (dict_set session_id (mkMetadata now now 1)));;
        h ← get_heap;
        let user_id := default VNone (dict_get "user_id" session_data) in
        (if truthy h user_id then
           ids ← user_sessions_item user_id;
           modify (with_user_sessions (dict_set user_id (ids ++ [session_id])))
         else mret tt);;
        modify (with_stats (λ st,
          mkStats (total_sessions_created st + 1) (active_sessions st)
            (expired_sessions_cleaned st)));;
        set_active_sessions;;
        mret true)
       (mret false)).

Definition get_session (now : Z) (session_id : string) : M (option loc) :=
  lock ← session_lock session_id;
  with_lock lock
    (try_except
       (ss ← gets sessions;
        match dict_get session_id ss with
        | None => mret (@None loc)
        | Some data =>
            expired ← _is_session_expired now session_id;
            if (expired : bool) then _delete_session session_id;; mret None
            else
              _update_session_access now session_id;;
              o ← read data;
              copy ← alloc o;
              mret (Some copy)
        end)
       (mret None)).

Definition update_session (now : Z) (session_id : string)
    (update_data : list (string * pyval)) : M bool :=
  lock ← session_lock session_id;
  with_lock lock
    (try_except
       (ss ← gets sessions;
        match dict_get session_id ss with
        | None => mret false
        | Some data =>
            expired ← _is_session_expired now session_id;
            if (expired : bool) then _delete_session session_id;; mret false
            else
              d ← read_dict data;
              write data (ODict (dict_update d update_data));;
              d ← read_dict data;
              write data (ODict (dict_set "last_activity" (VIso now) d));;
              _update_session_access now session_id;;
              mret true
        end)
       (mret false)).

Definition delete_session (session_id : string) : M bool :=
  with_lock global_lock (_delete_session session_id).

(** The loop of [get_user_sessions] over a copy of the user's list. *)
Fixpoint get_user_sessions_loop (now : Z) (user_id : pyval)
    (session_ids : list string) (found : list loc) : M (list loc) :=
  match session_ids with
  | [] => mret found
  | session_id :: rest =>
      session_data ← get_session now session_id;
      h ← get_heap;
      match session_data with
      | Some record =>
          if truthy h (VRef record)
          then get_user_sessions_loop now user_id rest (found ++ [record])
          else user_sessions_remove user_id session_id;;
               get_user_sessions_loop now user_id rest found
      | None =>
          user_sessions_remove user_id session_id;;
          get_user_sessions_loop now user_id rest found
      end
  end.

Definition get_user_sessions (now : Z) (user_id : pyval) : M (list loc) :=
  try_except
    (if hashable user_id then
       us ← gets user_sessions;
       get_user_sessions_loop now user_id (default [] (dict_get user_id us)) []
     else raise)
    (mret []).

Definition max_history : nat := 100.

(** [xs.append(v)] on the value [target]. *)
Definition list_append (target : pyval) (v : pyval) : M unit :=
  match target with
  | VRef l =>
      o ← read l;
      match o with
      | OList items => write l (OList (items ++ [v]))
      | ODict _ => raise
      end
  | _ => raise
  end.

(** [len(xs)] and [xs[-max_history:]] on the value [target], a list. *)
Definition list_items (target : pyval) : M (list pyval) :=
  match target with
  | VRef l =>
      o ← read l;
      match o with
      | OList items => mret items
      | ODict _ => raise
      end
  | _ => raise
  end.

Definition add_message_to_session (now : Z) (session_id role content : string)
    (metadata : pyval) : M bool :=
  lock ← session_lock session_id;
  with_lock lock
    (try_except
       (session_data ← get_session now session_id;
        h ← get_heap;
        match session_data with
        | None => mret false
        | Some record =>
            if negb (truthy h (VRef record)) then mret false
            else
              metadata ←
                (if truthy h metadata then mret metadata
                 else fresh ← alloc (ODict []); mret (VRef fresh));
              message ←
                alloc (ODict [("role", VStr role);
                              ("content", VStr content);
                              ("timestamp", VIso now);
                              ("metadata", metadata)]);
              d ← read_dict record;
              (if dict_mem "conversation_history" d then mret tt
               else
                 fresh ← alloc (OList []);
                 write record
                   (ODict (dict_set "conversation_history" (VRef fresh) d)));;
              d ← read_dict record;
              let history := default VNone (dict_get "conversation_history" d) in
              list_append history (VRef message);;
              items ← list_items history;
              (if Nat.ltb max_history (length items) then
                 trimmed ← alloc (OList (drop (length items - max_history) items));
                 write record
                   (ODict (dict_set "conversation_history" (VRef trimmed) d))
               else mret tt);;
              d ← read_dict record;
              update_session now session_id d
        end)
       (mret false)).

(** A client's mutation of an object it holds a reference to. *)
Inductive mutation :=
| SetItem (target : loc) (key : string) (value : pyval)
| DelItem (target : loc) (key : string)
| Append (target : loc) (value : pyval).

Definition mutate (mu : mutation) (w : World) : World :=
  let set_heap h := mkWorld (manager w) h (held w) (lock_count w) in
  match mu with
  | SetItem l key value =>
      match heap w !! l with
      | Some (ODict d) => set_heap (<[l := ODict (dict_set key value d)]> (heap w))
      | _ => w
      end
  | DelItem l key =>
      match heap w !! l with
      | Some (ODict d) => set_heap (<[l := ODict (dict_pop key d)]> (heap w))
      | _ => w
      end
  | Append l value =>
      match heap w !! l with
      | Some (OList items) => set_heap (<[l := OList (items ++ [value])]> (heap w))
      | _ => w
      end
  end.

(** Between calls the thread holds no lock, the session table and its
    metadata describe the same sessions, each once, and every session's
    record is a dictionary on the heap. *)
Definition wf (w : World) : Prop :=
  held w = [] ∧
  NoDup (dict_keys (sessions (manager w))) ∧
  dict_keys (session_metadata (manager w)) = dict_keys (sessions (manager w)) ∧
  ∀ sid l, dict_get sid (sessions (manager w)) = Some l →
           ∃ d, heap w !! l = Some (ODict d).

(** The session [_cleanup_oldest_session] deletes, if any. *)
Definition oldest_session (m : SessionManager) : option string :=
  fst <$> py_min last_access_of (session_metadata m).

(** The session a [create_session] evicts, if any. *)
Definition victim (m : SessionManager) : option string :=
  if max_sessions m <=? Z.of_nat (length (sessions m)) then oldest_session m
  else None.


(** A run of mutations. *)
Definition mutate_all (mus : list mutation) (w : World) : World :=
  foldl (λ acc mu, mutate mu acc) w mus.

(** [mu] sets or deletes a field of the object at [l] itself. *)
Definition on_fields_of (l : loc) (mu : mutation) : bool :=
  match mu with
  | SetItem l' _ _ | DelItem l' _ => bool_decide (l' = l)
  | Append _ _ => false
  end.

(** [o[key]] for a dictionary object [o]. *)
Definition field (key : string) (o : pyobj) : option pyval :=
  match o with
  | ODict d => dict_get key d
  | OList _ => None
  end.

(** The fields of the record stored for a session. *)
Definition stored_record (session_id : string) (w : World)
    : option (list (string * pyval)) :=
  l ← dict_get session_id (sessions (manager w));
  match heap w !! l with
  | Some (ODict d) => Some d
  | _ => None
  end.

End Session.


(** ** Counting the calls of a run *)

Module CacheRuns.
Import Cache.

(** How many calls of a run satisfy [p]. *)
Definition count_calls {V} (p : call (V := V) → bool)
    (trace : list (Z * call (V := V))) : Z :=
  Z.of_nat (length (filter (λ tc, p tc.2 = true) trace)).

Definition is_get {V} (c : call (V := V)) : bool :=
  match c with CallGet _ => true | _ => false end.
Definition is_delete {V} (c : call (V := V)) : bool :=
  match c with CallDelete _ => true | _ => false end.
Definition is_cleanup {V} (c : call (V := V)) : bool :=
  match c with CallCleanupExpired => true | _ => false end.

End CacheRuns.

(** ** Typed entries over the cache store: class [RestaurantCache] *)

Module Restaurant.
Import Cache.

Section ops.
Context {V P : Type}.
(** [hashlib.md5(s.encode('utf-8')).hexdigest()], and
    [json.dumps(sorted(search_params.items()), ensure_ascii=False,
    sort_keys=True)] on the search conditions [P]: library functions. *)
Variable md5_hexdigest : string → string.
Variable json_dumps_sorted : P → string.

Record RestaurantCache := mkRestaurantCache {
  cache : CacheManager V;
  restaurant_ttl : Z;
  search_ttl : Z;
  recommendation_ttl : Z
}.

Definition with_cache (c : CacheManager V) (rc : RestaurantCache)
    : RestaurantCache :=
  mkRestaurantCache c (restaurant_ttl rc) (search_ttl rc) (recommendation_ttl rc).

(** [__init__] *)
Definition init (cache_manager : CacheManager V) : RestaurantCache :=
  mkRestaurantCache cache_manager 3600 1800 1800.

(** [f"restaurant:{restaurant_id}"]: an [int] is formatted in decimal. *)
Definition restaurant_key (restaurant_id : Z) : string :=
  "restaurant:" +:+ pretty restaurant_id.

Definition _generate_search_key (search_params : P) : string :=
  md5_hexdigest (json_dumps_sorted search_params).

(** [f"search:{search_key}"] *)
Definition search_key (search_params : P) : string :=
  "search:" +:+ _generate_search_key search_params.

(** [f"recommendation:{user_id}:{query_hash}"] *)
Definition recommendation_key (user_id : Z) (query_hash : string) : string :=
  "recommendation:" +:+ pretty user_id +:+ ":" +:+ query_hash.

(** [f"restaurant_id:{restaurant_id}"], the pattern [invalidate_restaurant]
    looks for. *)
Definition restaurant_pattern (restaurant_id : Z) : string :=
  "restaurant_id:" +:+ pretty restaurant_id.

Definition cache_restaurant (now : Z) (restaurant_id : Z) (restaurant_data : V)
    (rc : RestaurantCache) : bool * RestaurantCache :=
  let key := restaurant_key restaurant_id in
  let r := set md5_hexdigest now key restaurant_data (Some (restaurant_ttl rc))
             (cache rc) in
  (r.1, with_cache r.2 rc).

Definition get_restaurant (now : Z) (restaurant_id : Z) (rc : RestaurantCache)
    : option V * RestaurantCache :=
  let key := restaurant_key restaurant_id in
  let r := get md5_hexdigest now key (cache rc) in
  (r.1, with_cache r.2 rc).

Definition cache_search_results (now : Z) (search_params : P) (results : V)
    (rc : RestaurantCache) : bool * RestaurantCache :=
  let key := search_key search_params in
  let r := set md5_hexdigest now key results (Some (search_ttl rc)) (cache rc) in
  (r.1, with_cache r.2 rc).

Definition get_search_results (now : Z) (search_params : P)
    (rc : RestaurantCache) : option V * RestaurantCache :=
  let key := search_key search_params in
  let r := get md5_hexdigest now key (cache rc) in
  (r.1, with_cache r.2 rc).

Definition cache_recommendations (now : Z) (user_id : Z) (query_hash : string)
    (recommendations : V) (rc : RestaurantCache) : bool * RestaurantCache :=
  let key := recommendation_key user_id query_hash in
  let r := set md5_hexdigest now key recommendations
             (Some (recommendation_ttl rc)) (cache rc) in
  (r.1, with_cache r.2 rc).

Definition get_recommendations (now : Z) (user_id : Z) (query_hash : string)
    (rc : RestaurantCache) : option V * RestaurantCache :=
  let key := recommendation_key user_id query_hash in
  let r := get md5_hexdigest now key (cache rc) in
  (r.1, with_cache r.2 rc).

Definition invalidate_restaurant (restaurant_id : Z) (rc : RestaurantCache)
    : RestaurantCache :=
  let c := (delete md5_hexdigest (restaurant_key restaurant_id) (cache rc)).2 in
  let c := (invalidate_pattern (restaurant_pattern restaurant_id) c).2 in
  with_cache c rc.
End ops.

(** Every character of [s] satisfies [q]. *)
Fixpoint all_chars (q : Ascii.ascii → bool) (s : string) : bool :=
  match s with
  | EmptyString => true
  | String c s' => q c && all_chars q s'
  end.

(** The characters of a hexadecimal digest. *)
Definition is_hex_digit (c : Ascii.ascii) : bool :=
  let n := Ascii.nat_of_ascii c in
  (Nat.leb 48 n && Nat.leb n 57) || (Nat.leb 97 n && Nat.leb n 102).

(** What [hexdigest] returns for MD5: 32 hexadecimal digits. *)
Definition is_md5_hexdigest (d : string) : Prop :=
  String.length d = 32%nat ∧ all_chars is_hex_digit d = true.

(** The characters of a formatted [int]. *)
Definition is_digit_or_dash (c : Ascii.ascii) : bool :=
  let n := Ascii.nat_of_ascii c in
  (Nat.leb 48 n && Nat.leb n 57) || Nat.eqb n 45.

Definition is_not (x : Ascii.ascii) (c : Ascii.ascii) : bool :=
  negb (Ascii.eqb c x).
End Restaurant.

(** ** The session store: sweeping, context and history *)

Module SessionOps.
Import Session.

(** [xs[start:]]: a negative index counts from the end, and an index
    outside the list is moved to its nearest end. *)
Definition py_slice_from {A} (start : Z) (xs : list A) : list A :=
  let n := Z.of_nat (length xs) in
  let start := if start <? 0 then Z.max 0 (start + n) else Z.min start n in
  drop (Z.to_nat start) xs.

(** The second loop of [cleanup_expired_sessions]. *)
Fixpoint delete_sessions (session_ids : list string) : M unit :=
  match session_ids with
  | [] => mret tt
  | session_id :: rest => _delete_session session_id;; delete_sessions rest
  end.

Definition cleanup_expired_sessions (now : Z) : M Z :=
  with_lock global_lock
    (try_except
       (md ← gets session_metadata;
        timeout ← gets session_timeout;
        let expired_sessions :=
          (filter (λ x : string * Metadata,
                     timeout < now - last_access_timestamp x.2) md).*1 in
        delete_sessions expired_sessions;;
        modify (with_stats (λ st,
          mkStats (total_sessions_created st) (active_sessions st)
            (expired_sessions_cleaned st
             + Z.of_nat (length expired_sessions))));;
        mret (Z.of_nat (length expired_sessions)))
       (mret 0)).

(** What [get_conversation_history] returns: a list of messages, or the
    value of the [conversation_history] field when a caller has replaced
    the list by a string or a dictionary. *)
Inductive history :=
| Messages (items : list pyval)
| NotAList.

(** [history[-limit:] if len(history) > limit else history] on a list. *)
Definition last_messages (limit : Z) (items : list pyval) : list pyval :=
  if limit <? Z.of_nat (length items) then py_slice_from (- limit) items
  else items.

Definition get_conversation_history (now : Z) (session_id : string)
    (limit : Z) : M history :=
  try_except
    (session_data ← get_session now session_id;
     h ← get_heap;
     match session_data with
     | None => mret (Messages [])
     | Some record =>
         if negb (truthy h (VRef record)) then mret (Messages [])
         else
           d ← read_dict record;
           match dict_get "conversation_history" d with
           | None => mret (Messages (last_messages limit []))
           | Some (VRef l) =>
               o ← read l;
               match o with
               | OList items => mret (Messages (last_messages limit items))
               | ODict fields =>
                   if limit <? Z.of_nat (length fields) then raise
                   else mret NotAList
               end
           | Some (VStr _) | Some (VIso _) => mret NotAList
           | Some VNone | Some (VInt _) => raise
           end
     end)
    (mret (Messages [])).

(** [target[key] = value] on the value [target], for a string [key]:
    only a dictionary takes it. *)
Definition set_item (target : pyval) (key : string) (value : pyval) : M unit :=
  match target with
  | VRef l =>
      o ← read l;
      match o with
      | ODict d => write l (ODict (dict_set key value d))
      | OList _ => raise
      end
  | _ => raise
  end.

(** [get_session] and [update_session] each read the clock: [now] and
    [now']. *)
Definition update_session_context (now now' : Z)
    (session_id context_key : string) (context_value : pyval) : M bool :=
  try_except
    (session_data ← get_session now session_id;
     h ← get_heap;
     match session_data with
     | None => mret false
     | Some record =>
         if negb (truthy h (VRef record)) then mret false
         else
           d ← read_dict record;
           (if dict_mem "context" d then mret tt
            else
              fresh ← alloc (ODict []);
              write record (ODict (dict_set "context" (VRef fresh) d)));;
           d ← read_dict record;
           set_item (default VNone (dict_get "context" d))
             context_key context_value;;
           d ← read_dict record;
           update_session now' session_id d
     end)
    (mret false).

(** The [user_id] that [_delete_session] reads in the stored record. *)
Definition session_user (session_id : string) (w : World) : pyval :=
  match stored_record session_id w with
  | Some d => default VNone (dict_get "user_id" d)
  | None => VNone
  end.

(** A session that [get_session] will return. *)
Definition live (now : Z) (w : World) (sid : string) : Prop :=
  ∃ l d md,
    dict_get sid (sessions (manager w)) = Some l ∧
    heap w !! l = Some (ODict d) ∧ d ≠ [] ∧
    dict_get sid (session_metadata (manager w)) = Some md ∧
    now - last_access_timestamp md ≤ session_timeout (manager w).

End SessionOps.
(** *** Dictionary lemmas *)

Section dict_theory.
Context {K V : Type} `{EqDecision K}.
Implicit Types (k : K) (v : V) (d : list (K * V)).

Lemma dict_get_set k k' v d :
  dict_get k (dict_set k' v d) = if decide (k = k') then Some v else dict_get k d.
Proof.
  induction d as [|[k0 v0] d IH]; simpl.
  - by repeat case_decide.
  - destruct (decide (k' = k0)) as [->|Hne]; simpl.
    + by destruct (decide (k = k0)).
    + rewrite IH. destruct (decide (k = k0)) as [->|]; [|done].
      by rewrite decide_False.
Qed.

Lemma dict_get_pop k k' d :
  dict_get k (dict_pop k' d) = if decide (k = k') then None else dict_get k d.
Proof.
  induction d as [|[k0 v0] d IH]; simpl.
  - by case_decide.
  - destruct (decide (k' = k0)) as [->|Hne]; simpl.
    + rewrite IH. destruct (decide (k = k0)); done.
    + rewrite IH. destruct (decide (k = k0)) as [->|]; [|done].
      by rewrite decide_False.
Qed.

Lemma dict_get_None k d : dict_get k d = None ↔ k ∉ dict_keys d.
Proof.
  unfold dict_keys. induction d as [|[k0 v0] d IH]; simpl.
  - split; [intros _; apply not_elem_of_nil | done].
  - rewrite not_elem_of_cons. destruct (decide (k = k0)) as [->|Hne].
    + split; [done|]. by intros [? _].
    + rewrite IH. split; [done|]. by intros [_ ?].
Qed.

Lemma dict_mem_keys k d : dict_mem k d = true ↔ k ∈ dict_keys d.
Proof.
  unfold dict_mem. destruct (dict_get k d) eqn:E.
  - split; [intros _|done].
    destruct (decide (k ∈ dict_keys d)) as [|Hn]; [done|].
    apply dict_get_None in Hn. congruence.
  - split; [done|]. intros Hin. by apply dict_get_None in E.
Qed.

Lemma dict_mem_false k d : dict_mem k d = false ↔ k ∉ dict_keys d.
Proof.
  rewrite <- dict_mem_keys. destruct (dict_mem k d); naive_solver.
Qed.

Lemma dict_keys_set k v d :
  dict_keys (dict_set k v d) =
  if dict_mem k d then dict_keys d else dict_keys d ++ [k].
Proof.
  unfold dict_keys, dict_mem. induction d as [|[k0 v0] d IH]; csimpl; [done|].
  destruct (decide (k = k0)) as [->|Hne]; csimpl; [done|].
  rewrite IH. by destruct (dict_get k d).
Qed.

Lemma dict_keys_set_elem k k' v d :
  k ∈ dict_keys (dict_set k' v d) ↔ k = k' ∨ k ∈ dict_keys d.
Proof.
  rewrite dict_keys_set. destruct (dict_mem k' d) eqn:E.
  - apply dict_mem_keys in E. split; [by right|]. by intros [->|].
  - rewrite elem_of_app, list_elem_of_singleton. tauto.
Qed.

Lemma dict_keys_pop k d :
  dict_keys (dict_pop k d) = filter (λ k', k ≠ k') (dict_keys d).
Proof.
  unfold dict_keys. induction d as [|[k0 v0] d IH]; csimpl; [done|].
  destruct (decide (k = k0)) as [->|Hne].
  - rewrite filter_cons_False by (intros Hk; by apply Hk). done.
  - rewrite filter_cons_True by done. csimpl. by rewrite IH.
Qed.

Lemma dict_keys_length d : length (dict_keys d) = length d.
Proof. apply length_fmap. Qed.

Lemma dict_set_length k v d :
  length (dict_set k v d) =
  if dict_mem k d then length d else S (length d).
Proof.
  rewrite <- !dict_keys_length, dict_keys_set.
  destruct (dict_mem k d); [done|]. rewrite length_app. simpl. lia.
Qed.

Lemma dict_set_NoDup k v d :
  NoDup (dict_keys d) → NoDup (dict_keys (dict_set k v d)).
Proof.
  intros Hnd. rewrite dict_keys_set. destruct (dict_mem k d) eqn:E; [done|].
  apply dict_mem_false in E. apply NoDup_app. split_and!; [done| |apply NoDup_singleton].
  intros x Hx Hx'. apply list_elem_of_singleton in Hx'. by subst.
Qed.

Lemma dict_pop_NoDup k d :
  NoDup (dict_keys d) → NoDup (dict_keys (dict_pop k d)).
Proof. intros Hnd. rewrite dict_keys_pop. by apply NoDup_filter. Qed.

(** Removing a key that is there, from a dictionary without repeated
    keys, removes one binding. *)
Lemma filter_ne_absent (k : K) (l : list K) :
  k ∉ l → filter (λ k', k ≠ k') l = l.
Proof.
  induction l as [|y l IH]; [done|]. intros [Hy Hl]%not_elem_of_cons.
  rewrite filter_cons_True by done. f_equal. by apply IH.
Qed.

Lemma filter_ne_length (k : K) (l : list K) :
  NoDup l → k ∈ l → S (length (filter (λ k', k ≠ k') l)) = length l.
Proof.
  induction 1 as [|x l Hx Hnd IH]; intros Hin.
  - by apply elem_of_nil in Hin.
  - apply elem_of_cons in Hin. destruct (decide (k = x)) as [->|Hne].
    + rewrite filter_cons_False by (intros Hk; by apply Hk).
      by rewrite filter_ne_absent.
    + rewrite filter_cons_True by done. simpl. f_equal. apply IH.
      by destruct Hin.
Qed.

Lemma dict_pop_length k d :
  NoDup (dict_keys d) → k ∈ dict_keys d → S (length (dict_pop k d)) = length d.
Proof.
  intros Hnd Hin. rewrite <- !dict_keys_length, dict_keys_pop.
  by apply filter_ne_length.
Qed.

Lemma dict_get_Some_elem k v d : dict_get k d = Some v → (k, v) ∈ d.
Proof.
  induction d as [|[k0 v0] d IH]; simpl; [done|].
  destruct (decide (k = k0)) as [->|Hne].
  - intros [= ->]. apply list_elem_of_here.
  - intros Hd. by apply list_elem_of_further, IH.
Qed.

Lemma dict_elem_get k v d :
  NoDup (dict_keys d) → (k, v) ∈ d → dict_get k d = Some v.
Proof.
  unfold dict_keys.
  induction d as [|[k0 v0] d IH]; csimpl; intros Hnd Hin.
  - by apply elem_of_nil in Hin.
  - apply NoDup_cons in Hnd as [Hk0 Hnd].
    apply elem_of_cons in Hin as [[= -> ->]|Hin].
    + by rewrite decide_True.
    + destruct (decide (k = k0)) as [->|Hne]; [|by apply IH].
      exfalso. apply Hk0. apply list_elem_of_fmap. by exists (k0, v).
Qed.
End dict_theory.

(** *** [min] returns a least element *)

Lemma py_min_from_elem {A} (f : A → Z) best xs :
  py_min_from f best xs ∈ best :: xs.
Proof.
  revert best. induction xs as [|x xs IH]; intros best; simpl.
  - apply list_elem_of_singleton. done.
  - specialize (IH (if f x <? f best then x else best)).
    apply elem_of_cons in IH as [->|IH].
    + destruct (f x <? f best); [apply list_elem_of_further|]; apply list_elem_of_here.
    + by do 2 apply list_elem_of_further.
Qed.

Lemma py_min_from_le {A} (f : A → Z) best xs y :
  y ∈ best :: xs → f (py_min_from f best xs) ≤ f y.
Proof.
  revert best y. induction xs as [|x xs IH]; intros best y Hy; simpl.
  - apply list_elem_of_singleton in Hy. by subst.
  - pose proof (IH (if f x <? f best then x else best) _
                  (list_elem_of_here _ _)) as Hle.
    apply elem_of_cons in Hy as [->|Hy].
    + destruct (Z.ltb_spec (f x) (f best)); lia.
    + apply elem_of_cons in Hy as [->|Hy].
      * destruct (Z.ltb_spec (f x) (f best)); lia.
      * by apply IH, list_elem_of_further.
Qed.

Lemma py_min_spec {A} (f : A → Z) xs m :
  py_min f xs = Some m → m ∈ xs ∧ ∀ y, y ∈ xs → f m ≤ f y.
Proof.
  destruct xs as [|x xs]; simpl; [done|]. intros [= <-]. split.
  - apply py_min_from_elem.
  - intros y. apply py_min_from_le.
Qed.

Lemma py_min_None {A} (f : A → Z) xs : py_min f xs = None ↔ xs = [].
Proof. by destruct xs. Qed.



(** ** Properties of the cache store *)

Module CacheTheory.
Import Cache.

Lemma dict_mem_same_keys {K A B} `{EqDecision K} (k : K)
    (d1 : list (K * A)) (d2 : list (K * B)) :
  dict_keys d1 = dict_keys d2 → dict_mem k d1 = dict_mem k d2.
Proof.
  intros Hk. destruct (dict_mem k d2) eqn:E.
  - apply dict_mem_keys. rewrite Hk. by apply dict_mem_keys.
  - apply dict_mem_false. rewrite Hk. by apply dict_mem_false.
Qed.

Section theory.
Context {V : Type}.
Variable md5_hexdigest : string → string.
Local Abbreviation Cache := (CacheManager V).
Local Abbreviation normalize := (_normalize_key md5_hexdigest).
Implicit Types (s : Cache) (key k : string) (now : Z).

(** *** The two outcomes of [set] *)

Local Abbreviation room s :=
  (if max_size s <=? Z.of_nat (length (cache_data s)) then _evict_lru s else s).

(** [set] returns [True] exactly when its TTL converts to a float. *)
Lemma set_returns now key value ttl s :
  (set md5_hexdigest now key value ttl s).1 =
    float_of_int_fits (default (default_ttl s) ttl).
Proof. unfold set. by destruct (float_of_int_fits _). Qed.

Lemma set_ok now key value ttl s :
  (set md5_hexdigest now key value ttl s).1 = true →
  (set md5_hexdigest now key value ttl s).2 =
    mkCache V (default_ttl (room s)) (max_size (room s))
      (dict_set (normalize key) value (cache_data (room s)))
      (dict_set (normalize key)
         (mkMetadata now (default (default_ttl s) ttl)
            (now + default (default_ttl s) ttl) 1)
         (cache_metadata (room s)))
      (dict_set (normalize key) now (access_times (room s)))
      (bump_sets (stats (room s))).
Proof. unfold set. by destruct (float_of_int_fits _). Qed.

Lemma set_failed now key value ttl s :
  (set md5_hexdigest now key value ttl s).1 = false →
  (set md5_hexdigest now key value ttl s).2 =
    mkCache V (default_ttl (room s)) (max_size (room s))
      (dict_set (normalize key) value (cache_data (room s)))
      (cache_metadata (room s)) (access_times (room s)) (stats (room s)).
Proof. unfold set. by destruct (float_of_int_fits _). Qed.

(** The value is written whether or not [set] goes on to fail. *)
Lemma set_cache_data now key value ttl s :
  cache_data (set md5_hexdigest now key value ttl s).2 =
    dict_set (normalize key) value (cache_data (room s)).
Proof. unfold set. by destruct (float_of_int_fits _). Qed.

Lemma set_evictions now key value ttl s :
  evictions (stats (set md5_hexdigest now key value ttl s).2) =
    evictions (stats (room s)).
Proof. unfold set. by destruct (float_of_int_fits _). Qed.

(** *** The configuration *)

Lemma config__evict_lru s :
  default_ttl (_evict_lru s) = default_ttl s ∧ max_size (_evict_lru s) = max_size s.
Proof. unfold _evict_lru. by destruct (py_min snd (access_times s)) as [[k t]|]. Qed.

Lemma config_delete_keys ks s :
  default_ttl (foldl (λ acc key, _delete_key key acc) s ks) = default_ttl s ∧
  max_size (foldl (λ acc key, _delete_key key acc) s ks) = max_size s.
Proof.
  revert s. induction ks as [|k ks IH]; intros s; simpl; [done|].
  apply (IH (_delete_key k s)).
Qed.

Lemma config_step now c s :
  default_ttl (step md5_hexdigest now c s) = default_ttl s ∧
  max_size (step md5_hexdigest now c s) = max_size s.
Proof.
  destruct c as [key|key value ttl|key| | |pattern]; unfold step.
  - unfold get. destruct (dict_mem _ _); simpl; [|done].
    by destruct (_is_expired _ _ _).
  - unfold set. destruct (float_of_int_fits _); simpl;
      (destruct (_ <=? _); [apply config__evict_lru|done]).
  - unfold delete. by destruct (dict_mem _ _).
  - done.
  - apply config_delete_keys.
  - apply config_delete_keys.
Qed.

Lemma config_run trace s :
  default_ttl (run md5_hexdigest trace s) = default_ttl s ∧
  max_size (run md5_hexdigest trace s) = max_size s.
Proof.
  revert s. induction trace as [|[t c] trace IH]; intros s; simpl; [done|].
  destruct (IH (step md5_hexdigest t c s)) as [-> ->]. apply config_step.
Qed.

(** *** The well-formedness invariant *)

Lemma wf_init default_ttl max_size : wf (@init V default_ttl max_size).
Proof. split_and!; simpl; [apply NoDup_nil_2|done|done]. Qed.

Lemma wf_with_stats f s : wf s → wf (with_stats f s).
Proof. done. Qed.

Lemma wf__delete_key k s : wf s → wf (_delete_key k s).
Proof.
  intros (Hnd & Hm & Ha). unfold wf; simpl. split_and!.
  - by apply dict_pop_NoDup.
  - by rewrite !dict_keys_pop, Hm.
  - by rewrite !dict_keys_pop, Ha.
Qed.

Lemma wf__evict_lru s : wf s → wf (_evict_lru s).
Proof.
  intros Hwf. unfold _evict_lru.
  destruct (py_min snd (access_times s)) as [[k t]|]; [|done].
  by apply wf_with_stats, wf__delete_key.
Qed.

Lemma wf_room s : wf s → wf (room s).
Proof. intros Hwf. destruct (_ <=? _); [by apply wf__evict_lru|done]. Qed.

(** A [set] that returns [True] keeps the store well formed. *)
Lemma wf_set now key value ttl s :
  (set md5_hexdigest now key value ttl s).1 = true →
  wf s → wf (set md5_hexdigest now key value ttl s).2.
Proof.
  intros Hok Hwf. rewrite set_ok by done.
  destruct (wf_room s Hwf) as (Hnd & Hm & Ha).
  unfold wf; simpl. split_and!.
  - by apply dict_set_NoDup.
  - rewrite !dict_keys_set, Hm.
    by rewrite (dict_mem_same_keys _ (cache_metadata (room s)) (cache_data (room s))).
  - rewrite !dict_keys_set, Ha.
    by rewrite (dict_mem_same_keys _ (access_times (room s)) (cache_data (room s))).
Qed.

Lemma wf_get now key s : wf s → wf (get md5_hexdigest now key s).2.
Proof.
  intros Hwf. unfold get.
  destruct (dict_mem (normalize key) (cache_data s)) eqn:Hmem; simpl; [|done].
  destruct (_is_expired now (normalize key) s); simpl.
  - by apply wf__delete_key.
  - destruct Hwf as (Hnd & Hm & Ha). unfold wf; simpl. split_and!; [done..|].
    rewrite dict_keys_set, Ha.
    by rewrite (dict_mem_same_keys _ (access_times s) (cache_data s)), Hmem.
Qed.

Lemma wf_delete key s : wf s → wf (delete md5_hexdigest key s).2.
Proof.
  intros Hwf. unfold delete. destruct (dict_mem _ _); simpl; [|done].
  by apply wf__delete_key.
Qed.

Lemma wf_clear s : wf (clear s).
Proof. split_and!; simpl; [apply NoDup_nil_2|done|done]. Qed.

Lemma wf_delete_keys ks s : wf s → wf (foldl (λ acc key, _delete_key key acc) s ks).
Proof.
  revert s. induction ks as [|k ks IH]; intros s Hwf; simpl; [done|].
  by apply IH, wf__delete_key.
Qed.

Lemma wf_cleanup_expired now s : wf s → wf (cleanup_expired now s).2.
Proof. intros Hwf. by apply wf_with_stats, wf_delete_keys. Qed.

Lemma wf_invalidate_pattern pattern s : wf s → wf (invalidate_pattern pattern s).2.
Proof. intros Hwf. by apply wf_delete_keys. Qed.

Lemma set_fails_returns key value ttl now s :
  set_fails (default_ttl s) (CallSet key value ttl) = false →
  (set md5_hexdigest now key value ttl s).1 = true.
Proof. rewrite set_returns. simpl. by destruct (float_of_int_fits _). Qed.

(** Every call but a [set] that fails keeps the store well formed. *)
Lemma wf_step now c s :
  set_fails (default_ttl s) c = false → wf s → wf (step md5_hexdigest now c s).
Proof.
  intros Hok Hwf. destruct c as [key|key value ttl|key| | |pattern]; unfold step.
  - by apply wf_get.
  - apply wf_set; [|done]. by apply set_fails_returns.
  - by apply wf_delete.
  - apply wf_clear.
  - by apply wf_cleanup_expired.
  - by apply wf_invalidate_pattern.
Qed.

Lemma wf_run trace s :
  Forall (λ tc, set_fails (default_ttl s) tc.2 = false) trace →
  wf s → wf (run md5_hexdigest trace s).
Proof.
  intros Htr. revert s Htr.
  induction trace as [|[t c] trace IH]; intros s Htr Hwf; simpl; [done|].
  apply Forall_cons in Htr as [Hc Htr]. apply IH.
  - by rewrite (proj1 (config_step t c s)).
  - by apply wf_step.
Qed.

(** *** The invariant of every run *)

Lemma wf_consistent s : wf s → consistent s.
Proof.
  intros (Hnd & Hm & Ha). unfold consistent.
  rewrite Hm, Ha. split_and!; done.
Qed.

Lemma consistent_init default_ttl max_size : consistent (@init V default_ttl max_size).
Proof. apply wf_consistent, wf_init. Qed.

Lemma consistent__delete_key k s : consistent s → consistent (_delete_key k s).
Proof.
  intros (Hnd & Hndm & Ha & Hsub). unfold consistent; simpl. split_and!.
  - by apply dict_pop_NoDup.
  - by apply dict_pop_NoDup.
  - by rewrite !dict_keys_pop, Ha.
  - intros k'. rewrite !dict_keys_pop, !list_elem_of_filter.
    intros [Hne Hin]. split; [done|]. by apply Hsub.
Qed.

Lemma consistent__evict_lru s : consistent s → consistent (_evict_lru s).
Proof.
  intros Hc. unfold _evict_lru.
  destruct (py_min snd (access_times s)) as [[k t]|]; [|done].
  by apply (consistent__delete_key k s).
Qed.

Lemma consistent_room s : consistent s → consistent (room s).
Proof. intros Hc. destruct (_ <=? _); [by apply consistent__evict_lru|done]. Qed.

(** Also a [set] that fails keeps it. *)
Lemma consistent_set now key value ttl s :
  consistent s → consistent (set md5_hexdigest now key value ttl s).2.
Proof.
  intros Hc. destruct (consistent_room s Hc) as (Hnd & Hndm & Ha & Hsub).
  destruct (set md5_hexdigest now key value ttl s).1 eqn:Hr.
  - rewrite set_ok by done. unfold consistent; simpl. split_and!.
    + by apply dict_set_NoDup.
    + by apply dict_set_NoDup.
    + rewrite !dict_keys_set, Ha.
      by rewrite (dict_mem_same_keys _ (access_times (room s))
                    (cache_metadata (room s))).
    + intros k. rewrite !dict_keys_set_elem. intros [->|Hin]; [by left|].
      right. by apply Hsub.
  - rewrite set_failed by done. unfold consistent; simpl. split_and!; [|done..|].
    + by apply dict_set_NoDup.
    + intros k Hin. apply dict_keys_set_elem. right. by apply Hsub.
Qed.

Lemma consistent_get now key s :
  consistent s → consistent (get md5_hexdigest now key s).2.
Proof.
  intros Hc. unfold get.
  destruct (dict_mem (normalize key) (cache_data s)) eqn:Hmem; simpl; [|done].
  unfold _is_expired.
  destruct (dict_get (normalize key) (cache_metadata s)) as [m|] eqn:Hm; simpl.
  - destruct (expires_at m <? now); simpl.
    + by apply consistent__delete_key.
    + destruct Hc as (Hnd & Hndm & Ha & Hsub).
      unfold consistent; simpl. split_and!; [done..| |done].
      rewrite dict_keys_set, Ha.
      rewrite (dict_mem_same_keys _ (access_times s) (cache_metadata s)) by done.
      unfold dict_mem. by rewrite Hm.
  - by apply consistent__delete_key.
Qed.

Lemma consistent_delete_keys ks s :
  consistent s → consistent (foldl (λ acc key, _delete_key key acc) s ks).
Proof.
  revert s. induction ks as [|k ks IH]; intros s Hc; simpl; [done|].
  by apply IH, consistent__delete_key.
Qed.

Lemma consistent_step now c s :
  consistent s → consistent (step md5_hexdigest now c s).
Proof.
  intros Hc. destruct c as [key|key value ttl|key| | |pattern]; unfold step.
  - by apply consistent_get.
  - by apply consistent_set.
  - unfold delete. destruct (dict_mem _ _); simpl; [|done].
    by apply consistent__delete_key.
  - apply wf_consistent, wf_clear.
  - by apply (consistent_delete_keys _ s).
  - by apply consistent_delete_keys.
Qed.

Lemma consistent_run trace s :
  consistent s → consistent (run md5_hexdigest trace s).
Proof.
  revert s. induction trace as [|[t c] trace IH]; intros s Hc; simpl; [done|].
  by apply IH, consistent_step.
Qed.

(** *** Time to live *)

Lemma dict_get_same_keys_None {A B} k (d1 : list (string * A)) (d2 : list (string * B)) :
  dict_keys d1 = dict_keys d2 → dict_get k d1 = None → dict_get k d2 = None.
Proof. intros Hk. rewrite !dict_get_None. by rewrite Hk. Qed.

Lemma metadata__delete_key k k' s m :
  dict_get k (cache_metadata (_delete_key k' s)) = Some m →
  dict_get k (cache_metadata s) = Some m.
Proof. simpl. rewrite dict_get_pop. by destruct (decide (k = k')). Qed.

Lemma metadata_delete_keys k ks s m :
  dict_get k (cache_metadata (foldl (λ acc key, _delete_key key acc) s ks)) = Some m →
  dict_get k (cache_metadata s) = Some m.
Proof.
  revert s. induction ks as [|k' ks IH]; intros s; simpl; [done|].
  intros Hm. by eapply metadata__delete_key, IH.
Qed.

Lemma metadata__evict_lru k s m :
  dict_get k (cache_metadata (_evict_lru s)) = Some m →
  dict_get k (cache_metadata s) = Some m.
Proof.
  unfold _evict_lru. destruct (py_min snd (access_times s)) as [[k' t]|]; [|done].
  apply metadata__delete_key.
Qed.

(** A call that does not store under [key] leaves the entry of [key], if
    it is still there, with the metadata it had. *)
Lemma metadata_step now c key s m :
  stores md5_hexdigest key c = false →
  dict_get (normalize key) (cache_metadata (step md5_hexdigest now c s)) = Some m →
  dict_get (normalize key) (cache_metadata s) = Some m.
Proof.
  destruct c as [key'|key' value ttl|key'| | |pattern]; unfold step; intros Hst.
  - unfold get. destruct (dict_mem _ _); simpl; [|done].
    destruct (_is_expired _ _ _); simpl; [|done].
    rewrite dict_get_pop. by destruct (decide _).
  - simpl in Hst. apply bool_decide_eq_false in Hst.
    unfold set. destruct (float_of_int_fits _); simpl.
    + rewrite dict_get_set, decide_False by done.
      destruct (_ <=? _); [apply metadata__evict_lru|done].
    + destruct (_ <=? _); [apply metadata__evict_lru|done].
  - unfold delete. destruct (dict_mem _ _); simpl; [|done].
    rewrite dict_get_pop. by destruct (decide _).
  - done.
  - apply metadata_delete_keys.
  - apply metadata_delete_keys.
Qed.

Lemma metadata_run trace key s m :
  Forall (λ tc, stores md5_hexdigest key tc.2 = false) trace →
  dict_get (normalize key) (cache_metadata (run md5_hexdigest trace s)) = Some m →
  dict_get (normalize key) (cache_metadata s) = Some m.
Proof.
  intros Htr. revert s. induction Htr as [|[t c] trace Hc _ IH]; intros s; simpl; [done|].
  intros Hm. by eapply metadata_step, IH.
Qed.

(** Lazy expiry: a [get] after the expiry time recorded for the key
    misses and leaves no trace of the key. *)
Lemma get_past_expiry now key s :
  consistent s →
  (∀ m, dict_get (normalize key) (cache_metadata s) = Some m → expires_at m < now) →
  (get md5_hexdigest now key s).1 = None ∧
  stats (get md5_hexdigest now key s).2 = bump_misses (stats s) ∧
  dict_get (normalize key) (cache_data (get md5_hexdigest now key s).2) = None ∧
  dict_get (normalize key) (cache_metadata (get md5_hexdigest now key s).2) = None ∧
  dict_get (normalize key) (access_times (get md5_hexdigest now key s).2) = None.
Proof.
  intros (Hnd & Hndm & Ha & Hsub) Hexp. unfold get, dict_mem.
  destruct (dict_get (normalize key) (cache_data s)) as [v|] eqn:Hd; simpl.
  - assert (_is_expired now (normalize key) s = true) as ->.
    { unfold _is_expired.
      destruct (dict_get (normalize key) (cache_metadata s)) as [m|] eqn:E; [|done].
      apply Z.ltb_lt. by apply Hexp. }
    simpl. rewrite !dict_get_pop, !decide_True by done. done.
  - assert (dict_get (normalize key) (cache_metadata s) = None) as Hm.
    { apply dict_get_None. intros Hin. apply Hsub in Hin.
      by apply dict_get_None in Hd. }
    split_and!; [done..|].
    eapply dict_get_same_keys_None; [symmetry; exact Ha|done].
Qed.

(** C1. A key that [set] stored with TTL [t] at time [created_at] (the
    call returned [True]) is absent for every [get] at a time after
    [created_at + t]: the call returns [None], counts a miss and no hit,
    and leaves no entry for the key in the store. This holds from any
    store a run of calls can leave, and after any calls in between that do
    not store the key again, whether or not [cleanup_expired] is among
    them and whether or not a [set] of another key fails among them. *)
Theorem C1_get_after_ttl_is_absent s created_at key value ttl trace now :
  consistent s →
  (set md5_hexdigest created_at key value ttl s).1 = true →
  Forall (λ tc, stores md5_hexdigest key tc.2 = false) trace →
  created_at + default (default_ttl s) ttl < now →
  let s1 := run md5_hexdigest trace (set md5_hexdigest created_at key value ttl s).2 in
  let r := get md5_hexdigest now key s1 in
  r.1 = None ∧
  misses (stats r.2) = misses (stats s1) + 1 ∧
  hits (stats r.2) = hits (stats s1) ∧
  dict_get (normalize key) (cache_data r.2) = None ∧
  dict_get (normalize key) (cache_metadata r.2) = None ∧
  dict_get (normalize key) (access_times r.2) = None.
Proof.
  intros Hc Hok Htr Hlate s1 r.
  destruct (get_past_expiry now key s1) as (Hr & Hst & Hd & Hm & Ha).
  - by apply consistent_run, consistent_set.
  - intros m Hm. apply (metadata_run trace) in Hm; [|done].
    rewrite set_ok in Hm by done. simpl in Hm.
    rewrite dict_get_set, decide_True in Hm by done.
    injection Hm as <-. simpl. lia.
  - subst r. rewrite Hst. done.
Qed.

(** *** Eviction *)

Lemma lru_key_spec s k :
  wf s → lru_key s = Some k →
  ∃ t, py_min snd (access_times s) = Some (k, t) ∧
       dict_get k (access_times s) = Some t ∧
       dict_mem k (cache_data s) = true ∧
       ∀ k' t', dict_get k' (access_times s) = Some t' → t ≤ t'.
Proof.
  intros (Hnd & Hm & Ha). unfold lru_key.
  destruct (py_min snd (access_times s)) as [[k0 t]|] eqn:Hmin; [|done].
  intros [= <-]. apply py_min_spec in Hmin as [Hin Hle].
  assert (dict_get k0 (access_times s) = Some t) as Hget.
  { apply dict_elem_get; [by rewrite Ha|done]. }
  exists t. split_and!; [done..| |].
  - apply dict_mem_keys. rewrite <- Ha. apply list_elem_of_fmap. by exists (k0, t).
  - intros k' t' Hk'. apply (Hle (k', t')). by apply dict_get_Some_elem.
Qed.

Lemma lru_key_nonempty s :
  wf s → cache_data s ≠ [] → ∃ k, lru_key s = Some k.
Proof.
  intros (Hnd & Hm & Ha) Hne. unfold lru_key.
  destruct (access_times s) as [|kt l] eqn:E; simpl; [|by eexists].
  destruct (cache_data s); [done|]. discriminate Ha.
Qed.


Lemma _evict_lru_lru_key s k :
  lru_key s = Some k →
  _evict_lru s = with_stats bump_evictions (_delete_key k s).
Proof.
  unfold lru_key, _evict_lru.
  destruct (py_min snd (access_times s)) as [[k0 t]|]; [|done]. by intros [= <-].
Qed.

(** At capacity [set] first drops the entry [lru_key] names, one entry,
    and then stores the new one. *)
Lemma set_at_capacity now key value ttl s k :
  wf s →
  max_size s ≤ Z.of_nat (length (cache_data s)) →
  lru_key s = Some k →
  let s' := (set md5_hexdigest now key value ttl s).2 in
  cache_data s' = dict_set (normalize key) value (dict_pop k (cache_data s)) ∧
  S (length (dict_pop k (cache_data s))) = length (cache_data s) ∧
  evictions (stats s') = evictions (stats s) + 1.
Proof.
  intros Hwf Hcap Hlru. cbv zeta. rewrite set_cache_data, set_evictions.
  apply Z.leb_le in Hcap. rewrite Hcap, (_evict_lru_lru_key s k) by done. simpl.
  split_and!; [done| |done].
  destruct (lru_key_spec s k) as (t & _ & _ & Hmem & _); [done..|].
  apply dict_pop_length; [apply Hwf|]. by apply dict_mem_keys.
Qed.

Lemma max_size__evict_lru s : max_size (_evict_lru s) = max_size s.
Proof. unfold _evict_lru. by destruct (py_min snd (access_times s)) as [[k t]|]. Qed.

Lemma max_size_set now key value ttl s :
  max_size (set md5_hexdigest now key value ttl s).2 = max_size s.
Proof. apply (config_step now (CallSet key value ttl) s). Qed.

(** With room for at least one entry, [set] keeps the store within
    [max_size]. *)
Lemma set_within_max_size now key value ttl s :
  wf s → 1 ≤ max_size s →
  Z.of_nat (length (cache_data s)) ≤ max_size s →
  Z.of_nat (length (cache_data (set md5_hexdigest now key value ttl s).2)) ≤ max_size s.
Proof.
  intros Hwf Hpos Hle.
  destruct (Z.leb_spec (max_size s) (Z.of_nat (length (cache_data s)))) as [Hcap|Hroom].
  - destruct (lru_key_nonempty s) as [k Hk]; [done| |].
    { destruct (cache_data s); simpl in *; [lia|done]. }
    destruct (set_at_capacity now key value ttl s k) as (-> & Hlen & _); [done..|].
    rewrite dict_set_length. destruct (dict_mem _ _); lia.
  - rewrite set_cache_data, (proj2 (Z.leb_gt _ _)) by lia.
    rewrite dict_set_length. destruct (dict_mem _ _); lia.
Qed.

(** An entry that [set] makes disappear was the least recently used one. *)
Lemma set_evicts_only_lru now key value ttl s k :
  wf s →
  dict_mem k (cache_data s) = true →
  dict_mem k (cache_data (set md5_hexdigest now key value ttl s).2) = false →
  lru_key s = Some k ∧
  ∃ t, dict_get k (access_times s) = Some t ∧
       ∀ k' t', dict_get k' (access_times s) = Some t' → t ≤ t'.
Proof.
  intros Hwf Hin Hout. unfold dict_mem in Hin, Hout.
  assert (lru_key s = Some k) as Hlru.
  { rewrite set_cache_data, dict_get_set in Hout.
    destruct (decide (k = normalize key)); [done|].
    destruct (_ <=? _).
    - destruct (lru_key s) as [k0|] eqn:Hk0.
      + rewrite (_evict_lru_lru_key s k0) in Hout by done. simpl in Hout.
        rewrite dict_get_pop in Hout. destruct (decide (k = k0)) as [->|]; [done|].
        by destruct (dict_get k (cache_data s)).
      + unfold lru_key, _evict_lru in *.
        destruct (py_min snd (access_times s)) as [[k0 t]|]; [done|].
        by destruct (dict_get k (cache_data s)).
    - by destruct (dict_get k (cache_data s)). }
  split; [done|].
  destruct (lru_key_spec s k) as (t & _ & Ht & _ & Hmin); [done..|]. eauto.
Qed.

(** No call but [set] adds an entry. *)
Lemma step_size now c s :
  is_set c = false →
  (length (cache_data (step md5_hexdigest now c s)) ≤ length (cache_data s))%nat.
Proof.
  assert (∀ ks s, (length (cache_data (foldl (λ acc key, _delete_key key acc) s ks))
                   ≤ length (cache_data s))%nat) as Hks.
  { intros ks. induction ks as [|k ks IH]; intros s0; simpl; [done|].
    etrans; [apply IH|]. simpl.
    rewrite <- !dict_keys_length, dict_keys_pop. apply length_filter. }
  destruct c as [key|key value ttl|key| | |pattern]; unfold step; intros Hc;
    try done.
  - unfold get. destruct (dict_mem _ _); simpl; [|done].
    destruct (_is_expired _ _ _); simpl; [|done].
    rewrite <- !dict_keys_length, dict_keys_pop. apply length_filter.
  - unfold delete. destruct (dict_mem _ _); simpl; [|done].
    rewrite <- !dict_keys_length, dict_keys_pop. apply length_filter.
  - simpl. lia.
  - apply Hks.
  - apply Hks.
Qed.

(** As long as no [set] fails, a store with room for one entry stays
    well formed and within [max_size]. *)
Lemma run_within_max_size trace s :
  Forall (λ tc, set_fails (default_ttl s) tc.2 = false) trace →
  wf s → 1 ≤ max_size s →
  Z.of_nat (length (cache_data s)) ≤ max_size s →
  wf (run md5_hexdigest trace s) ∧
  Z.of_nat (length (cache_data (run md5_hexdigest trace s))) ≤ max_size s.
Proof.
  revert s. induction trace as [|[t c] trace IH]; intros s Htr Hwf Hpos Hle; simpl;
    [done|].
  apply Forall_cons in Htr as [Hc Htr].
  destruct (config_step t c s) as [Httl Hmax].
  rewrite <- Hmax. apply IH.
  - by rewrite Httl.
  - by apply wf_step.
  - by rewrite Hmax.
  - rewrite Hmax. destruct (is_set c) eqn:Hs.
    + destruct c; try done. by apply set_within_max_size.
    + pose proof (step_size t c s Hs). lia.
Qed.

(** *** Hit and miss accounting *)

Lemma get_hit now key s v m :
  dict_get (normalize key) (cache_data s) = Some v →
  dict_get (normalize key) (cache_metadata s) = Some m →
  now ≤ expires_at m →
  get md5_hexdigest now key s =
    (Some v,
     with_stats bump_hits (with_access_times (dict_set (normalize key) now) s)).
Proof.
  intros Hd Hm Hlive. unfold get, dict_mem, _is_expired. rewrite Hd, Hm. simpl.
  by rewrite (proj2 (Z.ltb_ge _ _)), Hd by lia.
Qed.

Lemma get_miss now key s :
  dict_get (normalize key) (cache_data s) = None ∨
  (∀ m, dict_get (normalize key) (cache_metadata s) = Some m → expires_at m < now) →
  (get md5_hexdigest now key s).1 = None ∧
  stats (get md5_hexdigest now key s).2 = bump_misses (stats s).
Proof.
  intros Hmiss. unfold get, dict_mem, _is_expired.
  destruct (dict_get (normalize key) (cache_data s)) as [v|] eqn:Hd; simpl; [|done].
  destruct Hmiss as [|Hexp]; [done|].
  destruct (dict_get (normalize key) (cache_metadata s)) as [m|]; [|done].
  by rewrite (proj2 (Z.ltb_lt _ _)) by by apply Hexp.
Qed.

(** *** The reported hit rate *)

Lemma round_half_even_close (x : Q) :
  (Qabs (inject_Z (round_half_even x) - x) <= 1 # 2)%Q.
Proof.
  unfold round_half_even.
  pose proof (Qfloor_le x) as Hlo. pose proof (Qlt_floor x) as Hhi.
  rewrite inject_Z_plus in Hhi. change (inject_Z 1) with 1%Q in Hhi.
  assert (∀ b : bool, inject_Z (if b then Qfloor x else Qfloor x + 1) ==
                      if b then inject_Z (Qfloor x) else inject_Z (Qfloor x) + 1)%Q
    as Hif by (intros []; [|rewrite inject_Z_plus]; reflexivity).
  destruct (Qcompare_spec (x - inject_Z (Qfloor x)) (1 # 2)) as [He|Hl|Hg].
  - rewrite Hif. destruct (Z.even (Qfloor x));
      revert Hlo Hhi He; generalize (inject_Z (Qfloor x)); intros f ? ? ?;
      apply Qabs_case; intros; lra.
  - revert Hlo Hhi Hl; generalize (inject_Z (Qfloor x)); intros f ? ? ?.
    apply Qabs_case; intros; lra.
  - rewrite (Hif false).
    revert Hlo Hhi Hg; generalize (inject_Z (Qfloor x)); intros f ? ? ?.
    apply Qabs_case; intros; lra.
Qed.

Lemma py_round2_close (x : Q) : (Qabs (py_round2 x - x) <= 1 # 200)%Q.
Proof.
  unfold py_round2. pose proof (round_half_even_close (x * 100)) as H.
  rewrite (Qmake_Qdiv (round_half_even (x * 100)) 100).
  unfold Qdiv. change (/ inject_Z (Z.pos 100))%Q with (1 # 100)%Q.
  revert H. generalize (inject_Z (round_half_even (x * 100))). intros n.
  apply Qabs_case; intros; apply Qabs_case; intros; lra.
Qed.

(** C8, as the code has it. A [get] of a key that is present and not
    expired returns its value, adds one to [hits] and leaves [misses]; a
    [get] of a key that is absent or expired returns [None], adds one to
    [misses] and leaves [hits]. The [hit_rate] that [get_stats] reports is
    a percentage: a whole number of hundredths within [1/200] of
    [100 * hits / (hits + misses)] whenever [hits + misses > 0], and [0]
    when there was no request. *)
Theorem C8_hit_miss_accounting s now key :
  let k := normalize key in
  let r := get md5_hexdigest now key s in
  (∀ v m, dict_get k (cache_data s) = Some v →
          dict_get k (cache_metadata s) = Some m →
          now ≤ expires_at m →
          r.1 = Some v ∧
          hits (stats r.2) = hits (stats s) + 1 ∧
          misses (stats r.2) = misses (stats s)) ∧
  (dict_get k (cache_data s) = None ∨
   (∀ m, dict_get k (cache_metadata s) = Some m → expires_at m < now) →
   r.1 = None ∧
   misses (stats r.2) = misses (stats s) + 1 ∧
   hits (stats r.2) = hits (stats s)) ∧
  (0 < hits (stats s) + misses (stats s) →
   (∃ n : Z, hit_rate (get_stats s) = (n # 100)%Q) ∧
   (Qabs (hit_rate (get_stats s) -
          inject_Z (hits (stats s)) /
          inject_Z (hits (stats s) + misses (stats s)) * 100) <= 1 # 200)%Q) ∧
  (hits (stats s) + misses (stats s) ≤ 0 →
   hit_rate (get_stats s) = (0 # 100)%Q).
Proof.
  intros k r. split_and!.
  - intros v m Hd Hm Hlive. subst r k. by rewrite (get_hit now key s v m).
  - intros Hmiss. subst r k.
    destruct (get_miss now key s Hmiss) as [-> ->]. done.
  - intros Hpos. unfold get_stats; simpl.
    rewrite (proj2 (Z.ltb_lt _ _) Hpos). split; [by eexists|].
    apply py_round2_close.
  - intros Hzero. unfold get_stats; simpl.
    by rewrite (proj2 (Z.ltb_ge _ _) Hzero).
Qed.

(** C9, as the code has it: the metadata [set] writes holds
    [access_count = 1], and no call other than a [set] of the same key
    writes it again; whatever calls follow, as many successful reads as one
    likes among them, the entry's [access_count] is still [1]. The [set]
    is one that returned [True]; or, if it failed and left the metadata
    the key had, the records of the store it was called on all hold
    [access_count = 1], as they do in every store the code builds. *)
Theorem C9_access_count_stays_one s created_at key value ttl trace m :
  (set md5_hexdigest created_at key value ttl s).1 = true ∨
  (∀ k m0, dict_get k (cache_metadata s) = Some m0 → access_count m0 = 1) →
  Forall (λ tc, stores md5_hexdigest key tc.2 = false) trace →
  dict_get (normalize key)
    (cache_metadata
       (run md5_hexdigest trace (set md5_hexdigest created_at key value ttl s).2))
  = Some m →
  access_count m = 1.
Proof.
  intros Hs Htr Hm. apply (metadata_run trace) in Hm; [|done].
  destruct (set md5_hexdigest created_at key value ttl s).1 eqn:Hr.
  - rewrite set_ok in Hm by done. simpl in Hm.
    rewrite dict_get_set, decide_True in Hm by done.
    by injection Hm as <-.
  - destruct Hs as [|Hone]; [done|].
    rewrite set_failed in Hm by done. simpl in Hm.
    apply (Hone (normalize key)).
    destruct (_ <=? _); [by apply metadata__evict_lru|done].
Qed.

(** A successful read does refresh the key's access time. *)
Lemma get_hit_access_time now key s v :
  (get md5_hexdigest now key s).1 = Some v →
  dict_get (normalize key) (access_times (get md5_hexdigest now key s).2) = Some now ∧
  cache_metadata (get md5_hexdigest now key s).2 = cache_metadata s.
Proof.
  unfold get. destruct (dict_mem _ _); simpl; [|done].
  destruct (_is_expired _ _ _); simpl; [done|]. intros _.
  by rewrite dict_get_set, decide_True.
Qed.


End theory.




Lemma C1_witness :
  let s0 : CacheManager Z := init 3600 2 in
  let trace :=
    [(10, CallGet "k"); (20, CallCleanupExpired); (30, CallSet "x" 5 None)] in
  let s1 := run id trace (set id 0 "k" 1 (Some 60) s0).2 in
  0 + 60 < 61 ∧
  (get id 61 "k" s1).1 = None ∧
  misses (stats (get id 61 "k" s1).2) = misses (stats s1) + 1 ∧
  dict_get "k" (cache_data (get id 61 "k" s1).2) = None.
Proof.
  intros s0 trace s1. split; [reflexivity|].
  destruct (C1_get_after_ttl_is_absent id s0 0 "k" 1 (Some 60) trace 61)
    as (Hr & Hm & _ & Hd & _).
  - apply consistent_init.
  - reflexivity.
  - repeat constructor.
  - reflexivity.
  - split_and!; [exact Hr|exact Hm|exact Hd].
Defined.

(** One hit and one miss: the rate reported is 50, not 1/2. *)
Lemma C8_counterexample :
  let s0 : CacheManager Z := (set id 0 "k" 1 (Some 60) (init 3600 2)).2 in
  let s2 := (get id 2 "absent" (get id 1 "k" s0).2).2 in
  hits (stats s2) = 1 ∧ misses (stats s2) = 1 ∧
  hit_rate (get_stats s2) = (5000 # 100)%Q ∧
  (inject_Z (hits (stats s2)) / inject_Z (hits (stats s2) + misses (stats s2))
   < hit_rate (get_stats s2))%Q.
Proof. vm_compute. split_and!; reflexivity. Qed.

Lemma C8_witness :
  let s0 : CacheManager Z := (set id 0 "k" 1 (Some 60) (init 3600 2)).2 in
  let s1 := (get id 1 "k" s0).2 in
  ((get id 1 "k" s0).1 = Some 1 ∧ hits (stats s1) = hits (stats s0) + 1 ∧
   misses (stats s1) = misses (stats s0)) ∧
  ((get id 61 "k" s1).1 = None ∧
   misses (stats (get id 61 "k" s1).2) = misses (stats s1) + 1 ∧
   hits (stats (get id 61 "k" s1).2) = hits (stats s1)) ∧
  (Qabs (hit_rate (get_stats s1) - inject_Z 1 / inject_Z (1 + 0) * 100) <= 1 # 200)%Q.
Proof.
  intros s0 s1. split; [|split].
  - apply (proj1 (C8_hit_miss_accounting id s0 1 "k") 1 (mkMetadata 0 60 60 1));
      vm_compute; first [reflexivity | discriminate].
  - apply (proj1 (proj2 (C8_hit_miss_accounting id s1 61 "k"))).
    right. intros m Hm. vm_compute in Hm. injection Hm as <-. reflexivity.
  - apply (proj1 (proj2 (proj2 (C8_hit_miss_accounting id s1 1 "k")))). reflexivity.
Defined.

(** Three successful reads after a write: the count is still 1. *)
Lemma C9_witness :
  let s0 : CacheManager Z := init 3600 10 in
  let trace := [(1, CallGet "k"); (2, CallGet "k"); (3, CallGet "k")] in
  let s3 := run id trace (set id 0 "k" 7 (Some 60) s0).2 in
  (get id 3 "k" (run id [(1, CallGet "k"); (2, CallGet "k")]
                   (set id 0 "k" 7 (Some 60) s0).2)).1 = Some 7 ∧
  dict_get "k" (access_times s3) = Some 3 ∧
  get_cache_info id 4 "k" s3 = Some (60, 56, 1, false) ∧
  ∃ m, dict_get "k" (cache_metadata s3) = Some m ∧ access_count m = 1.
Proof.
  intros s0 trace s3. split_and!; [reflexivity..|].
  eexists. split; [vm_compute; reflexivity|].
  apply (C9_access_count_stays_one id s0 0 "k" 7 (Some 60) trace).
  - left. reflexivity.
  - repeat constructor.
  - reflexivity.
Defined.


End CacheTheory.
(** ** Properties of the session store *)

Module SessionTheory.
Import Session.

Ltac unfold_M :=
  unfold try_except, mbind, M_bind, mret, M_ret, gets, modify, get_heap, read,
    read_dict, write, alloc, raise in *.

(** *** Deleting a session *)

Lemma _delete_session_returns sid w :
  (∀ l, dict_get sid (sessions (manager w)) = Some l →
        ∃ d, heap w !! l = Some (ODict d)) →
  ∃ b m',
    _delete_session sid w =
      Returns b (mkWorld m' (heap w) (held w) (lock_count w)) ∧
    sessions m' = dict_pop sid (sessions (manager w)) ∧
    session_metadata m' = dict_pop sid (session_metadata (manager w)) ∧
    session_timeout m' = session_timeout (manager w) ∧
    max_sessions m' = max_sessions (manager w).
Proof.
  intros Hheap.
  unfold _delete_session, user_sessions_remove, user_sessions_item,
    set_active_sessions.
  unfold_M.
  destruct (dict_get sid (sessions (manager w))) as [l|] eqn:Hl.
  - destruct (Hheap l eq_refl) as [d ->].
    repeat (case_match; simplify_eq/=); eauto 10.
  - repeat (case_match; simplify_eq/=); eauto 10.
Qed.

Arguments _delete_session : simpl never.

Ltac use_delete_session :=
  match goal with
  | |- context [_delete_session ?s ?w0] =>
      let b := fresh "b" in
      let m' := fresh "m'" in
      let Hs := fresh "Hs" in
      let Hm := fresh "Hm" in
      let Ht := fresh "Ht" in
      let Hx := fresh "Hx" in
      destruct (_delete_session_returns s w0) as (b & m' & -> & Hs & Hm & Ht & Hx);
      [simpl; eauto | simpl in Hs, Hm, Ht, Hx]
  end.

Lemma filter_ne_singleton (l : nat) : filter (λ l', l' ≠ l) [l] = [].
Proof. by rewrite filter_cons_False by (intros H; by apply H). Qed.

(** *** Locks *)

Lemma get_session_blocks_when_held now sid l w :
  dict_get sid (session_locks (manager w)) = Some l → l ∈ held w →
  get_session now sid w = Blocks.
Proof.
  intros Hl Hheld. unfold get_session, session_lock, with_lock, acquire. unfold_M.
  rewrite Hl. destruct (decide (l ∈ held w)); [done|contradiction].
Qed.

(** C4, as the code has it: [add_message_to_session] takes the session's
    lock and, holding it, calls [get_session], which takes the same lock;
    the lock is not reentrant, so the call never returns, whatever the
    state of the store and whatever its arguments. *)
Theorem C4_add_message_to_session_blocks now sid role content metadata w :
  add_message_to_session now sid role content metadata w = Blocks.
Proof.
  unfold add_message_to_session, session_lock, with_lock, acquire.
  unfold mbind at 1. unfold M_bind at 1.
  destruct (dict_get sid (session_locks (manager w))) as [l|] eqn:Hl.
  - destruct (decide (l ∈ held w)); [done|].
    unfold try_except. unfold mbind at 1. unfold M_bind at 1.
    rewrite (get_session_blocks_when_held now sid l); [done|done|].
    apply list_elem_of_here.
  - cbn [held]. destruct (decide (lock_count w ∈ held w)); [done|].
    unfold try_except. unfold mbind at 1. unfold M_bind at 1.
    rewrite (get_session_blocks_when_held now sid (lock_count w)); [done| |]; simpl.
    + by rewrite dict_get_set, decide_True.
    + apply list_elem_of_here.
Qed.

(** *** What [get_session] and [create_session] do to a well-formed world *)

Lemma get_session_outcome now sid w :
  wf w →
  ∃ r w', get_session now sid w = Returns r w' ∧
    held w' = [] ∧
    session_timeout (manager w') = session_timeout (manager w) ∧
    max_sessions (manager w') = max_sessions (manager w) ∧
    match dict_get sid (sessions (manager w)),
          dict_get sid (session_metadata (manager w)) with
    | None, _ =>
        r = None ∧
        sessions (manager w') = sessions (manager w) ∧
        session_metadata (manager w') = session_metadata (manager w) ∧
        heap w' = heap w
    | Some l, Some md =>
        if session_timeout (manager w) <? now - last_access_timestamp md then
          r = None ∧
          sessions (manager w') = dict_pop sid (sessions (manager w)) ∧
          session_metadata (manager w') = dict_pop sid (session_metadata (manager w)) ∧
          heap w' = heap w
        else
          ∃ d, heap w !! l = Some (ODict d) ∧
               r = Some (length (heap w)) ∧
               sessions (manager w') = sessions (manager w) ∧
               session_metadata (manager w') =
                 dict_set sid
                   (mkMetadata (created_timestamp md) now (access_count md + 1))
                   (session_metadata (manager w)) ∧
               heap w' = heap w ++ [ODict d]
    | Some l, None => False
    end.
Proof.
  intros (Hheld & Hnd & Hkeys & Hheap).
  unfold get_session, session_lock, with_lock, acquire, _is_session_expired,
    _update_session_access, release.
  unfold_M.
  destruct (dict_get sid (sessions (manager w))) as [l|] eqn:Hl.
  - destruct (Hheap sid l Hl) as [d Hd].
    destruct (dict_get sid (session_metadata (manager w))) as [md|] eqn:Hmd.
    + destruct (session_timeout (manager w) <? now - last_access_timestamp md) eqn:Hexp;
        destruct (dict_get sid (session_locks (manager w))) as [lk|] eqn:Hlk;
        repeat (simpl; rewrite ?Hheld, ?Hl, ?Hmd, ?Hexp, ?Hd);
        try use_delete_session;
        simpl; rewrite ?filter_ne_singleton;
        eexists _, _; (split; [reflexivity|]); simpl; eauto 10.
    + apply dict_get_None in Hmd. rewrite Hkeys in Hmd.
      exfalso. apply Hmd. apply dict_mem_keys. unfold dict_mem. by rewrite Hl.
  - destruct (dict_get sid (session_locks (manager w))) as [lk|] eqn:Hlk;
      repeat (simpl; rewrite ?Hheld, ?Hl);
      simpl; rewrite ?filter_ne_singleton;
      eexists _, _; (split; [reflexivity|]); simpl; eauto 10.
Qed.

Lemma create_session_outcome now sid data w :
  wf w →
  ∃ b w' fields,
    create_session now sid data w = Returns b w' ∧
    held w' = [] ∧
    session_timeout (manager w') = session_timeout (manager w) ∧
    max_sessions (manager w') = max_sessions (manager w) ∧
    sessions (manager w') =
      dict_set sid (length (heap w) + 3)%nat
        (match victim (manager w) with
         | Some k => dict_pop k (sessions (manager w))
         | None => sessions (manager w)
         end) ∧
    session_metadata (manager w') =
      dict_set sid (mkMetadata now now 1)
        (match victim (manager w) with
         | Some k => dict_pop k (session_metadata (manager w))
         | None => session_metadata (manager w)
         end) ∧
    heap w' = heap w ++ [OList []; ODict []; ODict []; ODict fields].
Proof.
  intros (Hheld & Hnd & Hkeys & Hheap).
  unfold create_session, with_lock, acquire, _cleanup_oldest_session,
    user_sessions_item, set_active_sessions, release, victim, oldest_session.
  unfold_M. simpl. rewrite Hheld. simpl.
  destruct (max_sessions (manager w) <=? Z.of_nat (length (sessions (manager w))));
    [destruct (py_min last_access_of (session_metadata (manager w)))
       as [[k md]|] eqn:Hmin; simpl; rewrite ?Hmin; [use_delete_session; simpl|]|].
  all: repeat (case_match; simplify_eq/=).
  all: rewrite ?filter_ne_singleton, <- ?app_assoc; simpl.
  all: rewrite ?length_app; simpl.
  all: replace (length (heap w) + 1 + 1 + 1)%nat with (length (heap w) + 3)%nat by lia.
  all: eexists _, _, _; (split; [reflexivity|]); simpl.
  all: rewrite ?Hs, ?Hm; by split_and!.
Qed.

(** *** The invariant is kept *)

Lemma wf_init_world timeout limit : wf (init timeout limit).
Proof. split_and!; simpl; [done|apply NoDup_nil_2|done|done]. Qed.

Lemma heap_typing_app (ss : list (string * loc)) h extra :
  (∀ sid l, dict_get sid ss = Some l → ∃ d, h !! l = Some (ODict d)) →
  (∀ sid l, dict_get sid ss = Some l → ∃ d, (h ++ extra) !! l = Some (ODict d)).
Proof.
  intros Hh sid l Hl. destruct (Hh sid l Hl) as [d Hd]. exists d.
  by apply lookup_app_l_Some.
Qed.

Lemma get_session_wf now sid w r w' :
  wf w → get_session now sid w = Returns r w' → wf w'.
Proof.
  intros Hwf Hget.
  destruct (get_session_outcome now sid w Hwf) as (r0 & w0 & Hget0 & Hheld & _ & _ & Hcase).
  rewrite Hget in Hget0. injection Hget0 as <- <-.
  destruct Hwf as (_ & Hnd & Hkeys & Hheap).
  destruct (dict_get sid (sessions (manager w))) as [l|] eqn:Hl.
  - destruct (dict_get sid (session_metadata (manager w))) as [md|] eqn:Hmd; [|done].
    destruct (session_timeout (manager w) <? now - last_access_timestamp md).
    + destruct Hcase as (_ & Hs & Hm & Hh). unfold wf. rewrite Hs, Hm, Hh.
      split_and!; [done|by apply dict_pop_NoDup|by rewrite !dict_keys_pop, Hkeys|].
      intros sid' l'. rewrite dict_get_pop. destruct (decide _); [done|]. apply Hheap.
    + destruct Hcase as (d & Hd & _ & Hs & Hm & Hh). unfold wf. rewrite Hs, Hm, Hh.
      split_and!; [done..| |by apply heap_typing_app].
      rewrite dict_keys_set. unfold dict_mem. by rewrite Hmd.
  - destruct Hcase as (_ & Hs & Hm & Hh). unfold wf. by rewrite Hs, Hm, Hh.
Qed.

Lemma create_session_wf now sid data w b w' :
  wf w → create_session now sid data w = Returns b w' → wf w'.
Proof.
  intros Hwf Hcr.
  destruct (create_session_outcome now sid data w Hwf)
    as (b0 & w0 & fields & Hcr0 & Hheld & _ & _ & Hs & Hm & Hh).
  rewrite Hcr in Hcr0. injection Hcr0 as <- <-.
  destruct Hwf as (_ & Hnd & Hkeys & Hheap).
  unfold wf. rewrite Hs, Hm, Hh. split_and!; [done| | |].
  - apply dict_set_NoDup. destruct (victim (manager w)); [by apply dict_pop_NoDup|done].
  - rewrite !dict_keys_set.
    assert (dict_keys (match victim (manager w) with
                       | Some k => dict_pop k (session_metadata (manager w))
                       | None => session_metadata (manager w)
                       end) =
            dict_keys (match victim (manager w) with
                       | Some k => dict_pop k (sessions (manager w))
                       | None => sessions (manager w)
                       end)) as Hk.
    { destruct (victim (manager w)); [by rewrite !dict_keys_pop, Hkeys|done]. }
    rewrite Hk. by rewrite (CacheTheory.dict_mem_same_keys sid _ _ Hk).
  - intros sid' l'. rewrite dict_get_set. destruct (decide (sid' = sid)) as [->|Hne].
    + intros [= <-]. exists fields.
      rewrite lookup_app_r by lia.
      by replace (length (heap w) + 3 - length (heap w))%nat with 3%nat by lia.
    + intros Hl'. apply (heap_typing_app (sessions (manager w)) _ _ Hheap sid').
      destruct (victim (manager w)); [|done].
      rewrite dict_get_pop in Hl'. by destruct (decide _).
Qed.

(** *** Capacity *)






(** *** Expiry *)

(** C6, as the code has it. [get_session] returns [None] exactly when the
    session is missing or [now - last_access_timestamp > session_timeout],
    and then no record of the session is left. A read that succeeds sets
    [last_access_timestamp], the timestamp expiry is computed from, to
    [now], and leaves the stored record, its [last_activity] included, as
    it was: reads do postpone expiry. *)
Theorem C6_get_session_expiry now sid w :
  wf w →
  ∃ r w',
    get_session now sid w = Returns r w' ∧
    wf w' ∧
    (r = None ↔
       dict_get sid (sessions (manager w)) = None ∨
       ∃ md, dict_get sid (session_metadata (manager w)) = Some md ∧
             session_timeout (manager w) < now - last_access_timestamp md) ∧
    (r = None →
       dict_get sid (sessions (manager w')) = None ∧
       dict_get sid (session_metadata (manager w')) = None) ∧
    (∀ record, r = Some record →
       stored_record sid w' = stored_record sid w ∧
       ∃ md, dict_get sid (session_metadata (manager w')) = Some md ∧
             last_access_timestamp md = now).
Proof.
  intros Hwf.
  destruct (get_session_outcome now sid w Hwf) as (r & w' & Hget & _ & _ & _ & Hcase).
  exists r, w'. split; [done|]. split; [by eapply get_session_wf|].
  destruct Hwf as (_ & Hnd & Hkeys & Hheap).
  destruct (dict_get sid (sessions (manager w))) as [l|] eqn:Hl.
  - destruct (dict_get sid (session_metadata (manager w))) as [md|] eqn:Hmd; [|done].
    destruct (Z.ltb_spec (session_timeout (manager w)) (now - last_access_timestamp md))
      as [Hexp|Hlive].
    + destruct Hcase as (-> & Hs & Hm & Hh). split_and!.
      * split; [intros _; right; by exists md|done].
      * intros _. by rewrite Hs, Hm, !dict_get_pop, !decide_True.
      * done.
    + destruct Hcase as (d & Hd & -> & Hs & Hm & Hh). split_and!.
      * split; [done|]. intros [|(md' & [= <-] & Hlt)]; [done|lia].
      * done.
      * intros record _. split.
        -- unfold stored_record. rewrite Hs, Hl, Hh. simpl.
           by rewrite (lookup_app_l_Some _ _ _ _ Hd), Hd.
        -- rewrite Hm, dict_get_set, decide_True by done. by eexists.
  - destruct Hcase as (-> & Hs & Hm & Hh). split_and!.
    + split; [by left|done].
    + intros _. rewrite Hs, Hm, Hl. split; [done|].
      apply dict_get_None. rewrite Hkeys. by apply dict_get_None.
    + done.
Qed.

(** *** Copies *)

Lemma mutate_wf mu w : wf w → wf (mutate mu w).
Proof.
  intros (Hheld & Hnd & Hkeys & Hheap).
  assert (∀ (l0 : loc) o,
            (∀ d, heap w !! l0 = Some (ODict d) → ∃ d', o = ODict d') →
            wf (mkWorld (manager w) (<[l0 := o]> (heap w)) (held w) (lock_count w)))
    as Hset.
  { intros l0 o Ho. split_and!; [done..|]. simpl. intros sid l Hl.
    destruct (Hheap sid l Hl) as [d Hd].
    destruct (decide (l = l0)) as [->|Hne].
    - destruct (Ho d Hd) as [d' ->]. exists d'.
      apply list_lookup_insert_eq. by eapply lookup_lt_Some.
    - exists d. by rewrite list_lookup_insert_ne. }
  assert (wf w) as Hwf by done.
  destruct mu as [l key value|l key|l value]; simpl.
  - destruct (heap w !! l) as [[items|d]|] eqn:Hl; [done| |done].
    apply Hset. eauto.
  - destruct (heap w !! l) as [[items|d]|] eqn:Hl; [done| |done].
    apply Hset. eauto.
  - destruct (heap w !! l) as [[items|d]|] eqn:Hl; [|done..].
    apply Hset. intros d Hd. congruence.
Qed.

(** What a successful [get_session] returns: a new object with the fields
    of the stored record. *)
Lemma get_session_returns_copy now sid w record w1 :
  wf w →
  get_session now sid w = Returns (Some record) w1 →
  ∃ l d md,
    dict_get sid (sessions (manager w)) = Some l ∧
    dict_get sid (session_metadata (manager w)) = Some md ∧
    (session_timeout (manager w) <? now - last_access_timestamp md) = false ∧
    heap w !! l = Some (ODict d) ∧
    record = length (heap w) ∧
    sessions (manager w1) = sessions (manager w) ∧
    session_metadata (manager w1) =
      dict_set sid (mkMetadata (created_timestamp md) now (access_count md + 1))
        (session_metadata (manager w)) ∧
    session_timeout (manager w1) = session_timeout (manager w) ∧
    heap w1 = heap w ++ [ODict d].
Proof.
  intros Hwf Hget.
  destruct (get_session_outcome now sid w Hwf) as (r & w' & Hget' & _ & Ht & _ & Hcase).
  rewrite Hget in Hget'. injection Hget' as <- <-.
  destruct (dict_get sid (sessions (manager w))) as [l|]; [|by destruct Hcase].
  destruct (dict_get sid (session_metadata (manager w))) as [md|]; [|done].
  destruct (session_timeout (manager w) <? now - last_access_timestamp md) eqn:Hexp;
    [by destruct Hcase|].
  destruct Hcase as (d & Hd & [= <-] & Hs & Hm & Hh).
  exists l, d, md. by split_and!.
Qed.

Lemma mutate_all_wf mus w : wf w → wf (mutate_all mus w).
Proof.
  revert w. induction mus as [|mu mus IH]; intros w Hwf; [done|].
  by apply IH, mutate_wf.
Qed.

(** Mutations of the fields of one dictionary object leave a world that
    differs in that object only. *)
Lemma mutate_all_on_fields (l : loc) mus w d :
  Forall (λ mu, on_fields_of l mu = true) mus →
  heap w !! l = Some (ODict d) →
  ∃ d', mutate_all mus w =
        mkWorld (manager w) (<[l := ODict d']> (heap w)) (held w) (lock_count w).
Proof.
  intros Hmus. revert w d.
  induction Hmus as [|mu mus Hmu _ IH]; intros w d Hd.
  - exists d. simpl. rewrite list_insert_id by done. by destruct w.
  - pose proof (lookup_lt_Some _ _ _ Hd) as Hlt.
    assert (∃ d1, mutate mu w =
                  mkWorld (manager w) (<[l := ODict d1]> (heap w)) (held w)
                    (lock_count w)) as [d1 Hmut].
    { destruct mu as [l' key value|l' key|l' value]; simpl in Hmu; [| |done].
      all: apply bool_decide_eq_true in Hmu as ->.
      all: simpl; unfold loc in *; rewrite Hd; eauto. }
    destruct (IH (mutate mu w) d1) as [d' Hall].
    { rewrite Hmut. simpl. by apply list_lookup_insert_eq. }
    exists d'. unfold mutate_all in *. simpl. rewrite Hall, Hmut. simpl.
    by rewrite list_insert_insert_eq.
Qed.

(** C5, as the code has it. The record [get_session] returns is a new
    dictionary holding the fields of the stored one ([dict.copy()], a
    shallow copy). Whatever fields of the returned record the caller sets
    or deletes, no other object changes and nothing in the store does: a
    later [get_session], before the session expires, returns a record with
    the fields the store held before the mutations. The lists and
    dictionaries those fields refer to are shared with the store, and the
    statement says nothing of mutations made inside them. *)
Theorem C5_returned_record_is_a_shallow_copy now sid w record w1 :
  wf w →
  get_session now sid w = Returns (Some record) w1 →
  ∃ l d,
    dict_get sid (sessions (manager w1)) = Some l ∧
    l ≠ record ∧
    heap w1 !! l = Some (ODict d) ∧
    heap w1 !! record = Some (ODict d) ∧
    ∀ mus now',
      Forall (λ mu, on_fields_of record mu = true) mus →
      now' - now ≤ session_timeout (manager w) →
      manager (mutate_all mus w1) = manager w1 ∧
      stored_record sid (mutate_all mus w1) = Some d ∧
      (∀ l' : loc, l' ≠ record → heap (mutate_all mus w1) !! l' = heap w1 !! l') ∧
      ∃ record' w3,
        get_session now' sid (mutate_all mus w1) = Returns (Some record') w3 ∧
        heap w3 !! record' = Some (ODict d).
Proof.
  intros Hwf Hget.
  destruct (get_session_returns_copy now sid w record w1 Hwf Hget)
    as (l & d & md & Hl & Hmd & Hlive & Hd & -> & Hs & Hm & Ht & Hh).
  pose proof (lookup_lt_Some _ _ _ Hd) as Hlt.
  assert (heap w1 !! l = Some (ODict d)) as Hd1
    by (rewrite Hh; by apply lookup_app_l_Some).
  assert (heap w1 !! length (heap w) = Some (ODict d)) as Hrec
    by (rewrite Hh; apply list_lookup_middle; done).
  exists l, d. split_and!; [by rewrite Hs|lia|done..|].
  intros mus now' Hmus Hnow'.
  assert (wf (mutate_all mus w1)) as Hwf2 by (by eapply mutate_all_wf, get_session_wf).
  destruct (mutate_all_on_fields (length (heap w)) mus w1 d Hmus Hrec) as [d' Hmut].
  assert (manager (mutate_all mus w1) = manager w1) as Hman by (by rewrite Hmut).
  assert (heap (mutate_all mus w1) !! l = Some (ODict d)) as Hd2.
  { rewrite Hmut. simpl. rewrite list_lookup_insert_ne by lia. done. }
  split_and!.
  - done.
  - unfold stored_record. rewrite Hman, Hs, Hl. simpl. by rewrite Hd2.
  - intros l' Hl'. rewrite Hmut. simpl. by rewrite list_lookup_insert_ne.
  - destruct (get_session_outcome now' sid (mutate_all mus w1) Hwf2)
      as (r & w3 & Hget3 & _ & _ & _ & Hcase).
    rewrite Hman, Hs, Hl, Hm, dict_get_set, decide_True in Hcase by done.
    simpl in Hcase. rewrite Ht, (proj2 (Z.ltb_ge _ _)) in Hcase by lia.
    destruct Hcase as (d2 & Hd2' & -> & _ & _ & Hh3).
    rewrite Hd2 in Hd2'. injection Hd2' as <-.
    exists (length (heap (mutate_all mus w1))), w3. split; [done|].
    rewrite Hh3. by apply list_lookup_middle.
Qed.

(** *** The claims on concrete runs *)

(** A session created at 0 with a timeout of 10 and read at 8 is still
    returned at 16, although nothing was written since 0. *)
Lemma C6_counterexample :
  ∃ w1 r1 w2 r2 w3,
    create_session 0 "s1" None (init 10 5) = Returns true w1 ∧
    get_session 8 "s1" w1 = Returns (Some r1) w2 ∧
    (stored_record "s1" w2 ≫= dict_get "last_activity") = Some (VIso 0) ∧
    session_timeout (manager w2) < 16 - 0 ∧
    get_session 16 "s1" w2 = Returns (Some r2) w3.
Proof. do 5 eexists. split_and!; vm_compute; reflexivity. Qed.

Lemma C6_witness :
  ∃ w1,
    create_session 0 "s1" None (init 10 5) = Returns true w1 ∧
    (∃ record w2,
       get_session 8 "s1" w1 = Returns (Some record) w2 ∧
       stored_record "s1" w2 = stored_record "s1" w1) ∧
    (∃ w2,
       get_session 11 "s1" w1 = Returns None w2 ∧
       dict_get "s1" (sessions (manager w2)) = None).
Proof.
  eexists. split; [vm_compute; reflexivity|].
  match goal with
  | |- context [get_session 8 "s1" ?w1] =>
      assert (wf w1) as Hwf
        by (apply (create_session_wf 0 "s1" None (init 10 5) true);
            [apply wf_init_world | vm_compute; reflexivity])
  end.
  split.
  - lazymatch goal with
    | |- context [get_session 8 "s1" ?w1] =>
        destruct (C6_get_session_expiry 8 "s1" w1 Hwf)
          as (r & w2 & Hget & _ & Hiff & _ & Hlive)
    end.
    destruct r as [record|].
    + exists record, w2. split; [exact Hget|]. exact (proj1 (Hlive record eq_refl)).
    + destruct (proj1 Hiff eq_refl) as [Hmiss|(md & Hmd & Hlt)].
      * vm_compute in Hmiss. discriminate Hmiss.
      * vm_compute in Hmd. injection Hmd as <-. vm_compute in Hlt. discriminate Hlt.
  - lazymatch goal with
    | |- context [get_session 11 "s1" ?w1] =>
        destruct (C6_get_session_expiry 11 "s1" w1 Hwf)
          as (r & w2 & Hget & _ & Hiff & Hgone & _)
    end.
    assert (r = None) as ->.
    { apply Hiff. right. eexists. split; vm_compute; reflexivity. }
    exists w2. split; [exact Hget|]. exact (proj1 (Hgone eq_refl)).
Defined.

(** The caller appends to the history list of the record it was given:
    the record the store returns next has that message in its history. *)
Lemma C5_counterexample :
  ∃ w1 record w2 history record' w3,
    create_session 0 "s1" None (init 10 5) = Returns true w1 ∧
    get_session 1 "s1" w1 = Returns (Some record) w2 ∧
    (heap w2 !! record ≫= field "conversation_history") = Some (VRef history) ∧
    heap w2 !! history = Some (OList []) ∧
    get_session 2 "s1" (mutate (Append history (VStr "forged")) w2)
      = Returns (Some record') w3 ∧
    (heap w3 !! record' ≫= field "conversation_history") = Some (VRef history) ∧
    heap w3 !! history = Some (OList [VStr "forged"]).
Proof. do 6 eexists. split_and!; vm_compute; reflexivity. Qed.

Lemma C5_witness :
  ∃ w1 record w2 d,
    create_session 0 "s1" None (init 10 5) = Returns true w1 ∧
    get_session 1 "s1" w1 = Returns (Some record) w2 ∧
    stored_record "s1" w2 = Some d ∧
    stored_record "s1"
      (mutate_all [SetItem record "state" (VStr "ended");
                   DelItem record "conversation_history"] w2) = Some d.
Proof.
  do 2 eexists.
  match goal with
  | |- ∃ w2 d, ?Hcreate ∧ get_session 1 "s1" ?w1 = Returns (Some ?record) w2 ∧ _ =>
      assert Hcreate as Hcr by (vm_compute; reflexivity);
      assert (∃ w2, get_session 1 "s1" w1 = Returns (Some record) w2) as [w2 Hget]
        by (eexists; vm_compute; reflexivity);
      assert (wf w1) as Hwf
        by (apply (create_session_wf 0 "s1" None (init 10 5) true);
            [apply wf_init_world|exact Hcr]);
      destruct (C5_returned_record_is_a_shallow_copy 1 "s1" w1 record w2 Hwf Hget)
        as (l & d & Hl & Hne & Hd & Hrec & Hmut);
      destruct (Hmut [SetItem record "state" (VStr "ended");
                      DelItem record "conversation_history"] 2)
        as (_ & Hstored & _);
      [repeat constructor | vm_compute; discriminate |];
      exists w2, d; split_and!; [exact Hcr|exact Hget| |exact Hstored];
      unfold stored_record; rewrite Hl; simpl; rewrite Hd; reflexivity
  end.
Defined.

(** C7, as the code has it. User 7 has two sessions; at time 16 the first
    is alive and the second has expired. [get_session] deletes the expired
    one and takes it off the user's list; [get_user_sessions] then removes
    it from the list a second time, the [ValueError] is caught, and the
    call returns the empty list, leaving out the session that is alive. *)
Theorem C7_get_user_sessions_loses_live_sessions :
  ∃ w1 w2 r w3 w4,
    create_session 0 "s1" (Some [("user_id", VInt 7)]) (init 10 5) = Returns true w1 ∧
    create_session 5 "s2" (Some [("user_id", VInt 7)]) w1 = Returns true w2 ∧
    get_session 8 "s1" w2 = Returns (Some r) w3 ∧
    get_user_sessions 16 (VInt 7) w3 = Returns [] w4 ∧
    dict_keys (sessions (manager w4)) = ["s1"] ∧
    dict_get (VInt 7) (user_sessions (manager w4)) = Some ["s1"] ∧
    ∃ r' w5, get_session 16 "s1" w4 = Returns (Some r') w5.
Proof.
  do 5 eexists. split_and!; [vm_compute; reflexivity..|].
  do 2 eexists. vm_compute. reflexivity.
Qed.

(** The scenario of the specification does hold: once [get_session] has
    returned [None] for the expired session, the user's list is empty. *)
Lemma get_user_sessions_after_expiry :
  ∃ w1 w2 w3,
    create_session 0 "s1" (Some [("user_id", VInt 7)]) (init 10 5) = Returns true w1 ∧
    get_session 11 "s1" w1 = Returns None w2 ∧
    get_user_sessions 12 (VInt 7) w2 = Returns [] w3.
Proof. do 3 eexists. split_and!; vm_compute; reflexivity. Qed.

End SessionTheory.
(** ** The capacity bound of both stores *)




(** ** Further properties of the cache store *)

(** *** Dictionaries and filters *)

Section dict_filter.
Context {K V : Type} `{EqDecision K}.
Implicit Types (k : K) (d : list (K * V)).

Lemma dict_pop_filter k d : dict_pop k d = filter (λ kv, kv.1 ≠ k) d.
Proof.
  induction d as [|[k0 v0] d IH]; simpl; [done|].
  destruct (decide (k = k0)) as [->|Hne].
  - by rewrite filter_cons_False by (simpl; intros Hk; by apply Hk).
  - rewrite filter_cons_True by (simpl; congruence). by rewrite IH.
Qed.

Lemma dict_pop_all_filter (ks : list K) d :
  foldl (λ acc k, dict_pop k acc) d ks = filter (λ kv, kv.1 ∉ ks) d.
Proof.
  revert d. induction ks as [|k ks IH]; intros d; simpl.
  - symmetry. induction d as [|kv d IHd]; [done|].
    rewrite filter_cons_True by apply not_elem_of_nil. by rewrite IHd.
  - rewrite IH, dict_pop_filter, list_filter_filter.
    apply list_filter_iff. intros kv. rewrite not_elem_of_cons. tauto.
Qed.

Lemma dict_get_filter_key (P : K → Prop) `{∀ k, Decision (P k)} k d :
  dict_get k (filter (λ kv, P kv.1) d) = if decide (P k) then dict_get k d else None.
Proof.
  induction d as [|[k0 v0] d IH]; [by destruct (decide (P k))|].
  destruct (decide (P k0)) as [Hk0|Hk0].
  - rewrite filter_cons_True by done. simpl. rewrite IH.
    destruct (decide (k = k0)) as [->|Hne]; [by destruct (decide (P k0))|done].
  - rewrite filter_cons_False by done. rewrite IH. simpl.
    destruct (decide (k = k0)) as [->|Hne]; [by destruct (decide (P k0))|done].
Qed.

Lemma dict_get_without (ks : list K) k d :
  dict_get k (filter (λ kv, kv.1 ∉ ks) d) =
  if decide (k ∈ ks) then None else dict_get k d.
Proof.
  induction d as [|[k0 v0] d IH]; [by destruct (decide (k ∈ ks))|].
  destruct (decide (k0 ∈ ks)) as [Hk0|Hk0].
  - rewrite filter_cons_False by (simpl; tauto). rewrite IH. simpl.
    destruct (decide (k = k0)) as [->|Hne]; [by destruct (decide (k0 ∈ ks))|done].
  - rewrite filter_cons_True by done. simpl. rewrite IH.
    destruct (decide (k = k0)) as [->|Hne]; [by destruct (decide (k0 ∈ ks))|done].
Qed.

Lemma dict_keys_filter_key (P : K → Prop) `{∀ k, Decision (P k)} d :
  dict_keys (filter (λ kv, P kv.1) d) = filter P (dict_keys d).
Proof.
  unfold dict_keys. induction d as [|[k0 v0] d IH]; csimpl; [done|].
  destruct (decide (P k0)) as [Hk0|Hk0].
  - rewrite !filter_cons_True by done. csimpl. by rewrite IH.
  - by rewrite !filter_cons_False by done.
Qed.

Lemma filter_ext_elem {A} (P Q : A → Prop) `{∀ x, Decision (P x)}
    `{∀ x, Decision (Q x)} (l : list A) :
  (∀ x, x ∈ l → P x ↔ Q x) → filter P l = filter Q l.
Proof.
  induction l as [|x l IH]; intros Hext; [done|].
  assert (filter P l = filter Q l) as Hl.
  { apply IH. intros y Hy. by apply Hext, list_elem_of_further. }
  pose proof (Hext x (list_elem_of_here _ _)) as Hx.
  destruct (decide (P x)) as [HP|HP].
  - rewrite !filter_cons_True by tauto. by rewrite Hl.
  - rewrite !filter_cons_False by tauto. done.
Qed.

Lemma filter_complement_length {A} (P : A → Prop) `{∀ x, Decision (P x)}
    (l : list A) :
  (length (filter P l) + length (filter (λ x, ¬ P x) l) = length l)%nat.
Proof. by rewrite <- length_app, filter_app_complement. Qed.

Lemma filter_none {A} (P : A → Prop) `{∀ x, Decision (P x)} (l : list A) :
  (∀ x, x ∈ l → ¬ P x) → filter P l = [].
Proof.
  induction l as [|x l IH]; intros Hno; [done|].
  rewrite filter_cons_False by (apply Hno, list_elem_of_here).
  apply IH. intros y Hy. by apply Hno, list_elem_of_further.
Qed.

Lemma elem_of_filter_keys (P : K * V → Prop) `{∀ x, Decision (P x)} d k :
  NoDup (dict_keys d) →
  k ∈ (filter P d).*1 ↔ ∃ v, dict_get k d = Some v ∧ P (k, v).
Proof.
  intros Hnd. rewrite list_elem_of_fmap. split.
  - intros ([k0 v] & -> & [HP Hin]%list_elem_of_filter). exists v.
    split; [by apply dict_elem_get|done].
  - intros (v & Hget & HP). exists (k, v). split; [done|].
    apply list_elem_of_filter. split; [done|]. by apply dict_get_Some_elem.
Qed.

Lemma filter_key_length (P : K → Prop) `{∀ k, Decision (P k)} d :
  length (filter (λ kv, P kv.1) d) = length (filter P (dict_keys d)).
Proof. by rewrite <- dict_keys_filter_key, dict_keys_length. Qed.

Lemma dict_keys_without (ks : list K) d :
  dict_keys (filter (λ kv, kv.1 ∉ ks) d) = filter (λ k, k ∉ ks) (dict_keys d).
Proof. exact (dict_keys_filter_key (λ k, k ∉ ks) d). Qed.

Lemma length_without (ks : list K) d :
  length (filter (λ kv, kv.1 ∉ ks) d) = length (filter (λ k, k ∉ ks) (dict_keys d)).
Proof. exact (filter_key_length (λ k, k ∉ ks) d). Qed.
End dict_filter.

Lemma str_contains_empty s : str_contains "" s = true.
Proof. by destruct s. Qed.

Lemma prefix_length (p s : string) :
  String.prefix p s = true → (String.length p ≤ String.length s)%nat.
Proof.
  revert s. induction p as [|a p IH]; intros [|b s]; simpl; try (done || lia).
  destruct (Ascii.ascii_dec a b); [|done]. intros Hp%IH. lia.
Qed.

Lemma str_contains_length (pattern s : string) :
  str_contains pattern s = true →
  (String.length pattern ≤ String.length s)%nat.
Proof.
  induction s as [|a s IH].
  - change (str_contains pattern "") with (String.prefix pattern "" || false).
    rewrite orb_false_r. apply prefix_length.
  - change (str_contains pattern (String a s))
      with (String.prefix pattern (String a s) || str_contains pattern s).
    intros [Hp|Hs]%orb_true_iff.
    + by apply prefix_length in Hp.
    + apply IH in Hs. simpl. lia.
Qed.

(** A string has at most as many code points as bytes. *)
Lemma py_len_le (s : string) : (py_len s ≤ String.length s)%nat.
Proof.
  induction s as [|c s IH]; simpl; [done|].
  destruct (is_continuation_byte c); lia.
Qed.

Module CacheProperties.
Import Cache CacheTheory CacheRuns.

Section properties.
Context {V : Type}.
Variable md5_hexdigest : string → string.
Local Abbreviation Cache := (CacheManager V).
Local Abbreviation normalize := (_normalize_key md5_hexdigest).
Implicit Types (s : Cache) (key k : string) (now : Z).

(** *** Removing a list of keys *)

Lemma delete_keys_spec ks s :
  let s' := foldl (λ acc key, _delete_key key acc) s ks in
  cache_data s' = filter (λ kv, kv.1 ∉ ks) (cache_data s) ∧
  cache_metadata s' = filter (λ kv, kv.1 ∉ ks) (cache_metadata s) ∧
  access_times s' = filter (λ kv, kv.1 ∉ ks) (access_times s) ∧
  stats s' = stats s ∧ max_size s' = max_size s ∧ default_ttl s' = default_ttl s.
Proof.
  simpl. rewrite <- !dict_pop_all_filter.
  revert s. induction ks as [|k ks IH]; intros s; simpl; [done|].
  apply (IH (_delete_key k s)).
Qed.


(** X1. Whatever calls a client makes on a new store, at whatever times,
    no key is stored twice, the metadata and the access times list the
    same keys in the same order, every key that has them has a value, and
    the configuration is the one given to the constructor. If no [set] of
    the run failed, the values list these same keys too, in the same
    order; a [set] that fails leaves a value that has neither metadata nor
    access time. *)
Theorem reachable_cache_is_consistent default_ttl0 max_size0 trace :
  let s : Cache := run md5_hexdigest trace (init default_ttl0 max_size0) in
  NoDup (dict_keys (cache_data s)) ∧
  dict_keys (access_times s) = dict_keys (cache_metadata s) ∧
  (∀ k, dict_mem k (cache_metadata s) = true → dict_mem k (cache_data s) = true) ∧
  (Forall (λ tc, set_fails default_ttl0 tc.2 = false) trace →
   dict_keys (cache_metadata s) = dict_keys (cache_data s)) ∧
  default_ttl s = default_ttl0 ∧
  max_size s = max_size0.
Proof.
  simpl. destruct (config_run md5_hexdigest trace (init default_ttl0 max_size0))
    as [-> ->].
  destruct (consistent_run md5_hexdigest trace (init default_ttl0 max_size0)
              (consistent_init _ _)) as (Hnd & _ & Ha & Hsub).
  split_and!; [done|done| | |done|done].
  - intros k Hk. apply dict_mem_keys, Hsub. by apply dict_mem_keys.
  - intros Hok.
    by destruct (wf_run md5_hexdigest trace (init default_ttl0 max_size0) Hok
                   (wf_init _ _)) as (_ & ? & _).
Qed.

(** What a [set] that returns [True] leaves under the key. *)
Lemma set_stores_entry s t key value ttl :
  (set md5_hexdigest t key value ttl s).1 = true →
  let s1 := (set md5_hexdigest t key value ttl s).2 in
  dict_get (normalize key) (cache_data s1) = Some value ∧
  dict_get (normalize key) (cache_metadata s1) =
    Some (mkMetadata t (default (default_ttl s) ttl)
            (t + default (default_ttl s) ttl) 1).
Proof.
  intros Hok. simpl. rewrite set_ok by done. simpl.
  by rewrite !dict_get_set, !decide_True by done.
Qed.

Lemma get_after_set s t key value ttl now :
  (set md5_hexdigest t key value ttl s).1 = true →
  now ≤ t + default (default_ttl s) ttl →
  (get md5_hexdigest now key (set md5_hexdigest t key value ttl s).2).1 = Some value.
Proof.
  intros Hok Hnow. destruct (set_stores_entry s t key value ttl Hok) as [Hd Hm].
  by rewrite (get_hit md5_hexdigest now key _ value _ Hd Hm).
Qed.

(** X2. What [set] stores, [get] returns: from any store, full or not,
    after a [set] that returned [True] a [get] of the key no later than
    [ttl] after it returns the value, counts one hit and changes nothing
    but the key's access time. *)
Theorem set_then_get_returns_value s t key value ttl now :
  (set md5_hexdigest t key value ttl s).1 = true →
  now ≤ t + default (default_ttl s) ttl →
  let s1 := (set md5_hexdigest t key value ttl s).2 in
  get md5_hexdigest now key s1 =
    (Some value,
     with_stats bump_hits (with_access_times (dict_set (normalize key) now) s1)).
Proof.
  intros Hok Hnow s1.
  destruct (set_stores_entry s t key value ttl Hok) as [Hd Hm].
  apply get_hit with (m := mkMetadata t (default (default_ttl s) ttl)
                             (t + default (default_ttl s) ttl) 1).
  - exact Hd.
  - exact Hm.
  - simpl. exact Hnow.
Qed.

(** X3. [delete] answers whether the key was stored; afterwards the key
    has no value, no metadata and no access time, every other key has what
    it had, the [deletes] counter has moved only if something was removed,
    and a second [delete] of the key answers false and changes nothing. *)
Theorem delete_removes_entry_once key s :
  wf s →
  let k := normalize key in
  let r := delete md5_hexdigest key s in
  r.1 = dict_mem k (cache_data s) ∧
  dict_get k (cache_data r.2) = None ∧
  dict_get k (cache_metadata r.2) = None ∧
  dict_get k (access_times r.2) = None ∧
  (∀ k', k' ≠ k →
     dict_get k' (cache_data r.2) = dict_get k' (cache_data s) ∧
     dict_get k' (cache_metadata r.2) = dict_get k' (cache_metadata s) ∧
     dict_get k' (access_times r.2) = dict_get k' (access_times s)) ∧
  deletes (stats r.2) = deletes (stats s) + (if r.1 then 1 else 0) ∧
  delete md5_hexdigest key r.2 = (false, r.2).
Proof.
  intros (Hnd & Hm & Ha). simpl. unfold delete.
  destruct (dict_mem (normalize key) (cache_data s)) eqn:Hmem; simpl.
  - rewrite !dict_get_pop, !decide_True by done.
    split_and!; try done.
    + intros k' Hk'. by rewrite !dict_get_pop, !decide_False by done.
    + unfold dict_mem. by rewrite dict_get_pop, decide_True.
  - rewrite Hmem. unfold dict_mem in Hmem.
    destruct (dict_get (normalize key) (cache_data s)) eqn:Hget; [done|].
    split_and!; try done.
    + eapply dict_get_same_keys_None; [symmetry; exact Hm|done].
    + eapply dict_get_same_keys_None; [symmetry; exact Ha|done].
    + lia.
Qed.

(** *** Sweeping expired entries *)




(** *** Invalidating by pattern *)

Lemma invalidate_pattern_keeps pattern s {A} (d : list (string * A)) :
  dict_keys d = dict_keys (cache_data s) →
  filter (λ kv, kv.1 ∉ filter (λ key, str_contains pattern key = true)
                          (dict_keys (cache_data s))) d =
  filter (λ kv, str_contains pattern kv.1 = false) d.
Proof.
  intros Hk. apply filter_ext_elem. intros [k v] Hin. simpl.
  rewrite list_elem_of_filter.
  assert (k ∈ dict_keys (cache_data s)) as Hkin.
  { rewrite <- Hk. apply list_elem_of_fmap. by exists (k, v). }
  destruct (str_contains pattern k); split; try done.
  - intros Hno. destruct Hno. by split.
  - by intros _ [? _].
Qed.

(** X5. [invalidate_pattern] removes the entries whose stored key contains
    the pattern, and only those, from the three dictionaries, and returns
    how many they were; no counter of the statistics moves (the removals
    are not counted as deletes). *)
Theorem invalidate_pattern_removes_matching pattern s :
  wf s →
  let r := invalidate_pattern pattern s in
  cache_data r.2 =
    filter (λ kv, str_contains pattern kv.1 = false) (cache_data s) ∧
  cache_metadata r.2 =
    filter (λ kv, str_contains pattern kv.1 = false) (cache_metadata s) ∧
  access_times r.2 =
    filter (λ kv, str_contains pattern kv.1 = false) (access_times s) ∧
  r.1 = Z.of_nat (length (filter (λ kv, str_contains pattern kv.1 = true)
                            (cache_data s))) ∧
  stats r.2 = stats s.
Proof.
  intros (Hnd & Hkm & Hka). simpl. unfold invalidate_pattern; simpl.
  destruct (delete_keys_spec
    (filter (λ key, str_contains pattern key = true) (dict_keys (cache_data s))) s)
    as (-> & -> & -> & -> & _).
  rewrite !invalidate_pattern_keeps by done.
  split_and!; try done.
  f_equal. symmetry.
  exact (filter_key_length (λ k, str_contains pattern k = true) (cache_data s)).
Qed.

(** X6. The empty pattern occurs in every key: [invalidate_pattern("")]
    empties the store, returns the number of entries it held, and every
    [get] that follows is a miss. *)
Theorem invalidate_empty_pattern_clears s :
  let r := invalidate_pattern "" s in
  r.1 = Z.of_nat (length (cache_data s)) ∧
  cache_data r.2 = [] ∧
  ∀ now key, (get md5_hexdigest now key r.2).1 = None.
Proof.
  simpl. unfold invalidate_pattern; simpl.
  assert (filter (λ key, str_contains "" key = true) (dict_keys (cache_data s))
          = dict_keys (cache_data s)) as ->.
  { induction (dict_keys (cache_data s)) as [|k ks IH]; [done|].
    rewrite filter_cons_True by apply str_contains_empty. by rewrite IH. }
  destruct (delete_keys_spec (dict_keys (cache_data s)) s) as (Hd & _).
  simpl in Hd.
  assert (cache_data (foldl (λ acc key, _delete_key key acc) s
                        (dict_keys (cache_data s))) = []) as Hnil.
  { rewrite Hd. apply filter_none. intros [k v] Hin Hno. apply Hno.
    apply list_elem_of_fmap. by exists (k, v). }
  split_and!.
  - by rewrite dict_keys_length.
  - done.
  - intros now key. unfold get. by rewrite Hnil.
Qed.

(** *** Keys longer than 250 characters *)

Lemma get_same_normalized_key now key key' s :
  normalize key' = normalize key →
  get md5_hexdigest now key' s = get md5_hexdigest now key s.
Proof. intros Hk. unfold get. by rewrite Hk. Qed.

Lemma invalidate_pattern_keeps_key pattern s k :
  str_contains pattern k = false →
  dict_get k (cache_data (invalidate_pattern pattern s).2) = dict_get k (cache_data s) ∧
  dict_get k (cache_metadata (invalidate_pattern pattern s).2) =
    dict_get k (cache_metadata s).
Proof.
  intros Hpat. unfold invalidate_pattern; simpl.
  destruct (delete_keys_spec
    (filter (λ key, str_contains pattern key = true) (dict_keys (cache_data s))) s)
    as (-> & -> & _).
  assert (k ∉ filter (λ key, str_contains pattern key = true)
                (dict_keys (cache_data s))) as Hin.
  { intros [Hc _]%list_elem_of_filter. congruence. }
  by rewrite !dict_get_without, !decide_False by done.
Qed.

Lemma set_invalidate_get s t key value ttl pattern now :
  (set md5_hexdigest t key value ttl s).1 = true →
  str_contains pattern (normalize key) = false →
  now ≤ t + default (default_ttl s) ttl →
  (get md5_hexdigest now key
     (invalidate_pattern pattern (set md5_hexdigest t key value ttl s).2).2).1
  = Some value.
Proof.
  intros Hok Hpat Hnow.
  destruct (invalidate_pattern_keeps_key pattern
              (set md5_hexdigest t key value ttl s).2 _ Hpat) as [Hd Hm].
  destruct (set_stores_entry s t key value ttl Hok) as [Hd' Hm'].
  rewrite get_hit with (v := value)
    (m := mkMetadata t (default (default_ttl s) ttl)
            (t + default (default_ttl s) ttl) 1); [done| | |done].
  - by rewrite Hd.
  - by rewrite Hm.
Qed.

(** X7. A key of more than 250 characters (code points) is stored under
    its MD5 digest, and [invalidate_pattern] looks at the stored keys:
    after a [set] that returned [True], a pattern that does not occur in
    the digest leaves the entry in place, whether or not it occurs in the
    key the caller used. *)
Theorem invalidate_pattern_looks_at_digest_of_long_key
    s t key value ttl pattern now :
  (250 < py_len key)%nat →
  (set md5_hexdigest t key value ttl s).1 = true →
  str_contains pattern (md5_hexdigest key) = false →
  now ≤ t + default (default_ttl s) ttl →
  let s1 := (set md5_hexdigest t key value ttl s).2 in
  (get md5_hexdigest now key (invalidate_pattern pattern s1).2).1 = Some value.
Proof.
  intros Hlong Hok Hpat Hnow. simpl. apply set_invalidate_get; [done| |done].
  unfold _normalize_key. by rewrite (proj2 (Nat.ltb_lt _ _) Hlong).
Qed.

(** X8. A key of more than 250 characters (code points) and its MD5
    digest (itself a key of at most 250 characters) name the same entry:
    what a [set] that returned [True] stored under the long key is
    returned by a [get] of the digest. *)
Theorem long_key_shares_entry_with_its_digest s t key value ttl now :
  (250 < py_len key)%nat →
  (py_len (md5_hexdigest key) ≤ 250)%nat →
  (set md5_hexdigest t key value ttl s).1 = true →
  now ≤ t + default (default_ttl s) ttl →
  (get md5_hexdigest now (md5_hexdigest key)
     (set md5_hexdigest t key value ttl s).2).1 = Some value.
Proof.
  intros Hlong Hshort Hok Hnow.
  rewrite (get_same_normalized_key now key (md5_hexdigest key)).
  - by apply get_after_set.
  - unfold _normalize_key.
    rewrite (proj2 (Nat.ltb_lt _ _) Hlong).
    by rewrite (proj2 (Nat.ltb_ge _ _) Hshort).
Qed.

(** *** What a [get] leaves alone *)

Lemma get_other_access_time now key s k' :
  k' ≠ normalize key →
  dict_get k' (access_times (get md5_hexdigest now key s).2) =
    dict_get k' (access_times s).
Proof.
  intros Hk'. unfold get.
  destruct (dict_mem (normalize key) (cache_data s)); simpl; [|done].
  destruct (_is_expired now (normalize key) s); simpl.
  - by rewrite dict_get_pop, decide_False.
  - by rewrite dict_get_set, decide_False.
Qed.

(** X9. A [get] touches one entry only: every key other than the one
    read keeps its value, its metadata and its access time, whether the
    read is a hit, a miss, or the removal of an expired entry; the store
    never grows. *)
Theorem get_leaves_other_keys_alone now key s k' :
  k' ≠ normalize key →
  let s' := (get md5_hexdigest now key s).2 in
  dict_get k' (cache_data s') = dict_get k' (cache_data s) ∧
  dict_get k' (cache_metadata s') = dict_get k' (cache_metadata s) ∧
  dict_get k' (access_times s') = dict_get k' (access_times s) ∧
  (length (cache_data s') ≤ length (cache_data s))%nat.
Proof.
  intros Hk'. simpl. split_and!.
  - unfold get. destruct (dict_mem (normalize key) (cache_data s)); simpl; [|done].
    destruct (_is_expired now (normalize key) s); simpl; [|done].
    by rewrite dict_get_pop, decide_False.
  - unfold get. destruct (dict_mem (normalize key) (cache_data s)); simpl; [|done].
    destruct (_is_expired now (normalize key) s); simpl; [|done].
    by rewrite dict_get_pop, decide_False.
  - by apply get_other_access_time.
  - unfold get. destruct (dict_mem (normalize key) (cache_data s)); simpl; [|done].
    destruct (_is_expired now (normalize key) s); simpl; [|done].
    rewrite dict_pop_filter. apply length_filter.
Qed.

(** *** The counters *)

Lemma count_calls_cons (p : call (V := V) → bool) t c trace :
  count_calls p ((t, c) :: trace) = (if p c then 1 else 0) + count_calls p trace.
Proof.
  unfold count_calls. destruct (p c) eqn:Hp.
  - rewrite filter_cons_True by done. simpl length. lia.
  - rewrite filter_cons_False by (simpl; congruence). lia.
Qed.

Lemma stats_delete_keys ks s :
  stats (foldl (λ acc key, _delete_key key acc) s ks) = stats s.
Proof. by destruct (delete_keys_spec ks s) as (_ & _ & _ & -> & _). Qed.

Lemma step_counters now c s :
  let st := stats s in
  let st' := stats (step md5_hexdigest now c s) in
  hits st' + misses st' = hits st + misses st + (if is_get c then 1 else 0) ∧
  hits st ≤ hits st' ∧ misses st ≤ misses st' ∧
  sets st' = sets st + (if is_set c then 1 else 0)
                     - (if set_fails (default_ttl s) c then 1 else 0) ∧
  cleanups st' = cleanups st + (if is_cleanup c then 1 else 0) ∧
  deletes st ≤ deletes st' ≤ deletes st + (if is_delete c then 1 else 0) ∧
  evictions st ≤ evictions st'.
Proof.
  destruct c as [key|key value ttl|key| | |pattern]; unfold step; simpl.
  - unfold get. destruct (dict_mem _ _); simpl; [|lia].
    destruct (_is_expired _ _ _); simpl; lia.
  - unfold set. destruct (float_of_int_fits _); simpl;
      (destruct (_ <=? _); simpl; [|lia]);
      unfold _evict_lru; destruct (py_min snd (access_times s)) as [[k t]|];
      simpl; lia.
  - unfold delete. destruct (dict_mem _ _); simpl; lia.
  - lia.
  - rewrite stats_delete_keys. simpl. lia.
  - rewrite stats_delete_keys. lia.
Qed.

Lemma run_counters trace s :
  let st := stats s in
  let st' := stats (run md5_hexdigest trace s) in
  hits st' + misses st' = hits st + misses st + count_calls is_get trace ∧
  hits st ≤ hits st' ∧ misses st ≤ misses st' ∧
  sets st' = sets st + count_calls is_set trace
                     - count_calls (set_fails (default_ttl s)) trace ∧
  cleanups st' = cleanups st + count_calls is_cleanup trace ∧
  deletes st ≤ deletes st' ≤ deletes st + count_calls is_delete trace ∧
  evictions st ≤ evictions st'.
Proof.
  revert s. induction trace as [|[t c] trace IH]; intros s; simpl.
  - unfold count_calls; simpl. lia.
  - rewrite !count_calls_cons.
    pose proof (IH (step md5_hexdigest t c s)) as IH'. simpl in IH'.
    rewrite (proj1 (config_step md5_hexdigest t c s)) in IH'.
    pose proof (step_counters t c s) as Hstep. simpl in Hstep.
    lia.
Qed.

(** An eviction removes an entry that has metadata, and only a [set] that
    returns [True] writes metadata. *)
Lemma evictions__evict_lru s :
  consistent s →
  evictions (stats (_evict_lru s)) + Z.of_nat (length (cache_metadata (_evict_lru s)))
  ≤ evictions (stats s) + Z.of_nat (length (cache_metadata s)) ∧
  sets (stats (_evict_lru s)) = sets (stats s).
Proof.
  intros (Hnd & Hndm & Ha & Hsub). unfold _evict_lru.
  destruct (py_min snd (access_times s)) as [[k t]|] eqn:Hmin; [|done].
  simpl. split; [|done].
  apply py_min_spec in Hmin as [Hin _].
  assert (k ∈ dict_keys (cache_metadata s)) as Hk.
  { rewrite <- Ha. apply list_elem_of_fmap. by exists (k, t). }
  pose proof (dict_pop_length k (cache_metadata s) Hndm Hk). lia.
Qed.

Lemma step_evictions now c s :
  consistent s →
  evictions (stats s) + Z.of_nat (length (cache_metadata s)) ≤ sets (stats s) →
  evictions (stats (step md5_hexdigest now c s)) +
    Z.of_nat (length (cache_metadata (step md5_hexdigest now c s)))
  ≤ sets (stats (step md5_hexdigest now c s)).
Proof.
  intros Hc Hinv.
  assert (∀ ks,
    evictions (stats (foldl (λ acc key, _delete_key key acc) s ks)) +
      Z.of_nat (length (cache_metadata (foldl (λ acc key, _delete_key key acc) s ks)))
    ≤ sets (stats (foldl (λ acc key, _delete_key key acc) s ks))) as Hks.
  { intros ks. destruct (delete_keys_spec ks s) as (_ & Hm & _ & Hst & _).
    simpl in Hm, Hst. rewrite Hm, Hst.
    pose proof (length_filter (λ kv : string * Metadata, kv.1 ∉ ks) (cache_metadata s)).
    lia. }
  destruct c as [key|key value ttl|key| | |pattern]; unfold step.
  - unfold get. destruct (dict_mem _ _); simpl; [|done].
    destruct (_is_expired _ _ _); simpl; [|done].
    rewrite dict_pop_filter.
    pose proof (length_filter (λ kv : string * Metadata, kv.1 ≠ normalize key)
                  (cache_metadata s)). lia.
  - assert (evictions (stats (if max_size s <=? Z.of_nat (length (cache_data s))
                              then _evict_lru s else s)) +
              Z.of_nat (length (cache_metadata
                (if max_size s <=? Z.of_nat (length (cache_data s))
                 then _evict_lru s else s)))
            ≤ sets (stats (if max_size s <=? Z.of_nat (length (cache_data s))
                           then _evict_lru s else s))) as Hroom.
    { destruct (_ <=? _); [|done].
      destruct (evictions__evict_lru s Hc) as [Hle ->]. lia. }
    destruct (set md5_hexdigest now key value ttl s).1 eqn:Hr.
    + rewrite set_ok by done. simpl. rewrite dict_set_length.
      destruct (dict_mem _ _); lia.
    + by rewrite set_failed by done.
  - unfold delete. destruct (dict_mem _ _); simpl; [|done].
    rewrite dict_pop_filter.
    pose proof (length_filter (λ kv : string * Metadata, kv.1 ≠ normalize key)
                  (cache_metadata s)). lia.
  - simpl. pose proof (Nat2Z.is_nonneg (length (cache_metadata s))). lia.
  - unfold cleanup_expired. simpl. apply Hks.
  - unfold invalidate_pattern. simpl. apply Hks.
Qed.

Lemma run_evictions trace s :
  consistent s →
  evictions (stats s) + Z.of_nat (length (cache_metadata s)) ≤ sets (stats s) →
  evictions (stats (run md5_hexdigest trace s)) ≤ sets (stats (run md5_hexdigest trace s)).
Proof.
  revert s. induction trace as [|[t c] trace IH]; intros s Hc Hinv; simpl.
  - pose proof (Nat2Z.is_nonneg (length (cache_metadata s))). lia.
  - apply IH; [by apply consistent_step|by apply step_evictions].
Qed.

(** X10. The statistics of a store count its calls: after any run of
    calls on a new store, [hits + misses] (the [total_requests] of
    [get_stats]) is the number of [get] calls, [sets] the number of [set]
    calls that returned [True] (all of them less the ones that failed) and
    [cleanups] the number of [cleanup_expired] calls; [deletes] is at most
    the number of [delete] calls, and [evictions] at most [sets]. *)
Theorem counters_count_the_calls default_ttl0 max_size0 trace :
  let s : Cache := run md5_hexdigest trace (init default_ttl0 max_size0) in
  total_requests (get_stats s) = count_calls is_get trace ∧
  0 ≤ hits (stats s) ∧ 0 ≤ misses (stats s) ∧
  sets (stats s) =
    count_calls is_set trace - count_calls (set_fails default_ttl0) trace ∧
  cleanups (stats s) = count_calls is_cleanup trace ∧
  0 ≤ deletes (stats s) ≤ count_calls is_delete trace ∧
  0 ≤ evictions (stats s) ≤ sets (stats s).
Proof.
  pose proof (run_counters trace (init default_ttl0 max_size0)) as H.
  pose proof (run_evictions trace (init default_ttl0 max_size0)
                (consistent_init _ _)) as He.
  simpl in *. lia.
Qed.

(** *** The hit rate *)

Lemma round_half_even_bounds (x : Q) (a b : Z) :
  (inject_Z a <= x)%Q → (x <= inject_Z b)%Q → a ≤ round_half_even x ≤ b.
Proof.
  intros Ha Hb. unfold round_half_even.
  assert (a ≤ Qfloor x) as Hfa.
  { rewrite <- (Qfloor_Z a). by apply Qfloor_resp_le. }
  assert (Qfloor x ≤ b) as Hfb.
  { rewrite <- (Qfloor_Z b). by apply Qfloor_resp_le. }
  destruct (Z.eq_dec (Qfloor x) b) as [Heq|Hne].
  - assert (Qcompare (x - inject_Z (Qfloor x)) (1 # 2) = Lt) as ->.
    { apply (proj1 (Qlt_alt _ _)). rewrite Heq. revert Hb.
      generalize (inject_Z b). intros q Hq. lra. }
    lia.
  - destruct (Qcompare _ _); [destruct (Z.even _)|..]; lia.
Qed.

Lemma py_round2_percentage (x : Q) :
  (0 <= x)%Q → (x <= 100)%Q → (0 <= py_round2 x)%Q ∧ (py_round2 x <= 100)%Q.
Proof.
  intros H0 H100. unfold py_round2.
  destruct (round_half_even_bounds (x * 100) 0 10000) as [Hlo Hhi].
  { change (inject_Z 0) with 0%Q. lra. }
  { change (inject_Z 10000) with 10000%Q. lra. }
  unfold Qle; simpl. lia.
Qed.

Lemma hit_ratio_percentage (h m : Z) :
  0 ≤ h → 0 ≤ m → 0 < h + m →
  (0 <= inject_Z h / inject_Z (h + m) * 100)%Q ∧
  (inject_Z h / inject_Z (h + m) * 100 <= 100)%Q.
Proof.
  intros Hh Hm Ht.
  assert (0 < inject_Z (h + m))%Q as Hpos.
  { change 0%Q with (inject_Z 0). by rewrite <- Zlt_Qlt. }
  assert (0 <= inject_Z h / inject_Z (h + m))%Q as Hlo.
  { apply Qle_shift_div_l; [done|]. rewrite Qmult_0_l.
    change 0%Q with (inject_Z 0). by rewrite <- Zle_Qle. }
  assert (inject_Z h / inject_Z (h + m) <= 1)%Q as Hhi.
  { apply Qle_shift_div_r; [done|]. rewrite Qmult_1_l. rewrite <- Zle_Qle. lia. }
  revert Hlo Hhi. generalize (inject_Z h / inject_Z (h + m))%Q. intros q Hlo Hhi.
  split; lra.
Qed.

(** X29. The [hit_rate] that [get_stats] reports is a percentage: after
    any run of calls on a new store it lies between 0 and 100. *)
Theorem hit_rate_is_a_percentage default_ttl0 max_size0 trace :
  let s : Cache := run md5_hexdigest trace (init default_ttl0 max_size0) in
  (0 <= hit_rate (get_stats s))%Q ∧ (hit_rate (get_stats s) <= 100)%Q.
Proof.
  pose proof (run_counters trace (init default_ttl0 max_size0)) as H.
  simpl in H. destruct H as (_ & Hh & Hm & _).
  simpl. unfold get_stats. simpl hit_rate.
  apply py_round2_percentage;
    destruct (Z.ltb_spec 0 (hits (stats (run md5_hexdigest trace
                 (init default_ttl0 max_size0))) +
               misses (stats (run md5_hexdigest trace
                 (init default_ttl0 max_size0))))) as [Hpos|Hzero];
    try done; by apply hit_ratio_percentage.
Qed.

(** *** Capacity on every run *)

(** X28. A store built with [max_size >= 1] on which no [set] fails
    never holds more than [max_size] entries, whatever calls are made on
    it and in whatever order: [set] makes room before it inserts, and no
    other call adds an entry. *)
Theorem reachable_cache_within_max_size default_ttl0 max_size0 trace :
  1 ≤ max_size0 →
  Forall (λ tc, set_fails default_ttl0 tc.2 = false) trace →
  let s : Cache := run md5_hexdigest trace (init default_ttl0 max_size0) in
  cache_size (get_stats s) ≤ max_size0.
Proof.
  intros Hpos Hok. simpl.
  apply (run_within_max_size md5_hexdigest trace (init default_ttl0 max_size0));
    [done|apply wf_init|done|simpl; lia].
Qed.

(** *** Least recently used *)

(** X11. Reading an entry shields it from the next eviction: if [get]
    returns a value at a time later than the access time of some other
    entry, the [set] that follows, whatever it stores and even if the
    store is full, does not evict the entry that was read. *)
Theorem read_entry_survives_next_set s now key v k' t' t key2 value2 ttl2 :
  wf s →
  (get md5_hexdigest now key s).1 = Some v →
  k' ≠ normalize key →
  dict_get k' (access_times s) = Some t' →
  t' < now →
  let s1 := (get md5_hexdigest now key s).2 in
  dict_mem (normalize key) (cache_data (set md5_hexdigest t key2 value2 ttl2 s1).2)
  = true.
Proof.
  intros Hwf Hhit Hk' Ht' Hlt. simpl.
  pose proof (wf_get md5_hexdigest now key s Hwf) as Hwf1.
  destruct (get_hit_access_time md5_hexdigest now key s v Hhit) as [Hnow _].
  assert (dict_mem (normalize key) (cache_data (get md5_hexdigest now key s).2) = true)
    as Hmem.
  { revert Hhit. unfold get.
    destruct (dict_mem (normalize key) (cache_data s)) eqn:Hm; simpl; [|done].
    destruct (_is_expired _ _ _); simpl; [done|]. by rewrite Hm. }
  assert (dict_get k' (access_times (get md5_hexdigest now key s).2) = Some t')
    as Hk1.
  { by rewrite get_other_access_time. }
  destruct (dict_mem (normalize key)
    (cache_data (set md5_hexdigest t key2 value2 ttl2
                   (get md5_hexdigest now key s).2).2)) eqn:Hgone; [done|].
  destruct (set_evicts_only_lru md5_hexdigest t key2 value2 ttl2 _ _ Hwf1 Hmem Hgone)
    as (_ & t0 & Ht0 & Hmin).
  assert (t0 = now) as -> by congruence.
  specialize (Hmin k' t' Hk1). lia.
Qed.

(** *** Inspecting an entry *)


(** *** Clearing *)

(** X13. [clear] empties the store and keeps the statistics; the first
    [set] after it never evicts, whatever [max_size] is, and leaves the
    store with that one value. If the [set] returns [True] the value has
    its metadata and its access time and the call is counted; if it
    returns [False] the value is there without them and no counter has
    moved. *)
Theorem set_after_clear_holds_one_entry s now key value ttl :
  let r := set md5_hexdigest now key value ttl (clear s) in
  cache_data r.2 = [(normalize key, value)] ∧
  (if r.1
   then dict_keys (cache_metadata r.2) = [normalize key] ∧
        access_times r.2 = [(normalize key, now)] ∧
        stats r.2 = bump_sets (stats s)
   else cache_metadata r.2 = [] ∧ access_times r.2 = [] ∧ stats r.2 = stats s).
Proof.
  simpl. unfold set, clear; simpl.
  destruct (float_of_int_fits _); simpl;
    by destruct (max_size s <=? Z.of_nat 0).
Qed.

(** *** A [set] that fails *)

(** X30. [set] returns [True] exactly when its TTL, given or default,
    converts to a float. When it returns [False] it has made room and
    written the value all the same, and the metadata, the access times
    and the counters are as the eviction left them; if the key had no
    metadata, the value is one that the next [get] of the key removes,
    answering [None]. *)
Theorem failed_set_writes_value_only s now key value ttl :
  let r := set md5_hexdigest now key value ttl s in
  let s0 :=
    if max_size s <=? Z.of_nat (length (cache_data s)) then _evict_lru s
    else s in
  r.1 = float_of_int_fits (default (default_ttl s) ttl) ∧
  cache_data r.2 = dict_set (normalize key) value (cache_data s0) ∧
  (r.1 = false →
   cache_metadata r.2 = cache_metadata s0 ∧
   access_times r.2 = access_times s0 ∧
   stats r.2 = stats s0 ∧
   (dict_get (normalize key) (cache_metadata s) = None →
    ∀ now',
      (get md5_hexdigest now' key r.2).1 = None ∧
      dict_get (normalize key) (cache_data (get md5_hexdigest now' key r.2).2)
      = None)).
Proof.
  intros r s0. subst r. split_and!.
  - apply set_returns.
  - apply set_cache_data.
  - intros Hr. rewrite set_failed by done. fold s0. simpl.
    split_and!; [done..|]. intros Hno now'.
    assert (dict_get (normalize key) (cache_metadata s0) = None) as Hno0.
    { destruct (dict_get (normalize key) (cache_metadata s0)) as [m|] eqn:Hm;
        [|done].
      assert (dict_get (normalize key) (cache_metadata s) = Some m) as Hm'.
      { subst s0. destruct (_ <=? _); [by apply metadata__evict_lru|done]. }
      congruence. }
    unfold get, dict_mem, _is_expired. simpl.
    rewrite dict_get_set, decide_True by done. simpl. rewrite Hno0. simpl.
    split; [done|]. by rewrite dict_get_pop, decide_True.
Qed.

End properties.

(** A TTL of [-2^1024] on a key that is stored: the [set] fails, the new
    value is there, and it lives on the expiry time of the old one. *)
Lemma failed_set_keeps_old_expiry :
  let s1 : CacheManager Z := (set id 0 "k" 1 (Some 3600) (init 3600 10)).2 in
  let r2 := set id 1 "k" 2 (Some (- 2 ^ 1024)) s1 in
  r2.1 = false ∧
  (get id 2 "k" r2.2).1 = Some 2 ∧
  get_cache_info id 2 "k" r2.2 = Some (3600, 3598, 1, false) ∧
  sets (stats r2.2) = 1.
Proof. vm_compute. split_and!; reflexivity. Qed.

Lemma set_then_get_witness :
  let s : CacheManager Z := init 3600 0 in
  60 ≤ 0 + default (default_ttl s) (Some 60) ∧
  (get id 60 "k" (set id 0 "k" 7 (Some 60) s).2).1 = Some 7.
Proof.
  split; [simpl; lia|].
  rewrite (set_then_get_returns_value id (init 3600 0) 0 "k" 7 (Some 60) 60);
    [reflexivity|reflexivity|simpl; lia].
Defined.

Lemma reachable_cache_within_max_size_witness :
  let trace : list (Z * call (V := Z)) :=
    [(0, CallSet "a" 1 None); (1, CallSet "b" 2 None); (2, CallGet "a");
     (3, CallSet "c" 3 None); (4, CallDelete "zz"); (5, CallSet "d" 4 None)] in
  cache_size (get_stats (run id trace (init 3600 2))) ≤ 2.
Proof.
  intros trace.
  apply (reachable_cache_within_max_size id 3600 2 trace); [lia|].
  repeat constructor.
Defined.

Lemma delete_witness :
  let s : CacheManager Z := (set id 0 "k" 7 None (init 3600 2)).2 in
  (delete id "k" s).1 = true ∧
  dict_get "k" (cache_data (delete id "k" s).2) = None ∧
  delete id "k" (delete id "k" s).2 = (false, (delete id "k" s).2).
Proof.
  intros s.
  destruct (delete_removes_entry_once id "k" s) as (H1 & H2 & _ & _ & _ & _ & H7).
  - subst s. apply wf_set; [reflexivity|apply wf_init].
  - split_and!; [rewrite H1; reflexivity|exact H2|exact H7].
Defined.


Lemma invalidate_pattern_witness :
  let s : CacheManager Z :=
    (set id 2 "user:2" 2 None
       (set id 1 "item:1" 1 None (set id 0 "user:1" 0 None (init 3600 5)).2).2).2 in
  cache_data (invalidate_pattern "user:" s).2 = [("item:1", 1)] ∧
  (invalidate_pattern "user:" s).1 = 2.
Proof.
  intros s.
  destruct (invalidate_pattern_removes_matching "user:" s) as (Hd & _ & _ & Hn & _).
  - subst s. repeat (apply (wf_set id); [reflexivity|]). apply wf_init.
  - split; [exact Hd|exact Hn].
Defined.

(** A key of 251 characters and a constant digest. *)
Lemma invalidate_pattern_long_key_witness :
  let key := string_of_list_ascii (replicate 251 (Ascii.ascii_of_nat 97)) in
  let md5 := λ _ : string, "d41d8cd98f00b204e9800998ecf8427e" in
  let s1 : CacheManager Z := (set md5 0 key 7 None (init 3600 5)).2 in
  str_contains "aaa" key = true ∧
  (get md5 1 key (invalidate_pattern "aaa" s1).2).1 = Some 7.
Proof.
  intros key md5 s1. split; [vm_compute; reflexivity|].
  apply (invalidate_pattern_looks_at_digest_of_long_key md5 (init 3600 5)
           0 key 7 None "aaa" 1).
  - apply Nat.ltb_lt. vm_compute. reflexivity.
  - reflexivity.
  - vm_compute. reflexivity.
  - vm_compute. discriminate.
Defined.

Lemma long_key_digest_witness :
  let key := string_of_list_ascii (replicate 251 (Ascii.ascii_of_nat 97)) in
  let md5 := λ _ : string, "d41d8cd98f00b204e9800998ecf8427e" in
  (get md5 1 "d41d8cd98f00b204e9800998ecf8427e"
     (set md5 0 key 7 None (init 3600 5 : CacheManager Z)).2).1 = Some 7.
Proof.
  intros key md5.
  apply (long_key_shares_entry_with_its_digest md5 (init 3600 5) 0 key 7 None 1).
  - apply Nat.ltb_lt. vm_compute. reflexivity.
  - apply Nat.leb_le. vm_compute. reflexivity.
  - reflexivity.
  - vm_compute. discriminate.
Defined.

(** [len] counts characters, not bytes: a key of 84 Hangul syllables, 252
    bytes in UTF-8, is stored as it is. *)
Lemma hangul_key_is_not_hashed :
  let ga := [Ascii.ascii_of_nat 234; Ascii.ascii_of_nat 176; Ascii.ascii_of_nat 128] in
  let key := string_of_list_ascii (concat (replicate 84 ga)) in
  String.length key = 252%nat ∧ py_len key = 84%nat ∧
  _normalize_key (λ _, "d41d8cd98f00b204e9800998ecf8427e") key = key.
Proof. vm_compute. split_and!; reflexivity. Qed.

Lemma get_leaves_other_keys_witness :
  let s : CacheManager Z :=
    (set id 0 "b" 2 (Some 100) (set id 0 "a" 1 (Some 10) (init 3600 5)).2).2 in
  dict_get "b" (cache_data (get id 50 "a" s).2) = Some 2 ∧
  dict_get "a" (cache_data (get id 50 "a" s).2) = None.
Proof.
  intros s. split; [|reflexivity].
  destruct (get_leaves_other_keys_alone id 50 "a" s "b") as (-> & _).
  - discriminate.
  - reflexivity.
Defined.

Lemma read_entry_survives_witness :
  let s : CacheManager Z :=
    (set id 2 "b" 2 None (set id 1 "a" 1 None (init 3600 2)).2).2 in
  dict_mem "a" (cache_data (set id 4 "c" 3 None (get id 3 "a" s).2).2) = true ∧
  dict_mem "b" (cache_data (set id 4 "c" 3 None (get id 3 "a" s).2).2) = false.
Proof.
  intros s. split; [|reflexivity].
  apply (read_entry_survives_next_set id s 3 "a" 1 "b" 2 4 "c" 3 None).
  - subst s. apply wf_set; [reflexivity|]. apply wf_set; [reflexivity|].
    apply wf_init.
  - reflexivity.
  - discriminate.
  - reflexivity.
  - reflexivity.
Defined.


End CacheProperties.

(** ** Properties of the typed entries *)

Module RestaurantProperties.
Import Cache CacheTheory CacheProperties Restaurant.

(** *** Characters of keys and patterns *)

Lemma append_empty_l (s : string) : "" +:+ s = s.
Proof. done. Qed.

Lemma all_chars_impl (q q' : Ascii.ascii → bool) s :
  (∀ c, q c = true → q' c = true) →
  all_chars q s = true → all_chars q' s = true.
Proof.
  intros Himp. induction s as [|c s IH]; simpl; [done|].
  intros [Hc Hs]%andb_true_iff. apply andb_true_iff. auto.
Qed.

Lemma prefix_all_chars q (p s : string) :
  String.prefix p s = true → all_chars q s = true → all_chars q p = true.
Proof.
  revert s. induction p as [|a p IH]; intros [|b s]; simpl; try done.
  destruct (Ascii.ascii_dec a b) as [->|]; [|done].
  intros Hp [Hb Hs]%andb_true_iff. apply andb_true_iff. eauto.
Qed.

Lemma str_contains_all_chars q (pattern s : string) :
  str_contains pattern s = true →
  all_chars q s = true → all_chars q pattern = true.
Proof.
  induction s as [|a s IH].
  - change (str_contains pattern "") with (String.prefix pattern "" || false).
    rewrite orb_false_r. apply prefix_all_chars.
  - change (str_contains pattern (String a s))
      with (String.prefix pattern (String a s) || str_contains pattern s).
    intros [Hp|Hs]%orb_true_iff Hall.
    + by eapply prefix_all_chars.
    + simpl in Hall. apply andb_true_iff in Hall as [_ Hall]. by apply IH.
Qed.

Lemma pretty_N_char_digit x : is_digit_or_dash (pretty_N_char x) = true.
Proof. unfold pretty_N_char. by repeat case_match. Qed.

Lemma pretty_N_go_all_chars x s :
  all_chars is_digit_or_dash s = true →
  all_chars is_digit_or_dash (pretty_N_go x s) = true.
Proof.
  revert s. induction (N.lt_wf_0 x) as [x _ IH]; intros s Hs.
  assert (x = 0 ∨ 0 < x)%N as [->|Hpos] by lia.
  - by rewrite pretty_N_go_0.
  - rewrite pretty_N_go_step by done. apply IH.
    + by apply N.div_lt.
    + simpl. by rewrite pretty_N_char_digit.
Qed.

Lemma pretty_N_all_chars (x : N) : all_chars is_digit_or_dash (pretty x) = true.
Proof.
  unfold pretty, pretty_N. case_decide; [done|]. by apply pretty_N_go_all_chars.
Qed.

Lemma pretty_Z_all_chars (x : Z) : all_chars is_digit_or_dash (pretty x) = true.
Proof.
  unfold pretty, pretty_Z. destruct x as [|p|p]; [done| |].
  - apply pretty_N_all_chars.
  - simpl. apply pretty_N_all_chars.
Qed.

Lemma digit_is_not c x :
  is_digit_or_dash x = false → is_digit_or_dash c = true → is_not x c = true.
Proof.
  intros Hx Hc. unfold is_not. destruct (Ascii.eqb_spec c x) as [->|]; [|done].
  congruence.
Qed.

Lemma hex_is_not c x :
  is_hex_digit x = false → is_hex_digit c = true → is_not x c = true.
Proof.
  intros Hx Hc. unfold is_not. destruct (Ascii.eqb_spec c x) as [->|]; [|done].
  congruence.
Qed.

(** Two strings that continue with a colon after a part without colons
    have the same part and the same continuation. *)
Lemma split_at_colon (a b q q' : string) :
  all_chars (is_not ":"%char) a = true → all_chars (is_not ":"%char) b = true →
  a +:+ ":" +:+ q = b +:+ ":" +:+ q' → a = b ∧ q = q'.
Proof.
  revert b. induction a as [|c a IH]; intros [|c' b]; simpl.
  - intros _ _ [= Hq]. by subst.
  - intros _ [Hc _]%andb_true_iff [= Hc' _]. subst c'. by vm_compute in Hc.
  - intros [Hc _]%andb_true_iff _ [= Hc' _]. subst c. by vm_compute in Hc.
  - intros [_ Ha]%andb_true_iff [_ Hb]%andb_true_iff [= Hc Hrest]. subst c'.
    destruct (IH b Ha Hb Hrest) as [Hab Hq]. by subst.
Qed.

Section properties.
Context {V P : Type}.
Variable md5_hexdigest : string → string.
Variable json_dumps_sorted : P → string.
Local Abbreviation normalize := (_normalize_key md5_hexdigest).
Implicit Types (rc : RestaurantCache (V := V)) (c : CacheManager V).

(** X14. The three kinds of entries have keys of their own: a restaurant
    key determines the restaurant, a recommendation key determines the user
    and the query hash, and no restaurant key, search key and
    recommendation key are equal (keys of at most 250 characters are stored
    as they are). *)
Theorem typed_keys_do_not_collide :
  (∀ i j, restaurant_key i = restaurant_key j → i = j) ∧
  (∀ u q u' q',
     recommendation_key u q = recommendation_key u' q' → u = u' ∧ q = q') ∧
  (∀ i sp u q,
     restaurant_key i ≠ search_key md5_hexdigest json_dumps_sorted sp ∧
     restaurant_key i ≠ recommendation_key u q ∧
     search_key md5_hexdigest json_dumps_sorted sp ≠ recommendation_key u q).
Proof.
  split_and!.
  - unfold restaurant_key. simpl. intros i j [= Heq]. by apply (inj pretty).
  - unfold recommendation_key. simpl. intros u q u' q' [= Heq].
    apply split_at_colon in Heq as [Hu ->].
    + split; [by apply (inj pretty)|done].
    + eapply all_chars_impl; [|apply pretty_Z_all_chars].
      intros c. by apply digit_is_not.
    + eapply all_chars_impl; [|apply pretty_Z_all_chars].
      intros c. by apply digit_is_not.
  - intros i sp u q. unfold restaurant_key, search_key, recommendation_key.
    simpl. split_and!; discriminate.
Qed.

(** *** Time to live of the typed entries *)

Lemma get_after_set_expired (c : CacheManager V) t key value ttl now :
  (set md5_hexdigest t key value (Some ttl) c).1 = true →
  t + ttl < now →
  (get md5_hexdigest now key (set md5_hexdigest t key value (Some ttl) c).2).1 = None.
Proof.
  intros Hok Hlate. apply get_miss. right. intros m.
  destruct (set_stores_entry md5_hexdigest c t key value (Some ttl) Hok) as [_ ->].
  intros [= <-]. simpl. done.
Qed.

(** X15. A restaurant entry lives for the hour that [RestaurantCache]
    fixes, whatever default the underlying store was built with: up to
    3600 ticks after [cache_restaurant], [get_restaurant] returns the data;
    later it returns nothing. *)
Theorem restaurant_entries_live_one_hour c t restaurant_id restaurant_data now :
  let rc1 :=
    (cache_restaurant md5_hexdigest t restaurant_id restaurant_data
       (Restaurant.init c)).2 in
  (now ≤ t + 3600 →
     (get_restaurant md5_hexdigest now restaurant_id rc1).1 = Some restaurant_data) ∧
  (t + 3600 < now →
     (get_restaurant md5_hexdigest now restaurant_id rc1).1 = None).
Proof.
  intros rc1. subst rc1.
  unfold get_restaurant, cache_restaurant, with_cache, Restaurant.init.
  cbn [fst snd cache restaurant_ttl].
  assert (∀ key, (set md5_hexdigest t key restaurant_data (Some 3600) c).1 = true)
    as Hok by (intros key; by rewrite set_returns).
  split; intros Hnow.
  - by apply get_after_set.
  - by apply get_after_set_expired.
Qed.

(** *** Invalidating a restaurant *)

Lemma delete_other_key key (c : CacheManager V) k :
  k ≠ normalize key →
  dict_get k (cache_data (delete md5_hexdigest key c).2) = dict_get k (cache_data c) ∧
  dict_get k (cache_metadata (delete md5_hexdigest key c).2) =
    dict_get k (cache_metadata c).
Proof.
  intros Hk. unfold delete. destruct (dict_mem _ _); simpl; [|done].
  by rewrite !dict_get_pop, !decide_False by done.
Qed.

Lemma delete_this_key key (c : CacheManager V) :
  dict_get (normalize key) (cache_data (delete md5_hexdigest key c).2) = None.
Proof.
  unfold delete. destruct (dict_mem _ _) eqn:Hmem; simpl.
  - by rewrite dict_get_pop, decide_True.
  - unfold dict_mem in Hmem. by destruct (dict_get _ _).
Qed.

Lemma invalidate_pattern_absent pattern (c : CacheManager V) k :
  dict_get k (cache_data c) = None →
  dict_get k (cache_data (invalidate_pattern pattern c).2) = None.
Proof.
  intros Hk. unfold invalidate_pattern; simpl.
  destruct (delete_keys_spec
    (filter (λ key, str_contains pattern key = true) (dict_keys (cache_data c))) c)
    as (-> & _).
  rewrite dict_get_without. by case_decide.
Qed.

(** X16. After [invalidate_restaurant] the restaurant has no entry:
    [get_restaurant] returns nothing, from any store and at any time. *)
Theorem invalidate_restaurant_removes_entry rc restaurant_id now :
  (get_restaurant md5_hexdigest now restaurant_id
     (invalidate_restaurant md5_hexdigest restaurant_id rc)).1 = None.
Proof.
  unfold get_restaurant, invalidate_restaurant; simpl.
  apply get_miss. left. apply invalidate_pattern_absent, delete_this_key.
Qed.

Lemma restaurant_pattern_has_underscore restaurant_id :
  all_chars (is_not "_"%char) (restaurant_pattern restaurant_id) = false.
Proof. done. Qed.

Lemma restaurant_pattern_not_in restaurant_id (k : string) :
  all_chars (is_not "_"%char) k = true →
  str_contains (restaurant_pattern restaurant_id) k = false.
Proof.
  intros Hk.
  destruct (str_contains (restaurant_pattern restaurant_id) k) eqn:Hc; [|done].
  apply (str_contains_all_chars (is_not "_"%char)) in Hc; [|done].
  by rewrite restaurant_pattern_has_underscore in Hc.
Qed.

Lemma md5_hexdigest_no_underscore d :
  is_md5_hexdigest d → all_chars (is_not "_"%char) d = true.
Proof.
  intros [_ Hhex]. eapply all_chars_impl; [|exact Hhex].
  intros c. by apply hex_is_not.
Qed.

(** An entry written by [set] is still returned after the calls of
    [invalidate_restaurant], when these concern other stored keys. *)
Lemma get_after_invalidate_restaurant (c : CacheManager V) t key value ttl
    restaurant_id now :
  (set md5_hexdigest t key value (Some ttl) c).1 = true →
  normalize key ≠ normalize (restaurant_key restaurant_id) →
  all_chars (is_not "_"%char) (normalize key) = true →
  now ≤ t + ttl →
  let c1 := (set md5_hexdigest t key value (Some ttl) c).2 in
  let c2 := (delete md5_hexdigest (restaurant_key restaurant_id) c1).2 in
  let c3 := (invalidate_pattern (restaurant_pattern restaurant_id) c2).2 in
  (get md5_hexdigest now key c3).1 = Some value.
Proof.
  intros Hok Hne Hchars Hnow c1 c2 c3. subst c3 c2.
  destruct (invalidate_pattern_keeps_key (restaurant_pattern restaurant_id)
              (delete md5_hexdigest (restaurant_key restaurant_id) c1).2
              (normalize key)) as [Hd Hm].
  { by apply restaurant_pattern_not_in. }
  destruct (delete_other_key (restaurant_key restaurant_id) c1 (normalize key) Hne)
    as [Hd' Hm'].
  destruct (set_stores_entry md5_hexdigest c t key value (Some ttl) Hok)
    as [Hd1 Hm1].
  rewrite get_hit with (v := value) (m := mkMetadata t ttl (t + ttl) 1);
    [done| | |done].
  - by rewrite Hd, Hd'.
  - by rewrite Hm, Hm'.
Qed.

(** X17. [invalidate_restaurant] never removes a cached search result:
    search results are stored under [search:] followed by an MD5 digest,
    32 hexadecimal digits, in which the pattern [restaurant_id:<id>] cannot
    occur. A search cached before the call ([cache_search_results]
    returned [True]) is returned after it. *)
Theorem invalidate_restaurant_keeps_search_results
    rc t search_params results restaurant_id now :
  (∀ x, is_md5_hexdigest (md5_hexdigest x)) →
  (cache_search_results md5_hexdigest json_dumps_sorted t search_params
     results rc).1 = true →
  now ≤ t + search_ttl rc →
  let rc1 :=
    (cache_search_results md5_hexdigest json_dumps_sorted t search_params
       results rc).2 in
  let rc2 := invalidate_restaurant md5_hexdigest restaurant_id rc1 in
  (get_search_results md5_hexdigest json_dumps_sorted now search_params rc2).1
  = Some results.
Proof.
  intros Hmd5 Hok Hnow rc1 rc2. subst rc1 rc2.
  unfold cache_search_results in Hok. cbn [fst] in Hok.
  unfold get_search_results, invalidate_restaurant, cache_search_results, with_cache.
  cbn [fst snd cache search_ttl].
  set (key := search_key md5_hexdigest json_dumps_sorted search_params) in *.
  destruct (Hmd5 (json_dumps_sorted search_params)) as [Hlen Hhex].
  assert (normalize key = key) as Hnk.
  { unfold _normalize_key.
    assert (py_len key ≤ 250)%nat as Hle.
    { etrans; [apply py_len_le|].
      unfold key, search_key, _generate_search_key.
      simpl. rewrite append_empty_l, Hlen. lia. }
    by rewrite (proj2 (Nat.ltb_ge _ _) Hle). }
  apply get_after_invalidate_restaurant; [done| | |done].
  - rewrite Hnk. unfold _normalize_key.
    destruct (Nat.ltb 250 _).
    + intros Heq. destruct (Hmd5 (restaurant_key restaurant_id)) as [Hlen' _].
      rewrite <- Heq in Hlen'. unfold key, search_key, _generate_search_key in Hlen'.
      simpl in Hlen'. rewrite append_empty_l, Hlen in Hlen'. discriminate.
    + unfold key, search_key, restaurant_key. simpl. discriminate.
  - rewrite Hnk. unfold key, search_key, _generate_search_key. simpl.
    rewrite append_empty_l. by apply md5_hexdigest_no_underscore.
Qed.

(** X18. [invalidate_restaurant] concerns one restaurant: the entry of
    another restaurant, cached before the call ([cache_restaurant]
    returned [True]), is returned after it (for identifiers whose keys
    are stored as they are, at most 250 characters long). *)
Theorem invalidate_restaurant_keeps_other_restaurants
    rc t other data restaurant_id now :
  other ≠ restaurant_id →
  (String.length (restaurant_key other) ≤ 250)%nat →
  (String.length (restaurant_key restaurant_id) ≤ 250)%nat →
  (cache_restaurant md5_hexdigest t other data rc).1 = true →
  now ≤ t + restaurant_ttl rc →
  let rc1 := (cache_restaurant md5_hexdigest t other data rc).2 in
  let rc2 := invalidate_restaurant md5_hexdigest restaurant_id rc1 in
  (get_restaurant md5_hexdigest now other rc2).1 = Some data.
Proof.
  intros Hother Hlo Hli Hok Hnow rc1 rc2. subst rc1 rc2.
  unfold cache_restaurant in Hok. cbn [fst] in Hok.
  unfold get_restaurant, invalidate_restaurant, cache_restaurant, with_cache.
  cbn [fst snd cache restaurant_ttl].
  assert (∀ i, (String.length (restaurant_key i) ≤ 250)%nat →
               normalize (restaurant_key i) = restaurant_key i) as Hshort.
  { intros i Hi. unfold _normalize_key.
    assert (py_len (restaurant_key i) ≤ 250)%nat as Hle
      by (etrans; [apply py_len_le|done]).
    by rewrite (proj2 (Nat.ltb_ge _ _) Hle). }
  apply get_after_invalidate_restaurant; [done| | |done].
  - rewrite !Hshort by done. unfold restaurant_key. simpl. intros [= Heq].
    apply Hother. by apply (inj pretty).
  - rewrite Hshort by done. unfold restaurant_key. simpl.
    rewrite append_empty_l. eapply all_chars_impl; [|apply pretty_Z_all_chars].
    intros c. by apply digit_is_not.
Qed.

End properties.

Lemma invalidate_restaurant_search_witness :
  let md5 := λ _ : string, "d41d8cd98f00b204e9800998ecf8427e" in
  let rc : RestaurantCache (V := Z) := Restaurant.init (Cache.init 3600 10) in
  let rc1 := (cache_search_results md5 id 0 "cuisine=korean" 5 rc).2 in
  (get_search_results md5 id 1 "cuisine=korean"
     (invalidate_restaurant md5 7 rc1)).1 = Some 5.
Proof.
  intros md5 rc rc1.
  apply (invalidate_restaurant_keeps_search_results md5 id rc 0
           "cuisine=korean" 5 7 1).
  - intros x. split; reflexivity.
  - reflexivity.
  - vm_compute. discriminate.
Defined.

Lemma invalidate_restaurant_other_witness :
  let rc : RestaurantCache (V := Z) := Restaurant.init (Cache.init 3600 10) in
  let rc1 := (cache_restaurant id 0 3 5 rc).2 in
  (get_restaurant id 1 3 (invalidate_restaurant id 7 rc1)).1 = Some 5 ∧
  (get_restaurant id 1 7 (invalidate_restaurant id 7 rc1)).1 = None.
Proof.
  intros rc rc1. split; [|vm_compute; reflexivity].
  apply (invalidate_restaurant_keeps_other_restaurants id rc 0 3 5 7 1).
  - discriminate.
  - apply Nat.leb_le. vm_compute. reflexivity.
  - apply Nat.leb_le. vm_compute. reflexivity.
  - reflexivity.
  - vm_compute. discriminate.
Defined.

End RestaurantProperties.

(** ** Further properties of the session store *)

Module SessionProperties.
Import Session SessionTheory SessionOps.

Lemma list_remove_elem (x : string) xs : x ∈ xs → is_Some (list_remove x xs).
Proof.
  induction xs as [|y ys IH]; simpl.
  - by intros ?%elem_of_nil.
  - intros Hin. destruct (decide (x = y)); [by eexists|].
    apply elem_of_cons in Hin as [?|Hin]; [done|].
    destruct (IH Hin) as [ys' ->]. by eexists.
Qed.

Lemma dict_pop_absent {K V} `{EqDecision K} (k : K) (d : list (K * V)) :
  dict_get k d = None → dict_pop k d = d.
Proof.
  induction d as [|[k0 v0] d IH]; simpl; [done|].
  destruct (decide (k = k0)); [done|]. intros Hd. by rewrite IH.
Qed.

(** *** Deleting a session *)

Lemma _delete_session_effect sid w :
  (∀ l, dict_get sid (sessions (manager w)) = Some l →
        ∃ d, heap w !! l = Some (ODict d)) →
  ∃ b m',
    _delete_session sid w =
      Returns b (mkWorld m' (heap w) (held w) (lock_count w)) ∧
    sessions m' = dict_pop sid (sessions (manager w)) ∧
    session_metadata m' = dict_pop sid (session_metadata (manager w)) ∧
    session_timeout m' = session_timeout (manager w) ∧
    max_sessions m' = max_sessions (manager w) ∧
    total_sessions_created (stats m') = total_sessions_created (stats (manager w)) ∧
    expired_sessions_cleaned (stats m') =
      expired_sessions_cleaned (stats (manager w)) ∧
    (b = true →
       session_locks m' = dict_pop sid (session_locks (manager w)) ∧
       active_sessions (stats m') = Z.of_nat (length (sessions m'))) ∧
    (hashable (session_user sid w) = true → b = true).
Proof.
  intros Hheap.
  unfold session_user, stored_record.
  unfold _delete_session, user_sessions_remove, user_sessions_item,
    set_active_sessions.
  unfold_M.
  destruct (dict_get sid (sessions (manager w))) as [l|] eqn:Hl.
  - destruct (Hheap l eq_refl) as [d Hd]. simpl. rewrite Hd.
    repeat (case_match; simplify_eq/=); eauto 15.
    all: try (eexists _, _; split_and!; try reflexivity; try done).
    all: try match goal with
         | H : list_remove ?x ?xs = None, H' : bool_decide (?x ∈ ?xs) = true |- _ =>
             apply bool_decide_eq_true in H';
             destruct (list_remove_elem x xs H') as [? ?]; congruence
         end.
    all: intros Hh; repeat (case_match; simplify_eq/=); congruence.
  - simpl. repeat (case_match; simplify_eq/=); eauto 15.
Qed.

Lemma wf_after_pop sid w m' :
  wf w →
  sessions m' = dict_pop sid (sessions (manager w)) →
  session_metadata m' = dict_pop sid (session_metadata (manager w)) →
  wf (mkWorld m' (heap w) [] (lock_count w)).
Proof.
  intros (Hheld & Hnd & Hkeys & Hheap) Hs Hm. unfold wf; simpl. rewrite Hs, Hm.
  split_and!; [done|by apply dict_pop_NoDup|by rewrite !dict_keys_pop, Hkeys|].
  intros sid' l'. rewrite dict_get_pop. destruct (decide _); [done|]. apply Hheap.
Qed.

(** X19. [delete_session] removes the session's record, metadata and
    lock, leaves the other sessions as they are and sets [active_sessions]
    to the number of sessions left; afterwards [get_session] finds nothing.
    It returns true also when there is no such session (in which case the
    store's sessions are unchanged), so deleting twice returns true twice.
    The one condition is that the record's [user_id] is not a list or a
    dictionary. *)
Theorem delete_session_removes_session sid w :
  wf w →
  hashable (session_user sid w) = true →
  ∃ w', delete_session sid w = Returns true w' ∧
    wf w' ∧
    dict_get sid (sessions (manager w')) = None ∧
    dict_get sid (session_metadata (manager w')) = None ∧
    dict_get sid (session_locks (manager w')) = None ∧
    (∀ sid', sid' ≠ sid →
       dict_get sid' (sessions (manager w')) = dict_get sid' (sessions (manager w)) ∧
       dict_get sid' (session_metadata (manager w')) =
         dict_get sid' (session_metadata (manager w))) ∧
    active_sessions (stats (manager w')) =
      Z.of_nat (length (sessions (manager w'))) ∧
    heap w' = heap w ∧
    hashable (session_user sid w') = true ∧
    ∀ now, ∃ w'', get_session now sid w' = Returns None w''.
Proof.
  intros Hwf Hhash. pose proof Hwf as (Hheld & Hnd & Hkeys & Hheap).
  unfold delete_session, with_lock, acquire, release. rewrite Hheld. simpl.
  destruct (_delete_session_effect sid
              (mkWorld (manager w) (heap w) [global_lock] (lock_count w)))
    as (b & m' & Hdel & Hs & Hm & _ & _ & _ & _ & Hlocks & Hb).
  { simpl. eauto. }
  simpl in *. rewrite Hdel. simpl. rewrite filter_ne_singleton.
  assert (b = true) as ->.
  { apply Hb. revert Hhash. unfold session_user, stored_record. simpl. done. }
  destruct (Hlocks eq_refl) as [Hlk Hactive].
  assert (wf (mkWorld m' (heap w) [] (lock_count w))) as Hwf'.
  { by apply wf_after_pop with (sid := sid). }
  assert (dict_get sid (sessions m') = None) as Hgone.
  { by rewrite Hs, dict_get_pop, decide_True. }
  eexists. split; [reflexivity|]. simpl. split_and!; try done.
  - by rewrite Hm, dict_get_pop, decide_True.
  - by rewrite Hlk, dict_get_pop, decide_True.
  - intros sid' Hne. by rewrite Hs, Hm, !dict_get_pop, !decide_False.
  - unfold session_user, stored_record. simpl. by rewrite Hgone.
  - intros now.
    destruct (get_session_outcome now sid _ Hwf') as (r & w'' & Hget & _ & _ & _ & Hcase).
    simpl in Hcase. rewrite Hgone in Hcase. destruct Hcase as (-> & _).
    by exists w''.
Qed.

(** *** Sweeping expired sessions *)

Lemma delete_sessions_effect ids w :
  (∀ sid l, dict_get sid (sessions (manager w)) = Some l →
            ∃ d, heap w !! l = Some (ODict d)) →
  ∃ m',
    delete_sessions ids w =
      Returns tt (mkWorld m' (heap w) (held w) (lock_count w)) ∧
    sessions m' = foldl (λ acc k, dict_pop k acc) (sessions (manager w)) ids ∧
    session_metadata m' =
      foldl (λ acc k, dict_pop k acc) (session_metadata (manager w)) ids ∧
    session_timeout m' = session_timeout (manager w) ∧
    max_sessions m' = max_sessions (manager w) ∧
    total_sessions_created (stats m') = total_sessions_created (stats (manager w)) ∧
    expired_sessions_cleaned (stats m') =
      expired_sessions_cleaned (stats (manager w)).
Proof.
  revert w. induction ids as [|sid ids IH]; intros w Hheap.
  - exists (manager w). by destruct w.
  - destruct (_delete_session_effect sid w)
      as (b & m1 & Hdel & Hs & Hm & Ht & Hx & Hc & He & _); [eauto|].
    destruct (IH (mkWorld m1 (heap w) (held w) (lock_count w)))
      as (m' & Hrest & Hs' & Hm' & Ht' & Hx' & Hc' & He').
    { simpl. intros sid' l. rewrite Hs, dict_get_pop.
      destruct (decide _); [done|]. apply Hheap. }
    simpl in *. exists m'.
    change (delete_sessions (sid :: ids) w)
      with (mbind (λ _ : bool, delete_sessions ids) (_delete_session sid) w).
    unfold mbind, M_bind. rewrite Hdel, Hrest.
    split_and!; [done|congruence..].
Qed.

Lemma expired_sessions_elem now timeout (md : list (string * Metadata)) sid :
  NoDup (dict_keys md) →
  sid ∈ (filter (λ x : string * Metadata,
                   timeout < now - last_access_timestamp x.2) md).*1 ↔
  ∃ m, dict_get sid md = Some m ∧ timeout < now - last_access_timestamp m.
Proof.
  intros Hnd.
  by rewrite (elem_of_filter_keys
    (λ x : string * Metadata, timeout < now - last_access_timestamp x.2)).
Qed.

(** X20. [cleanup_expired_sessions] removes exactly the sessions that
    have not been accessed for more than [session_timeout] (the ones
    [get_session] would refuse at that moment), keeps the others with their
    metadata, returns the number removed and adds it to
    [expired_sessions_cleaned]. *)
Theorem cleanup_expired_sessions_removes_exactly_expired now w :
  wf w →
  ∃ n w', cleanup_expired_sessions now w = Returns n w' ∧
    wf w' ∧
    (∀ sid md, dict_get sid (session_metadata (manager w)) = Some md →
       (session_timeout (manager w) < now - last_access_timestamp md →
          dict_get sid (sessions (manager w')) = None ∧
          dict_get sid (session_metadata (manager w')) = None) ∧
       (now - last_access_timestamp md ≤ session_timeout (manager w) →
          dict_get sid (sessions (manager w')) =
            dict_get sid (sessions (manager w)) ∧
          dict_get sid (session_metadata (manager w')) = Some md)) ∧
    n = Z.of_nat (length (sessions (manager w)))
        - Z.of_nat (length (sessions (manager w'))) ∧
    expired_sessions_cleaned (stats (manager w')) =
      expired_sessions_cleaned (stats (manager w)) + n ∧
    heap w' = heap w.
Proof.
  intros Hwf. pose proof Hwf as (Hheld & Hnd & Hkeys & Hheap).
  unfold cleanup_expired_sessions, with_lock, acquire, release.
  rewrite Hheld. simpl. unfold_M. simpl.
  set (ids := (filter (λ x : string * Metadata,
                 session_timeout (manager w) < now - last_access_timestamp x.2)
                 (session_metadata (manager w))).*1).
  destruct (delete_sessions_effect ids
              (mkWorld (manager w) (heap w) [global_lock] (lock_count w)))
    as (m' & Hdel & Hs & Hm & Ht & Hx & Hc & He).
  { simpl. eauto. }
  simpl in *. rewrite Hdel. simpl. rewrite filter_ne_singleton.
  rewrite dict_pop_all_filter in Hs. rewrite dict_pop_all_filter in Hm.
  assert (∀ sid, sid ∈ ids ↔
            ∃ m, dict_get sid (session_metadata (manager w)) = Some m ∧
                 session_timeout (manager w) < now - last_access_timestamp m)
    as Hids.
  { intros sid. apply expired_sessions_elem. by rewrite Hkeys. }
  eexists _, _. split; [reflexivity|]. simpl. split_and!.
  - unfold wf; simpl. rewrite Hs, Hm. split_and!; [done| | |].
    + rewrite dict_keys_without. by apply NoDup_filter.
    + by rewrite !dict_keys_without, Hkeys.
    + intros sid l. rewrite dict_get_without. case_decide; [done|]. apply Hheap.
  - intros sid md Hmd. rewrite Hs, Hm, !dict_get_without. split.
    + intros Hexp. assert (sid ∈ ids) by (apply Hids; eauto).
      by rewrite !decide_True.
    + intros Hlive. assert (sid ∉ ids).
      { intros (m & Hm' & Hexp)%Hids. assert (m = md) as -> by congruence. lia. }
      by rewrite !decide_False.
  - rewrite Hs. rewrite length_without, <- Hkeys, <- length_without.
    rewrite <- (dict_keys_length (sessions (manager w))), <- Hkeys, dict_keys_length.
    subst ids. rewrite length_fmap.
    pose proof (filter_complement_length
      (λ x : string * Metadata,
         session_timeout (manager w) < now - last_access_timestamp x.2)
      (session_metadata (manager w))) as Hlen.
    assert (filter (λ kv : string * Metadata,
              kv.1 ∉ (filter (λ x : string * Metadata,
                        session_timeout (manager w) < now - last_access_timestamp x.2)
                        (session_metadata (manager w))).*1)
              (session_metadata (manager w)) =
            filter (λ x : string * Metadata,
              ¬ session_timeout (manager w) < now - last_access_timestamp x.2)
              (session_metadata (manager w))) as ->.
    { apply filter_ext_elem. intros [k m] Hin. simpl.
      assert (dict_get k (session_metadata (manager w)) = Some m) as Hget.
      { apply dict_elem_get; [by rewrite Hkeys|done]. }
      rewrite Hids. split.
      - intros Hno Hexp. apply Hno. eauto.
      - intros Hno (m0 & Hm0 & Hexp). congruence. }
    lia.
  - by rewrite He.
  - done.
Qed.

(** *** Updating a session *)

Lemma update_session_outcome now sid upd w :
  wf w →
  ∃ b w', update_session now sid upd w = Returns b w' ∧
    held w' = [] ∧
    session_timeout (manager w') = session_timeout (manager w) ∧
    max_sessions (manager w') = max_sessions (manager w) ∧
    match dict_get sid (sessions (manager w)),
          dict_get sid (session_metadata (manager w)) with
    | None, _ =>
        b = false ∧
        sessions (manager w') = sessions (manager w) ∧
        session_metadata (manager w') = session_metadata (manager w) ∧
        user_sessions (manager w') = user_sessions (manager w) ∧
        stats (manager w') = stats (manager w) ∧
        heap w' = heap w
    | Some l, Some md =>
        if session_timeout (manager w) <? now - last_access_timestamp md then
          b = false ∧
          sessions (manager w') = dict_pop sid (sessions (manager w)) ∧
          session_metadata (manager w') = dict_pop sid (session_metadata (manager w)) ∧
          heap w' = heap w
        else
          ∃ d, heap w !! l = Some (ODict d) ∧
               b = true ∧
               sessions (manager w') = sessions (manager w) ∧
               session_metadata (manager w') =
                 dict_set sid
                   (mkMetadata (created_timestamp md) now (access_count md + 1))
                   (session_metadata (manager w)) ∧
               user_sessions (manager w') = user_sessions (manager w) ∧
               stats (manager w') = stats (manager w) ∧
               heap w' =
                 <[l := ODict (dict_set "last_activity" (VIso now)
                                 (dict_update d upd))]> (heap w)
    | Some l, None => False
    end.
Proof.
  intros (Hheld & Hnd & Hkeys & Hheap).
  unfold update_session, session_lock, with_lock, acquire, _is_session_expired,
    _update_session_access, release, read_dict.
  unfold_M.
  destruct (dict_get sid (sessions (manager w))) as [l|] eqn:Hl.
  - destruct (Hheap sid l Hl) as [d Hd].
    pose proof (lookup_lt_Some _ _ _ Hd) as Hlt.
    destruct (dict_get sid (session_metadata (manager w))) as [md|] eqn:Hmd.
    + destruct (session_timeout (manager w) <? now - last_access_timestamp md) eqn:Hexp;
        destruct (dict_get sid (session_locks (manager w))) as [lk|] eqn:Hlk;
        repeat (simpl; rewrite ?Hheld, ?Hl, ?Hmd, ?Hexp, ?Hd,
                  ?list_lookup_insert_eq by done);
        try use_delete_session;
        simpl; rewrite ?filter_ne_singleton, ?list_insert_insert_eq;
        eexists _, _; (split; [reflexivity|]); simpl; eauto 12.
    + apply dict_get_None in Hmd. rewrite Hkeys in Hmd.
      exfalso. apply Hmd. apply dict_mem_keys. unfold dict_mem. by rewrite Hl.
  - destruct (dict_get sid (session_locks (manager w))) as [lk|] eqn:Hlk;
      repeat (simpl; rewrite ?Hheld, ?Hl);
      simpl; rewrite ?filter_ne_singleton;
      eexists _, _; (split; [reflexivity|]); simpl; eauto 10.
Qed.

Lemma stored_record_Some sid w l d :
  dict_get sid (sessions (manager w)) = Some l →
  heap w !! l = Some (ODict d) →
  stored_record sid w = Some d.
Proof. intros Hl Hd. unfold stored_record. rewrite Hl. simpl. by rewrite Hd. Qed.

(** X21. On a live session [update_session] returns true, merges the
    given fields into the stored record (they override the stored ones),
    then stamps [last_activity] with the time of the call, whatever the
    given fields say, and counts an access. The index of sessions by user
    is not touched, also when the update changes [user_id]. *)
Theorem update_session_merges_and_stamps now sid upd w l d md :
  wf w →
  dict_get sid (sessions (manager w)) = Some l →
  heap w !! l = Some (ODict d) →
  dict_get sid (session_metadata (manager w)) = Some md →
  now - last_access_timestamp md ≤ session_timeout (manager w) →
  ∃ w', update_session now sid upd w = Returns true w' ∧
    wf w' ∧
    stored_record sid w' =
      Some (dict_set "last_activity" (VIso now) (dict_update d upd)) ∧
    (stored_record sid w' ≫= dict_get "last_activity") = Some (VIso now) ∧
    dict_get sid (session_metadata (manager w')) =
      Some (mkMetadata (created_timestamp md) now (access_count md + 1)) ∧
    sessions (manager w') = sessions (manager w) ∧
    user_sessions (manager w') = user_sessions (manager w).
Proof.
  intros Hwf Hl Hd Hmd Hlive.
  destruct (update_session_outcome now sid upd w Hwf)
    as (b & w' & Hup & Hheld & _ & _ & Hcase).
  rewrite Hl, Hmd in Hcase.
  rewrite (proj2 (Z.ltb_ge _ _) Hlive) in Hcase.
  destruct Hcase as (d' & Hd' & -> & Hs & Hm & Hus & _ & Hh).
  assert (d' = d) as -> by congruence.
  pose proof (lookup_lt_Some _ _ _ Hd) as Hlt.
  assert (stored_record sid w' =
          Some (dict_set "last_activity" (VIso now) (dict_update d upd))) as Hrec.
  { apply stored_record_Some with (l := l); [by rewrite Hs|].
    rewrite Hh. by apply list_lookup_insert_eq. }
  exists w'. split_and!; try done.
  - destruct Hwf as (_ & Hnd & Hkeys & Hheap). unfold wf. rewrite Hs, Hm, Hh.
    split_and!; [done|done| |].
    + rewrite dict_keys_set. unfold dict_mem. by rewrite Hmd.
    + intros sid' l' Hl'. destruct (decide (l = l')) as [<-|Hne].
      * eexists. by apply list_lookup_insert_eq.
      * rewrite list_lookup_insert_ne by done. by eapply Hheap.
  - rewrite Hrec. simpl. by rewrite dict_get_set, decide_True.
  - by rewrite Hm, dict_get_set, decide_True.
Qed.

(** X22. [update_session] never creates a session: for an identifier
    that is not stored it returns false and leaves sessions, metadata,
    index, statistics and heap as they are; for a session that has expired
    it returns false and the session is deleted. *)
Theorem update_session_without_live_session now sid upd w :
  wf w →
  (dict_get sid (sessions (manager w)) = None ∨
   ∃ md, dict_get sid (session_metadata (manager w)) = Some md ∧
         session_timeout (manager w) < now - last_access_timestamp md) →
  ∃ w', update_session now sid upd w = Returns false w' ∧
    stored_record sid w' = None ∧
    dict_get sid (session_metadata (manager w')) = None ∧
    heap w' = heap w ∧
    (dict_get sid (sessions (manager w)) = None →
       sessions (manager w') = sessions (manager w) ∧
       session_metadata (manager w') = session_metadata (manager w) ∧
       user_sessions (manager w') = user_sessions (manager w) ∧
       stats (manager w') = stats (manager w)).
Proof.
  intros Hwf Hcases.
  destruct (update_session_outcome now sid upd w Hwf)
    as (b & w' & Hup & Hheld & _ & _ & Hcase).
  destruct Hwf as (_ & Hnd & Hkeys & Hheap).
  destruct (dict_get sid (sessions (manager w))) as [l|] eqn:Hl.
  - destruct Hcases as [|(md & Hmd & Hexp)]; [done|].
    rewrite Hmd in Hcase. rewrite (proj2 (Z.ltb_lt _ _) Hexp) in Hcase.
    destruct Hcase as (-> & Hs & Hm & Hh). exists w'.
    split_and!; try done.
    + unfold stored_record. by rewrite Hs, dict_get_pop, decide_True.
    + by rewrite Hm, dict_get_pop, decide_True.
  - destruct Hcase as (-> & Hs & Hm & Hus & Hst & Hh). exists w'.
    split_and!; try done.
    + unfold stored_record. by rewrite Hs, Hl.
    + rewrite Hm. eapply CacheTheory.dict_get_same_keys_None; [|exact Hl].
      by rewrite Hkeys.
Qed.

(** *** Reading the conversation history *)

Lemma last_messages_spec limit (items : list pyval) :
  (0 < limit →
     last_messages limit items = drop (length items - Z.to_nat limit) items) ∧
  (limit = 0 → last_messages limit items = items) ∧
  (limit < 0 → last_messages limit items = drop (Z.to_nat (- limit)) items).
Proof.
  unfold last_messages, py_slice_from. split_and!; intros Hlimit.
  - destruct (Z.ltb_spec limit (Z.of_nat (length items))).
    + rewrite (proj2 (Z.ltb_lt _ _)) by lia. f_equal. lia.
    + replace (length items - Z.to_nat limit)%nat with 0%nat by lia. done.
  - subst limit. destruct (0 <? Z.of_nat (length items)); [|done].
    simpl. by rewrite Z.min_l by lia.
  - rewrite (proj2 (Z.ltb_lt limit _)) by lia.
    rewrite (proj2 (Z.ltb_ge _ _)) by lia.
    destruct (Z.le_gt_cases (- limit) (Z.of_nat (length items))).
    + by rewrite Z.min_l by lia.
    + rewrite Z.min_r by lia. rewrite Nat2Z.id, drop_all.
      symmetry. apply drop_ge. lia.
Qed.

(** X23. For a live session whose history is a list,
    [get_conversation_history] returns the last [limit] messages, in
    order, when [limit] is positive (all of them if there are fewer). With
    [limit = 0] it returns the whole history, not an empty list, and with a
    negative [limit] it returns the history without its first [-limit]
    messages. *)
Theorem get_conversation_history_returns_last_messages
    now sid limit w l d md h items :
  wf w →
  dict_get sid (sessions (manager w)) = Some l →
  heap w !! l = Some (ODict d) →
  dict_get sid (session_metadata (manager w)) = Some md →
  now - last_access_timestamp md ≤ session_timeout (manager w) →
  dict_get "conversation_history" d = Some (VRef h) →
  heap w !! h = Some (OList items) →
  ∃ w', get_conversation_history now sid limit w =
          Returns (Messages (last_messages limit items)) w' ∧
    (0 < limit →
       last_messages limit items = drop (length items - Z.to_nat limit) items) ∧
    (limit = 0 → last_messages limit items = items) ∧
    (limit < 0 → last_messages limit items = drop (Z.to_nat (- limit)) items).
Proof.
  intros Hwf Hl Hd Hmd Hlive Hfield Hh.
  destruct (get_session_outcome now sid w Hwf)
    as (r & w' & Hget & _ & _ & _ & Hcase).
  rewrite Hl, Hmd in Hcase.
  rewrite (proj2 (Z.ltb_ge _ _) Hlive) in Hcase.
  destruct Hcase as (d' & Hd' & -> & _ & _ & Hheap').
  assert (d' = d) as -> by congruence.
  exists w'. split; [|apply last_messages_spec].
  assert (heap w' !! length (heap w) = Some (ODict d)) as Hcopy.
  { rewrite Hheap'. by rewrite lookup_app_r, Nat.sub_diag by lia. }
  assert (truthy (heap w') (VRef (length (heap w))) = true) as Htruthy.
  { unfold truthy. unfold loc in *. rewrite Hcopy. by destruct d. }
  assert (heap w' !! h = Some (OList items)) as Hh'.
  { rewrite Hheap'. by apply lookup_app_l_Some. }
  unfold get_conversation_history, try_except, read_dict. unfold_M.
  rewrite Hget. cbv beta iota. rewrite Htruthy. cbv beta iota delta [negb].
  unfold loc in *. rewrite Hcopy. cbv beta iota. rewrite Hfield.
  cbv beta iota. by rewrite Hh'.
Qed.

(** *** Locks of unknown sessions *)

Lemma dict_set_absent {K V} `{EqDecision K} (k : K) (v : V) d :
  dict_get k d = None → dict_set k v d = d ++ [(k, v)].
Proof.
  induction d as [|[k0 v0] d IH]; simpl; [done|].
  destruct (decide (k = k0)); [done|]. intros Hd. by rewrite IH.
Qed.

(** X24. Asking for a session that does not exist leaves a trace:
    [get_session] returns nothing and changes no session, but the
    [defaultdict] of locks gets an entry with a new lock for the
    identifier, which stays in the table. *)
Theorem get_session_of_unknown_id_leaves_a_lock now sid w :
  held w = [] →
  dict_get sid (sessions (manager w)) = None →
  dict_get sid (session_locks (manager w)) = None →
  ∃ w', get_session now sid w = Returns None w' ∧
    session_locks (manager w') =
      session_locks (manager w) ++ [(sid, lock_count w)] ∧
    lock_count w' = S (lock_count w) ∧
    sessions (manager w') = sessions (manager w) ∧
    session_metadata (manager w') = session_metadata (manager w) ∧
    user_sessions (manager w') = user_sessions (manager w) ∧
    stats (manager w') = stats (manager w) ∧
    heap w' = heap w ∧
    held w' = [].
Proof.
  intros Hheld Hl Hlk.
  unfold get_session, session_lock, with_lock, acquire, release. unfold_M.
  rewrite Hlk. simpl. rewrite Hheld. simpl. rewrite Hl. simpl.
  rewrite filter_ne_singleton.
  eexists. split; [reflexivity|]. simpl.
  by rewrite dict_set_absent.
Qed.

(** *** Updating the context *)

Lemma dict_set_same {K V} `{EqDecision K} (k : K) (v : V) d :
  dict_get k d = Some v → dict_set k v d = d.
Proof.
  induction d as [|[k0 v0] d IH]; simpl; [done|].
  destruct (decide (k = k0)) as [->|Hne]; [by intros [= ->]|].
  intros Hd. by rewrite IH.
Qed.

Lemma dict_update_same {K V} `{EqDecision K} (d other : list (K * V)) :
  (∀ k v, (k, v) ∈ other → dict_get k d = Some v) → dict_update d other = d.
Proof.
  unfold dict_update. induction other as [|[k v] other IH]; intros Hin; simpl; [done|].
  rewrite dict_set_same by (apply Hin, list_elem_of_here).
  apply IH. intros k' v' Hin'. by apply Hin, list_elem_of_further.
Qed.

Lemma dict_update_self {K V} `{EqDecision K} (d : list (K * V)) :
  NoDup (dict_keys d) → dict_update d d = d.
Proof. intros Hnd. apply dict_update_same. intros k v. by apply dict_elem_get. Qed.

Lemma wf_set_heap w (c : loc) dc dc' :
  wf w → heap w !! c = Some (ODict dc) →
  wf (mkWorld (manager w) (<[c := ODict dc']> (heap w)) (held w) (lock_count w)).
Proof.
  intros (Hheld & Hnd & Hkeys & Hheap) Hc. unfold wf; simpl.
  split_and!; [done..|].
  intros sid l Hl. destruct (decide (c = l)) as [<-|Hne].
  - exists dc'. apply list_lookup_insert_eq. by eapply lookup_lt_Some.
  - rewrite list_lookup_insert_ne by done. by eapply Hheap.
Qed.

(** X25. [update_session_context] writes into the context dictionary
    itself, the object the stored record and every record handed out by
    [get_session] refer to: after the call that object holds the new entry.
    The stored record keeps its fields, with [last_activity] stamped by the
    second clock reading, and the session has been accessed twice. *)
Theorem update_session_context_writes_shared_context
    now now' sid key value w l d md (c : loc) dc :
  wf w →
  dict_get sid (sessions (manager w)) = Some l →
  heap w !! l = Some (ODict d) →
  NoDup (dict_keys d) →
  dict_get sid (session_metadata (manager w)) = Some md →
  now - last_access_timestamp md ≤ session_timeout (manager w) →
  now' - now ≤ session_timeout (manager w) →
  dict_get "context" d = Some (VRef c) →
  heap w !! c = Some (ODict dc) →
  c ≠ l →
  ∃ w', update_session_context now now' sid key value w = Returns true w' ∧
    heap w' !! c = Some (ODict (dict_set key value dc)) ∧
    stored_record sid w' = Some (dict_set "last_activity" (VIso now') d) ∧
    dict_get sid (session_metadata (manager w')) =
      Some (mkMetadata (created_timestamp md) now' (access_count md + 2)).
Proof.
  intros Hwf Hl Hd Hnd Hmd Hlive Hlive' Hctx Hc Hcl.
  destruct (get_session_outcome now sid w Hwf)
    as (r & w1 & Hget & Hheld1 & Ht1 & _ & Hcase).
  pose proof (get_session_wf now sid w r w1 Hwf Hget) as Hwf1.
  rewrite Hl, Hmd in Hcase.
  rewrite (proj2 (Z.ltb_ge _ _) Hlive) in Hcase.
  destruct Hcase as (d' & Hd' & -> & Hs1 & Hm1 & Hh1).
  assert (d' = d) as -> by congruence.
  pose proof (lookup_lt_Some _ _ _ Hd) as Hlt.
  pose proof (lookup_lt_Some _ _ _ Hc) as Hclt.
  assert (heap w1 !! length (heap w) = Some (ODict d)) as Hcopy.
  { rewrite Hh1. by rewrite lookup_app_r, Nat.sub_diag by lia. }
  assert (truthy (heap w1) (VRef (length (heap w))) = true) as Htruthy.
  { unfold truthy. unfold loc in *. rewrite Hcopy. by destruct d. }
  assert (heap w1 !! c = Some (ODict dc)) as Hc1.
  { rewrite Hh1. by apply lookup_app_l_Some. }
  assert (heap w1 !! l = Some (ODict d)) as Hl1.
  { rewrite Hh1. by apply lookup_app_l_Some. }
  set (w2 := mkWorld (manager w1)
               (<[c := ODict (dict_set key value dc)]> (heap w1))
               (held w1) (lock_count w1)).
  assert (wf w2) as Hwf2 by (by eapply wf_set_heap).
  destruct (update_session_outcome now' sid d w2 Hwf2)
    as (b & w' & Hup & _ & _ & _ & Hcase).
  simpl in Hcase. rewrite Hs1, Hl, Hm1 in Hcase.
  rewrite dict_get_set, decide_True in Hcase by done. simpl in Hcase.
  rewrite Ht1 in Hcase.
  rewrite (proj2 (Z.ltb_ge _ _) Hlive') in Hcase.
  destruct Hcase as (d2 & Hd2 & -> & Hs' & Hm' & _ & _ & Hh').
  assert (d2 = d) as ->.
  { unfold loc in *. rewrite list_lookup_insert_ne in Hd2 by done. congruence. }
  rewrite dict_update_self in Hh' by done.
  exists w'. split_and!.
  - unfold update_session_context, try_except, set_item, read_dict. unfold_M.
    rewrite Hget. cbv beta iota. rewrite Htruthy. cbv beta iota delta [negb].
    unfold loc in *. rewrite Hcopy. cbv beta iota.
    unfold dict_mem. rewrite Hctx. cbv beta iota.
    rewrite Hcopy. cbv beta iota. rewrite Hctx. cbv beta iota delta [default].
    simpl. rewrite Hc1. cbv beta iota. simpl.
    rewrite list_lookup_insert_ne by lia. rewrite Hcopy. cbv beta iota.
    fold w2. by rewrite Hup.
  - rewrite Hh'. unfold loc in *.
    rewrite list_lookup_insert_ne by done. simpl.
    apply list_lookup_insert_eq. rewrite Hh1, length_app. lia.
  - apply stored_record_Some with (l := l).
    + rewrite Hs'. simpl. by rewrite ?Hs1.
    + rewrite Hh'. apply list_lookup_insert_eq. simpl.
      rewrite length_insert, Hh1, length_app. lia.
  - rewrite Hm'. rewrite dict_get_set, decide_True by done. simpl. do 2 f_equal. lia.
Qed.

(** *** The index of sessions by user *)

Lemma dict_update_keeps_key {K V} `{EqDecision K} (k : K) (d other : list (K * V)) :
  dict_mem k d = true → dict_mem k (dict_update d other) = true.
Proof.
  unfold dict_update. revert d. induction other as [|[k' v'] other IH];
    intros d Hd; simpl; [done|].
  apply IH. unfold dict_mem in *. rewrite dict_get_set.
  by destruct (decide (k = k')).
Qed.

Lemma dict_set_set {K V} `{EqDecision K} (k : K) (v v' : V) d :
  dict_set k v (dict_set k v' d) = dict_set k v d.
Proof.
  induction d as [|[k0 v0] d IH]; simpl.
  - by rewrite decide_True.
  - destruct (decide (k = k0)) as [->|Hne]; simpl.
    + by rewrite decide_True.
    + rewrite decide_False by done. by rewrite IH.
Qed.

#[local] Arguments truthy : simpl never.
#[local] Arguments hashable : simpl never.

(** X26. [create_session] files the session under its [user_id] by
    appending the identifier to the user's list, without looking whether it
    is there already: creating a session again under an identifier the
    user already has lists it twice. A [user_id] that is false in Python
    ([None], [0], the empty string) is not indexed at all. (The store is
    below [max_sessions], so that nothing is evicted.) *)
Theorem create_session_appends_to_user_index now sid data w :
  wf w →
  Z.of_nat (length (sessions (manager w))) < max_sessions (manager w) →
  ∃ b w' d uid,
    create_session now sid data w = Returns b w' ∧
    stored_record sid w' = Some d ∧
    dict_get "user_id" d = Some uid ∧
    (truthy (heap w') uid = false →
       b = true ∧ user_sessions (manager w') = user_sessions (manager w)) ∧
    (truthy (heap w') uid = true → hashable uid = true →
       b = true ∧
       user_sessions (manager w') =
         dict_set uid
           (default [] (dict_get uid (user_sessions (manager w))) ++ [sid])
           (user_sessions (manager w))).
Proof.
  intros (Hheld & Hnd & Hkeys & Hheap) Hroom.
  unfold create_session, with_lock, acquire, _cleanup_oldest_session,
    user_sessions_item, set_active_sessions, release, stored_record.
  unfold_M. simpl. rewrite Hheld. simpl.
  rewrite (proj2 (Z.leb_gt _ _) Hroom).
  cbn [heap manager held lock_count].
  set (fields := dict_update _ (default [] data)).
  assert (∃ uid, dict_get "user_id" fields = Some uid) as [uid Huid].
  { assert (dict_mem "user_id" fields = true) as Hmem.
    { subst fields. by apply dict_update_keeps_key. }
    unfold dict_mem in Hmem. destruct (dict_get "user_id" fields); [eauto|done]. }
  rewrite Huid. change (default VNone (Some uid)) with uid.
  set (h' := (((heap w ++ _) ++ _) ++ _) ++ [ODict fields]).
  assert (h' !! length (((heap w ++ [OList []]) ++ [ODict []]) ++ [ODict []])
          = Some (ODict fields)) as Hrec.
  { subst h'. by rewrite lookup_app_r, Nat.sub_diag by lia. }
  destruct (truthy h' uid) eqn:Htr; [destruct (hashable uid) eqn:Hh|]; simpl.
  - destruct (dict_get uid (user_sessions (manager w))) as [ids|] eqn:Hus; simpl;
      rewrite ?filter_ne_singleton;
      eexists true, _, fields, uid; (split; [reflexivity|]); simpl;
      rewrite dict_get_set, decide_True by done; simpl;
      unfold loc in *; rewrite Hrec, ?Htr; split_and!; try done.
    + intros _ _. by rewrite Hus.
    + intros _ _. split; [done|]. by rewrite Hus, dict_set_set.
  - rewrite ?filter_ne_singleton.
    eexists false, _, fields, uid. (split; [reflexivity|]); simpl.
    rewrite dict_get_set, decide_True by done; simpl.
    unfold loc in *. rewrite Hrec, ?Htr. split_and!; try done.
    intros _ Hh'. congruence.
  - rewrite ?filter_ne_singleton.
    eexists true, _, fields, uid. (split; [reflexivity|]); simpl.
    rewrite dict_get_set, decide_True by done; simpl.
    unfold loc in *. rewrite Hrec, ?Htr. split_and!; try done.
Qed.

Lemma get_session_live now sid w l d md :
  wf w →
  dict_get sid (sessions (manager w)) = Some l →
  heap w !! l = Some (ODict d) →
  dict_get sid (session_metadata (manager w)) = Some md →
  now - last_access_timestamp md ≤ session_timeout (manager w) →
  ∃ w', get_session now sid w = Returns (Some (length (heap w))) w' ∧
    held w' = [] ∧
    session_timeout (manager w') = session_timeout (manager w) ∧
    sessions (manager w') = sessions (manager w) ∧
    session_metadata (manager w') =
      dict_set sid (mkMetadata (created_timestamp md) now (access_count md + 1))
        (session_metadata (manager w)) ∧
    user_sessions (manager w') = user_sessions (manager w) ∧
    stats (manager w') = stats (manager w) ∧
    heap w' = heap w ++ [ODict d].
Proof.
  intros (Hheld & Hnd & Hkeys & Hheap) Hl Hd Hmd Hlive.
  apply Z.ltb_ge in Hlive.
  unfold get_session, session_lock, with_lock, acquire, _is_session_expired,
    _update_session_access, release.
  unfold_M.
  destruct (dict_get sid (session_locks (manager w))) as [lk|] eqn:Hlk;
    repeat (simpl; rewrite ?Hheld, ?Hl, ?Hmd, ?Hlive, ?Hd);
    simpl; rewrite ?filter_ne_singleton;
    eexists; (split; [reflexivity|]); simpl; by split_and!.
Qed.

Lemma get_user_sessions_loop_live now uid ids found w :
  wf w →
  0 ≤ session_timeout (manager w) →
  Forall (live now w) ids →
  ∃ new w',
    get_user_sessions_loop now uid ids found w = Returns (found ++ new) w' ∧
    wf w' ∧
    Forall2 (λ sid (r : loc), ∃ d, stored_record sid w = Some d ∧
                                   heap w' !! r = Some (ODict d)) ids new ∧
    sessions (manager w') = sessions (manager w) ∧
    user_sessions (manager w') = user_sessions (manager w) ∧
    (∀ (l : loc) o, heap w !! l = Some o → heap w' !! l = Some o).
Proof.
  revert found w. induction ids as [|sid ids IH]; intros found w Hwf Htimeout Hlive.
  - exists [], w. rewrite app_nil_r. by split_and!.
  - apply Forall_cons in Hlive as [(l & d & md & Hl & Hd & Hne & Hmd & Hnow) Hrest].
    destruct (get_session_live now sid w l d md Hwf Hl Hd Hmd Hnow)
      as (w1 & Hget & Hheld1 & Ht1 & Hs1 & Hm1 & Hus1 & _ & Hh1).
    pose proof (get_session_wf now sid w _ w1 Hwf Hget) as Hwf1.
    assert (∀ (l0 : loc) o, heap w !! l0 = Some o → heap w1 !! l0 = Some o) as Hmono.
    { intros l0 o Ho. rewrite Hh1. by apply lookup_app_l_Some. }
    assert (∀ sid', stored_record sid' w1 = stored_record sid' w) as Hrec.
    { intros sid'. unfold stored_record. rewrite Hs1.
      destruct (dict_get sid' (sessions (manager w))) as [l'|] eqn:Hl'; [|done].
      simpl. destruct Hwf as (_ & _ & _ & Hheap).
      destruct (Hheap sid' l' Hl') as [d' Hd']. by rewrite (Hmono _ _ Hd'), Hd'. }
    destruct (IH (found ++ [length (heap w)]) w1) as
      (new & w' & Hloop & Hwf' & Hall & Hs' & Hus' & Hmono').
    { done. }
    { by rewrite Ht1. }
    { eapply Forall_impl; [exact Hrest|].
      intros sid' (l' & d' & md' & Hl' & Hd' & Hne' & Hmd' & Hnow').
      destruct (decide (sid' = sid)) as [->|Hsid].
      - eexists l', d', _. rewrite Hs1, Hm1, Ht1, dict_get_set, decide_True by done.
        split_and!; [done|by apply Hmono|done|done|simpl; lia].
      - exists l', d', md'. rewrite Hs1, Hm1, Ht1, dict_get_set, decide_False by done.
        split_and!; [done|by apply Hmono|done|done|done]. }
    exists (length (heap w) :: new), w'.
    assert (truthy (heap w1) (VRef (length (heap w))) = true) as Htruthy.
    { unfold truthy. unfold loc in *.
      rewrite Hh1, lookup_app_r, Nat.sub_diag by lia. simpl. by destruct d. }
    split_and!.
    + change (get_user_sessions_loop now uid (sid :: ids) found w) with
        (mbind (λ session_data : option loc,
                  h ← get_heap;
                  match session_data with
                  | Some record =>
                      if truthy h (VRef record)
                      then get_user_sessions_loop now uid ids (found ++ [record])
                      else user_sessions_remove uid sid;;
                           get_user_sessions_loop now uid ids found
                  | None =>
                      user_sessions_remove uid sid;;
                      get_user_sessions_loop now uid ids found
                  end) (get_session now sid) w).
      unfold mbind, M_bind, get_heap. rewrite Hget. cbv beta iota.
      rewrite Htruthy. cbv beta iota. rewrite <- app_assoc in Hloop. exact Hloop.
    + done.
    + constructor.
      * exists d. split; [by eapply stored_record_Some|].
        apply Hmono'. rewrite Hh1. by rewrite lookup_app_r, Nat.sub_diag by lia.
      * eapply Forall2_impl; [exact Hall|]. intros sid' r (d' & Hd' & Hr').
        exists d'. by rewrite <- Hrec.
    + by rewrite Hs', Hs1.
    + by rewrite Hus', Hus1.
    + intros l0 o Ho. by apply Hmono', Hmono.
Qed.

(** X27. When every session listed for a user is stored, not expired
    and not empty, [get_user_sessions] returns one record per entry of the
    user's list, in the order of the list, each a copy of the stored record
    of that session; sessions and index are left as they are. *)
Theorem get_user_sessions_returns_live_sessions now uid w ids :
  wf w →
  0 ≤ session_timeout (manager w) →
  hashable uid = true →
  dict_get uid (user_sessions (manager w)) = Some ids →
  Forall (live now w) ids →
  ∃ records w',
    get_user_sessions now uid w = Returns records w' ∧
    wf w' ∧
    Forall2 (λ sid (r : loc), ∃ d, stored_record sid w = Some d ∧
                                   heap w' !! r = Some (ODict d)) ids records ∧
    sessions (manager w') = sessions (manager w) ∧
    user_sessions (manager w') = user_sessions (manager w).
Proof.
  intros Hwf Htimeout Hhash Hids Hlive.
  destruct (get_user_sessions_loop_live now uid ids [] w Hwf Htimeout Hlive)
    as (records & w' & Hloop & Hwf' & Hall & Hs & Hus & _).
  exists records, w'. split_and!; try done.
  unfold get_user_sessions, try_except. rewrite Hhash. unfold_M.
  rewrite Hids. simpl. by rewrite Hloop.
Qed.

(** *** Instances *)

Ltac created_wf :=
  lazymatch goal with
  | H : create_session ?now ?sid ?data ?w = Returns ?b ?w' |- wf ?w' =>
      apply (create_session_wf now sid data w b); [|exact H]
  end.

Lemma delete_session_witness :
  ∃ w1,
    create_session 0 "s1" (Some [("user_id", VInt 7)]) (init 10 5) = Returns true w1 ∧
    ∃ w2,
      delete_session "s1" w1 = Returns true w2 ∧
      dict_get "s1" (sessions (manager w2)) = None ∧
      ∃ w3, delete_session "s1" w2 = Returns true w3.
Proof.
  eexists. split; [vm_compute; reflexivity|].
  lazymatch goal with
  | |- ∃ w2, delete_session "s1" ?w1 = _ ∧ _ =>
      assert (wf w1) as Hwf
        by (apply (create_session_wf 0 "s1" (Some [("user_id", VInt 7)])
                     (init 10 5) true);
            [apply wf_init_world | vm_compute; reflexivity]);
      destruct (delete_session_removes_session "s1" w1 Hwf)
        as (w2 & Hdel & Hwf2 & Hgone & _ & _ & _ & _ & _ & Hhash2 & _);
      [vm_compute; reflexivity|]
  end.
  exists w2. split_and!; [exact Hdel|exact Hgone|].
  destruct (delete_session_removes_session "s1" w2 Hwf2 Hhash2) as (w3 & Hdel3 & _).
  exists w3. exact Hdel3.
Defined.

Lemma cleanup_expired_sessions_witness :
  ∃ w1 w2,
    create_session 0 "s1" None (init 10 5) = Returns true w1 ∧
    create_session 5 "s2" None w1 = Returns true w2 ∧
    ∃ n w3,
      cleanup_expired_sessions 12 w2 = Returns n w3 ∧
      dict_get "s1" (sessions (manager w3)) = None ∧
      dict_get "s2" (sessions (manager w3)) = dict_get "s2" (sessions (manager w2)) ∧
      n = 2 - Z.of_nat (length (sessions (manager w3))).
Proof.
  do 2 eexists. split; [vm_compute; reflexivity|].
  split; [vm_compute; reflexivity|].
  lazymatch goal with
  | |- ∃ n w3, cleanup_expired_sessions 12 ?w2 = _ ∧ _ =>
      assert (wf w2) as Hwf
        by (eapply (create_session_wf 5 "s2" None _ true);
            [eapply (create_session_wf 0 "s1" None (init 10 5) true);
             [apply wf_init_world | vm_compute; reflexivity]
            | vm_compute; reflexivity]);
      destruct (cleanup_expired_sessions_removes_exactly_expired 12 w2 Hwf)
        as (n & w3 & Hclean & _ & Hframe & Hn & _)
  end.
  exists n, w3. split_and!; [exact Hclean| | |exact Hn].
  - apply (Hframe "s1" (mkMetadata 0 0 1)); [vm_compute; reflexivity|].
    vm_compute. reflexivity.
  - apply (Hframe "s2" (mkMetadata 5 5 1)); [vm_compute; reflexivity|].
    vm_compute. discriminate.
Defined.

Lemma update_session_witness :
  ∃ w1,
    create_session 0 "s1" None (init 10 5) = Returns true w1 ∧
    ∃ w2,
      update_session 3 "s1"
        [("state", VStr "ended"); ("last_activity", VStr "never")] w1
      = Returns true w2 ∧
      (stored_record "s1" w2 ≫= dict_get "last_activity") = Some (VIso 3) ∧
      user_sessions (manager w2) = user_sessions (manager w1).
Proof.
  eexists. split; [vm_compute; reflexivity|].
  lazymatch goal with
  | |- ∃ w2, update_session 3 "s1" ?upd ?w1 = _ ∧ _ =>
      assert (wf w1) as Hwf
        by (apply (create_session_wf 0 "s1" None (init 10 5) true);
            [apply wf_init_world | vm_compute; reflexivity]);
      edestruct (update_session_merges_and_stamps 3 "s1" upd w1 3%nat)
        as (w2 & Hup & _ & _ & Hstamp & _ & _ & Hus);
      [exact Hwf | vm_compute; reflexivity | vm_compute; reflexivity
      | vm_compute; reflexivity | vm_compute; discriminate |]
  end.
  exists w2. split_and!; [exact Hup|exact Hstamp|exact Hus].
Defined.

Lemma update_session_missing_witness :
  ∃ w', update_session 3 "ghost" [("state", VStr "ended")] (init 10 5)
        = Returns false w' ∧
        stored_record "ghost" w' = None ∧
        sessions (manager w') = [].
Proof.
  destruct (update_session_without_live_session 3 "ghost"
              [("state", VStr "ended")] (init 10 5))
    as (w' & Hup & Hrec & _ & _ & Hsame).
  - apply wf_init_world.
  - left. reflexivity.
  - exists w'. split_and!; [exact Hup|exact Hrec|].
    exact (proj1 (Hsame eq_refl)).
Defined.

Lemma get_conversation_history_witness :
  ∃ w1,
    create_session 0 "s1" None (init 10 5) = Returns true w1 ∧
    let w2 :=
      mutate_all [Append 0%nat (VStr "a"); Append 0%nat (VStr "b");
                  Append 0%nat (VStr "c")] w1 in
    (∃ w3, get_conversation_history 1 "s1" 0 w2 =
             Returns (Messages [VStr "a"; VStr "b"; VStr "c"]) w3) ∧
    (∃ w3, get_conversation_history 1 "s1" 2 w2 =
             Returns (Messages [VStr "b"; VStr "c"]) w3) ∧
    (∃ w3, get_conversation_history 1 "s1" (-1) w2 =
             Returns (Messages [VStr "b"; VStr "c"]) w3).
Proof.
  eexists. split; [vm_compute; reflexivity|].
  lazymatch goal with
  | |- let w2 := mutate_all ?mus ?w1 in _ =>
      intros w2;
      assert (wf w2) as Hwf
        by (apply mutate_all_wf;
            apply (create_session_wf 0 "s1" None (init 10 5) true);
            [apply wf_init_world | vm_compute; reflexivity])
  end.
  assert (∀ limit, ∃ w3,
            get_conversation_history 1 "s1" limit w2 =
              Returns (Messages (last_messages limit
                                   [VStr "a"; VStr "b"; VStr "c"])) w3) as Hget.
  { intros limit.
    edestruct (get_conversation_history_returns_last_messages 1 "s1" limit w2
                 3%nat)
      as (w3 & Hh & _);
      [exact Hwf | vm_compute; reflexivity | vm_compute; reflexivity
      | vm_compute; reflexivity | vm_compute; discriminate
      | vm_compute; reflexivity | vm_compute; reflexivity |].
    exists w3. exact Hh. }
  split_and!.
  - destruct (Hget 0) as [w3 H]. exists w3. exact H.
  - destruct (Hget 2) as [w3 H]. exists w3. exact H.
  - destruct (Hget (-1)) as [w3 H]. exists w3. exact H.
Defined.

Lemma get_session_unknown_id_witness :
  ∃ w', get_session 0 "ghost" (init 10 5) = Returns None w' ∧
        session_locks (manager w') = [("ghost", 1%nat)] ∧
        sessions (manager w') = [].
Proof.
  destruct (get_session_of_unknown_id_leaves_a_lock 0 "ghost" (init 10 5))
    as (w' & Hget & Hlocks & _ & Hs & _); [reflexivity..|].
  exists w'. split_and!; [exact Hget|exact Hlocks|exact Hs].
Defined.

Lemma update_session_context_witness :
  ∃ w1,
    create_session 0 "s1" None (init 10 5) = Returns true w1 ∧
    ∃ record w2,
      get_session 1 "s1" w1 = Returns (Some record) w2 ∧
      (heap w2 !! record ≫= field "context") = Some (VRef 1%nat) ∧
      ∃ w3,
        update_session_context 2 3 "s1" "mood" (VStr "spicy") w2 = Returns true w3 ∧
        heap w3 !! 1%nat = Some (ODict [("mood", VStr "spicy")]).
Proof.
  eexists. split; [vm_compute; reflexivity|].
  do 2 eexists. split; [vm_compute; reflexivity|].
  split; [vm_compute; reflexivity|].
  lazymatch goal with
  | |- ∃ w3, update_session_context 2 3 "s1" "mood" _ ?w2 = _ ∧ _ =>
      assert (wf w2) as Hwf
        by (eapply (get_session_wf 1 "s1" _ _ w2);
            [eapply (create_session_wf 0 "s1" None (init 10 5) true);
             [apply wf_init_world | vm_compute; reflexivity]
            | vm_compute; reflexivity]);
      edestruct (update_session_context_writes_shared_context 2 3 "s1" "mood"
                   (VStr "spicy") w2 3%nat)
        as (w3 & Hup & Hctx & Hrec & _);
      [exact Hwf | vm_compute; reflexivity | vm_compute; reflexivity
      | apply (bool_decide_unpack _); vm_compute; exact I
      | vm_compute; reflexivity | vm_compute; discriminate
      | vm_compute; discriminate | vm_compute; reflexivity
      | vm_compute; reflexivity | discriminate |]
  end.
  exists w3. split; [exact Hup|exact Hctx].
Defined.

Lemma create_session_index_witness :
  ∃ w1,
    create_session 0 "s1" (Some [("user_id", VInt 7)]) (init 10 5) = Returns true w1 ∧
    ∃ w2,
      create_session 1 "s1" (Some [("user_id", VInt 7)]) w1 = Returns true w2 ∧
      user_sessions (manager w2) = [(VInt 7, ["s1"; "s1"])] ∧
      length (sessions (manager w2)) = 1%nat.
Proof.
  eexists. split; [vm_compute; reflexivity|].
  lazymatch goal with
  | |- ∃ w2, create_session 1 "s1" ?data ?w1 = _ ∧ _ =>
      assert (wf w1) as Hwf
        by (apply (create_session_wf 0 "s1" data (init 10 5) true);
            [apply wf_init_world | vm_compute; reflexivity]);
      destruct (create_session_appends_to_user_index 1 "s1" data w1 Hwf)
        as (b & w2 & d & uid & Hcr & Hrec & Huid & _ & Hindex);
      [vm_compute; reflexivity|];
      assert (create_session 1 "s1" data w1 = Returns true w2 ∧ uid = VInt 7)
        as [Hcr' ->]
  end.
  { revert Hcr Hrec Huid. vm_compute. intros [= <- <-]. vm_compute.
    intros [= <-]. vm_compute. intros [= <-]. done. }
  destruct Hindex as [_ Hus]; [reflexivity..|].
  exists w2. split_and!; [exact Hcr'|exact Hus|].
  revert Hcr'. vm_compute. intros [= <-]. reflexivity.
Defined.

Lemma get_user_sessions_witness :
  ∃ w1 w2,
    create_session 0 "s1" (Some [("user_id", VInt 7)]) (init 10 5) = Returns true w1 ∧
    create_session 5 "s2" (Some [("user_id", VInt 7)]) w1 = Returns true w2 ∧
    ∃ records w3,
      get_user_sessions 6 (VInt 7) w2 = Returns records w3 ∧
      length records = 2%nat ∧
      user_sessions (manager w3) = [(VInt 7, ["s1"; "s2"])].
Proof.
  do 2 eexists. split; [vm_compute; reflexivity|].
  split; [vm_compute; reflexivity|].
  lazymatch goal with
  | |- ∃ records w3, get_user_sessions 6 (VInt 7) ?w2 = _ ∧ _ =>
      assert (wf w2) as Hwf
        by (eapply (create_session_wf 5 "s2" (Some [("user_id", VInt 7)]) _ true);
            [eapply (create_session_wf 0 "s1" (Some [("user_id", VInt 7)])
                      (init 10 5) true);
             [apply wf_init_world | vm_compute; reflexivity]
            | vm_compute; reflexivity]);
      destruct (get_user_sessions_returns_live_sessions 6 (VInt 7) w2 ["s1"; "s2"] Hwf)
        as (records & w3 & Hget & _ & Hall & _ & Hus)
  end.
  - vm_compute. discriminate.
  - reflexivity.
  - vm_compute. reflexivity.
  - repeat constructor; unfold live;
      eexists _, _, _;
      (split; [vm_compute; reflexivity|]);
      (split; [vm_compute; reflexivity|]);
      (split; [discriminate|]);
      (split; [vm_compute; reflexivity|]);
      vm_compute; discriminate.
  - exists records, w3. split_and!; [exact Hget| |exact Hus].
    symmetry. exact (Forall2_length _ _ _ Hall).
Defined.

End SessionProperties.
